(** * pmon: a shallow embedding of the power sampler in [pmon.c]

    The C program identifies the processor, opens one MSR device per
    physical unit, reads the vendor's energy-unit register once, and then
    loops forever reading energy counters and printing the difference to
    the previous reading.

    Conventions of the embedding:
    - [u_int] and [int] values are [Z] with the 32-bit wrap-around written
      out ([u32], [s32]); [uint64_t] register contents are [Z];
    - [double] is the kernel's binary64 type [float];
    - the C globals are the fields of one [state] record, threaded through
      a state-and-exit monad [M]; [exit(1)] is the outcome [Exited 1];
    - the outside world (the [cpuid] instruction, [sysconf], [calloc],
      [open], the MSR device) is an explicit argument; [getopt] is the
      library's, with the line it writes itself for an unknown option;
    - [printf] appends an [out_event] to [stdout]: one constructor per
      format string of the source, carrying the printed arguments. *)

From Stdlib Require Import ZArith List Bool Lia String Ascii Floats.
Import ListNotations.
Open Scope Z_scope.

(** ** Machine integers and doubles *)

Definition u32 (z : Z) : Z := z mod 2 ^ 32.

Definition s32 (z : Z) : Z := (z + 2 ^ 31) mod 2 ^ 32 - 2 ^ 31.

(** Conversion of an integer to [double] (round to nearest, ties to even). *)
Definition Z_to_double (z : Z) : float :=
  SF2Prim (binary_normalize prec emax z 0 false).

(** Conversion of a [double] to [int]: the fraction is discarded.  A value
    that does not fit (also an infinity or a NaN) gives what the x86-64
    conversion instruction gives, the most negative [int]. *)
Definition double_to_int (x : float) : Z :=
  match Prim2SF x with
  | S754_zero _ => 0
  | S754_finite s m e =>
      let a := if 0 <=? e then Z.shiftl (Zpos m) e
               else Z.shiftr (Zpos m) (- e) in
      let v := if s then - a else a in
      if (- 2 ^ 31 <=? v) && (v <? 2 ^ 31) then v else - 2 ^ 31
  | _ => - 2 ^ 31
  end.

(** [pow(x, n)] of libm for the integral exponents the program passes; for
    the base [0.5] every product below is exact. *)
Definition pow (x : float) (n : Z) : float :=
  Nat.iter (Z.to_nat n) (fun acc => (acc * x)%float) 1%float.

(** ** Constants of the source *)

Definition CPUID_MODEL : Z := 0x000000f0.
Definition CPUID_FAMILY : Z := 0x00000f00.
Definition CPUID_EXT_MODEL : Z := 0x000f0000.
Definition CPUID_EXT_FAMILY : Z := 0x0ff00000.

Definition CPUID_TO_MODEL (id : Z) : Z :=
  Z.lor (Z.shiftr (Z.land id CPUID_MODEL) 4)
        (Z.shiftr (Z.land id CPUID_EXT_MODEL) 12).

Definition CPUID_TO_FAMILY (id : Z) : Z :=
  u32 (Z.shiftr (Z.land id CPUID_FAMILY) 8
       + Z.shiftr (Z.land id CPUID_EXT_FAMILY) 20).

Definition AMD_ENERGY_CORE_MSR : Z := 0xC001029A.
Definition AMD_ENERGY_PKG_MSR : Z := 0xC001029B.
Definition AMD_ENERGY_PWR_UNIT_MSR : Z := 0xC0010299.
Definition AMD_ENERGY_UNIT_MASK : Z := 0x01F00.

Definition INTEL_ENERGY_PKG_MSR : Z := 0x611.
Definition INTEL_ENERGY_DRAM_MSR : Z := 0x619.
Definition INTEL_ENERGY_PWR_UNIT_MSR : Z := 0x606.

(** ** Data *)

Inductive processor_type : Type := AMD | INTEL.

Definition processor_type_eqb (a b : processor_type) : bool :=
  match a, b with
  | AMD, AMD | INTEL, INTEL => true
  | _, _ => false
  end.

(** [struct softc]. *)
Record softc_t : Type := { fd : Z; last : float }.

(** What [printf] writes, one constructor per format string. *)
Inductive out_event : Type :=
| PrintUnsupportedCPU (family model : Z) (* "unsupported CPU 0x%x 0x%x\n" *)
| PrintVendorNotImplemented (vendor : list Z)
                       (* "Support for CPU vendor  %s not implemented\n" *)
| PrintDriverHint      (* "Did you remember to modprobe msr?\n" *)
| PrintThreads (threads cpus : Z)          (* "%d threads, %d CPUs\n" *)
| PrintUnitsAMD (units : Z)                (* "energy_units %d\n" *)
| PrintUnitsIntel (units : float)          (* "energy_units %lf\n" *)
| PrintPlain (v : float)                   (* "%4.2lf" *)
| PrintPkg (v : float)                     (* "pkg: %4.2lf" *)
| PrintCoreSum (v : float)                 (* "  core sum=%4.2lf\n" *)
| PrintNl                                  (* "\n" *)
| PrintDram (v : float)                    (* "\tdram: %4.2lf" *)
| PrintRule                                (* "=====...=====\n" *)
| PrintCoreHdr (core : Z)                  (* "core %3d:\t" *)
| PrintCore (core : Z) (v : float).
    (* "%3.2lf\t"; [core] is the loop index the cell is printed under, it
       is not part of the text *)

(** What goes to standard error. *)
Inductive err_event : Type :=
| Perror (what : string)
| GetoptInvalid (name : string) (c : ascii)
    (* the line [getopt] writes for an option character it does not know,
       "%s: invalid option -- '%c'\n" in glibc *)
| Usage (name : string).           (* "usage: %s [-v] [interval]\n" *)

(** The globals of the program; those that are written and never read
    ([cpu_high], [cpu_procinfo], [cpu_feature], [cpu_feature2]) are left
    out.  [softc] is the memory the pointer of the same name addresses, by
    element index; [softc_slots] is the element count [calloc] was asked
    for.  [msr_log] (the registers read, as
    descriptor and address), [oob_log] (the indices at which [softc] was
    addressed outside the allocated elements) and [slept] (the arguments of
    [sleep]) record what the program did; they do not influence it. *)
Record state : Type := {
  cpu_vendor : list Z;
  cpu_id : Z;
  cpu_family : Z;
  cpu_model : Z;
  cpu_count : Z;
  share_count : Z;
  amd_energy_units : Z;
  energy_units : float;
  dram_units : float;
  scale : float;
  verbose : Z;
  pkg_msr : Z;
  core_msr : Z;
  dram_msr : Z;
  softc_slots : Z;
  softc : Z -> softc_t;
  cpu : processor_type;
  first : bool;
  stdout : list out_event;
  stderr : list err_event;
  msr_log : list (Z * Z);
  oob_log : list Z;
  slept : list Z
}.

Definition set_cpu_vendor (v : list Z) (g : state) : state :=
  {| cpu_vendor := v; cpu_id := cpu_id g; cpu_family := cpu_family g;
     cpu_model := cpu_model g; cpu_count := cpu_count g;
     share_count := share_count g; amd_energy_units := amd_energy_units g;
     energy_units := energy_units g; dram_units := dram_units g;
     scale := scale g; verbose := verbose g; pkg_msr := pkg_msr g;
     core_msr := core_msr g; dram_msr := dram_msr g;
     softc_slots := softc_slots g; softc := softc g; cpu := cpu g;
     first := first g; stdout := stdout g; stderr := stderr g;
     msr_log := msr_log g; oob_log := oob_log g; slept := slept g |}.

Definition set_cpu_id (v : Z) (g : state) : state :=
  {| cpu_vendor := cpu_vendor g; cpu_id := v; cpu_family := cpu_family g;
     cpu_model := cpu_model g; cpu_count := cpu_count g;
     share_count := share_count g; amd_energy_units := amd_energy_units g;
     energy_units := energy_units g; dram_units := dram_units g;
     scale := scale g; verbose := verbose g; pkg_msr := pkg_msr g;
     core_msr := core_msr g; dram_msr := dram_msr g;
     softc_slots := softc_slots g; softc := softc g; cpu := cpu g;
     first := first g; stdout := stdout g; stderr := stderr g;
     msr_log := msr_log g; oob_log := oob_log g; slept := slept g |}.

Definition set_cpu_family (v : Z) (g : state) : state :=
  {| cpu_vendor := cpu_vendor g; cpu_id := cpu_id g; cpu_family := v;
     cpu_model := cpu_model g; cpu_count := cpu_count g;
     share_count := share_count g; amd_energy_units := amd_energy_units g;
     energy_units := energy_units g; dram_units := dram_units g;
     scale := scale g; verbose := verbose g; pkg_msr := pkg_msr g;
     core_msr := core_msr g; dram_msr := dram_msr g;
     softc_slots := softc_slots g; softc := softc g; cpu := cpu g;
     first := first g; stdout := stdout g; stderr := stderr g;
     msr_log := msr_log g; oob_log := oob_log g; slept := slept g |}.

Definition set_cpu_model (v : Z) (g : state) : state :=
  {| cpu_vendor := cpu_vendor g; cpu_id := cpu_id g;
     cpu_family := cpu_family g; cpu_model := v; cpu_count := cpu_count g;
     share_count := share_count g; amd_energy_units := amd_energy_units g;
     energy_units := energy_units g; dram_units := dram_units g;
     scale := scale g; verbose := verbose g; pkg_msr := pkg_msr g;
     core_msr := core_msr g; dram_msr := dram_msr g;
     softc_slots := softc_slots g; softc := softc g; cpu := cpu g;
     first := first g; stdout := stdout g; stderr := stderr g;
     msr_log := msr_log g; oob_log := oob_log g; slept := slept g |}.

Definition set_cpu_count (v : Z) (g : state) : state :=
  {| cpu_vendor := cpu_vendor g; cpu_id := cpu_id g;
     cpu_family := cpu_family g; cpu_model := cpu_model g; cpu_count := v;
     share_count := share_count g; amd_energy_units := amd_energy_units g;
     energy_units := energy_units g; dram_units := dram_units g;
     scale := scale g; verbose := verbose g; pkg_msr := pkg_msr g;
     core_msr := core_msr g; dram_msr := dram_msr g;
     softc_slots := softc_slots g; softc := softc g; cpu := cpu g;
     first := first g; stdout := stdout g; stderr := stderr g;
     msr_log := msr_log g; oob_log := oob_log g; slept := slept g |}.

Definition set_share_count (v : Z) (g : state) : state :=
  {| cpu_vendor := cpu_vendor g; cpu_id := cpu_id g;
     cpu_family := cpu_family g; cpu_model := cpu_model g;
     cpu_count := cpu_count g; share_count := v;
     amd_energy_units := amd_energy_units g; energy_units := energy_units g;
     dram_units := dram_units g; scale := scale g; verbose := verbose g;
     pkg_msr := pkg_msr g; core_msr := core_msr g; dram_msr := dram_msr g;
     softc_slots := softc_slots g; softc := softc g; cpu := cpu g;
     first := first g; stdout := stdout g; stderr := stderr g;
     msr_log := msr_log g; oob_log := oob_log g; slept := slept g |}.

Definition set_amd_energy_units (v : Z) (g : state) : state :=
  {| cpu_vendor := cpu_vendor g; cpu_id := cpu_id g;
     cpu_family := cpu_family g; cpu_model := cpu_model g;
     cpu_count := cpu_count g; share_count := share_count g;
     amd_energy_units := v; energy_units := energy_units g;
     dram_units := dram_units g; scale := scale g; verbose := verbose g;
     pkg_msr := pkg_msr g; core_msr := core_msr g; dram_msr := dram_msr g;
     softc_slots := softc_slots g; softc := softc g; cpu := cpu g;
     first := first g; stdout := stdout g; stderr := stderr g;
     msr_log := msr_log g; oob_log := oob_log g; slept := slept g |}.

Definition set_energy_units (v : float) (g : state) : state :=
  {| cpu_vendor := cpu_vendor g; cpu_id := cpu_id g;
     cpu_family := cpu_family g; cpu_model := cpu_model g;
     cpu_count := cpu_count g; share_count := share_count g;
     amd_energy_units := amd_energy_units g; energy_units := v;
     dram_units := dram_units g; scale := scale g; verbose := verbose g;
     pkg_msr := pkg_msr g; core_msr := core_msr g; dram_msr := dram_msr g;
     softc_slots := softc_slots g; softc := softc g; cpu := cpu g;
     first := first g; stdout := stdout g; stderr := stderr g;
     msr_log := msr_log g; oob_log := oob_log g; slept := slept g |}.

Definition set_dram_units (v : float) (g : state) : state :=
  {| cpu_vendor := cpu_vendor g; cpu_id := cpu_id g;
     cpu_family := cpu_family g; cpu_model := cpu_model g;
     cpu_count := cpu_count g; share_count := share_count g;
     amd_energy_units := amd_energy_units g; energy_units := energy_units g;
     dram_units := v; scale := scale g; verbose := verbose g;
     pkg_msr := pkg_msr g; core_msr := core_msr g; dram_msr := dram_msr g;
     softc_slots := softc_slots g; softc := softc g; cpu := cpu g;
     first := first g; stdout := stdout g; stderr := stderr g;
     msr_log := msr_log g; oob_log := oob_log g; slept := slept g |}.

Definition set_scale (v : float) (g : state) : state :=
  {| cpu_vendor := cpu_vendor g; cpu_id := cpu_id g;
     cpu_family := cpu_family g; cpu_model := cpu_model g;
     cpu_count := cpu_count g; share_count := share_count g;
     amd_energy_units := amd_energy_units g; energy_units := energy_units g;
     dram_units := dram_units g; scale := v; verbose := verbose g;
     pkg_msr := pkg_msr g; core_msr := core_msr g; dram_msr := dram_msr g;
     softc_slots := softc_slots g; softc := softc g; cpu := cpu g;
     first := first g; stdout := stdout g; stderr := stderr g;
     msr_log := msr_log g; oob_log := oob_log g; slept := slept g |}.

Definition set_verbose (v : Z) (g : state) : state :=
  {| cpu_vendor := cpu_vendor g; cpu_id := cpu_id g;
     cpu_family := cpu_family g; cpu_model := cpu_model g;
     cpu_count := cpu_count g; share_count := share_count g;
     amd_energy_units := amd_energy_units g; energy_units := energy_units g;
     dram_units := dram_units g; scale := scale g; verbose := v;
     pkg_msr := pkg_msr g; core_msr := core_msr g; dram_msr := dram_msr g;
     softc_slots := softc_slots g; softc := softc g; cpu := cpu g;
     first := first g; stdout := stdout g; stderr := stderr g;
     msr_log := msr_log g; oob_log := oob_log g; slept := slept g |}.

Definition set_pkg_msr (v : Z) (g : state) : state :=
  {| cpu_vendor := cpu_vendor g; cpu_id := cpu_id g;
     cpu_family := cpu_family g; cpu_model := cpu_model g;
     cpu_count := cpu_count g; share_count := share_count g;
     amd_energy_units := amd_energy_units g; energy_units := energy_units g;
     dram_units := dram_units g; scale := scale g; verbose := verbose g;
     pkg_msr := v; core_msr := core_msr g; dram_msr := dram_msr g;
     softc_slots := softc_slots g; softc := softc g; cpu := cpu g;
     first := first g; stdout := stdout g; stderr := stderr g;
     msr_log := msr_log g; oob_log := oob_log g; slept := slept g |}.

Definition set_core_msr (v : Z) (g : state) : state :=
  {| cpu_vendor := cpu_vendor g; cpu_id := cpu_id g;
     cpu_family := cpu_family g; cpu_model := cpu_model g;
     cpu_count := cpu_count g; share_count := share_count g;
     amd_energy_units := amd_energy_units g; energy_units := energy_units g;
     dram_units := dram_units g; scale := scale g; verbose := verbose g;
     pkg_msr := pkg_msr g; core_msr := v; dram_msr := dram_msr g;
     softc_slots := softc_slots g; softc := softc g; cpu := cpu g;
     first := first g; stdout := stdout g; stderr := stderr g;
     msr_log := msr_log g; oob_log := oob_log g; slept := slept g |}.

Definition set_dram_msr (v : Z) (g : state) : state :=
  {| cpu_vendor := cpu_vendor g; cpu_id := cpu_id g;
     cpu_family := cpu_family g; cpu_model := cpu_model g;
     cpu_count := cpu_count g; share_count := share_count g;
     amd_energy_units := amd_energy_units g; energy_units := energy_units g;
     dram_units := dram_units g; scale := scale g; verbose := verbose g;
     pkg_msr := pkg_msr g; core_msr := core_msr g; dram_msr := v;
     softc_slots := softc_slots g; softc := softc g; cpu := cpu g;
     first := first g; stdout := stdout g; stderr := stderr g;
     msr_log := msr_log g; oob_log := oob_log g; slept := slept g |}.

Definition set_softc_slots (v : Z) (g : state) : state :=
  {| cpu_vendor := cpu_vendor g; cpu_id := cpu_id g;
     cpu_family := cpu_family g; cpu_model := cpu_model g;
     cpu_count := cpu_count g; share_count := share_count g;
     amd_energy_units := amd_energy_units g; energy_units := energy_units g;
     dram_units := dram_units g; scale := scale g; verbose := verbose g;
     pkg_msr := pkg_msr g; core_msr := core_msr g; dram_msr := dram_msr g;
     softc_slots := v; softc := softc g; cpu := cpu g; first := first g;
     stdout := stdout g; stderr := stderr g; msr_log := msr_log g;
     oob_log := oob_log g; slept := slept g |}.

Definition set_softc (v : Z -> softc_t) (g : state) : state :=
  {| cpu_vendor := cpu_vendor g; cpu_id := cpu_id g;
     cpu_family := cpu_family g; cpu_model := cpu_model g;
     cpu_count := cpu_count g; share_count := share_count g;
     amd_energy_units := amd_energy_units g; energy_units := energy_units g;
     dram_units := dram_units g; scale := scale g; verbose := verbose g;
     pkg_msr := pkg_msr g; core_msr := core_msr g; dram_msr := dram_msr g;
     softc_slots := softc_slots g; softc := v; cpu := cpu g;
     first := first g; stdout := stdout g; stderr := stderr g;
     msr_log := msr_log g; oob_log := oob_log g; slept := slept g |}.

Definition set_cpu (v : processor_type) (g : state) : state :=
  {| cpu_vendor := cpu_vendor g; cpu_id := cpu_id g;
     cpu_family := cpu_family g; cpu_model := cpu_model g;
     cpu_count := cpu_count g; share_count := share_count g;
     amd_energy_units := amd_energy_units g; energy_units := energy_units g;
     dram_units := dram_units g; scale := scale g; verbose := verbose g;
     pkg_msr := pkg_msr g; core_msr := core_msr g; dram_msr := dram_msr g;
     softc_slots := softc_slots g; softc := softc g; cpu := v;
     first := first g; stdout := stdout g; stderr := stderr g;
     msr_log := msr_log g; oob_log := oob_log g; slept := slept g |}.

Definition set_first (v : bool) (g : state) : state :=
  {| cpu_vendor := cpu_vendor g; cpu_id := cpu_id g;
     cpu_family := cpu_family g; cpu_model := cpu_model g;
     cpu_count := cpu_count g; share_count := share_count g;
     amd_energy_units := amd_energy_units g; energy_units := energy_units g;
     dram_units := dram_units g; scale := scale g; verbose := verbose g;
     pkg_msr := pkg_msr g; core_msr := core_msr g; dram_msr := dram_msr g;
     softc_slots := softc_slots g; softc := softc g; cpu := cpu g;
     first := v; stdout := stdout g; stderr := stderr g;
     msr_log := msr_log g; oob_log := oob_log g; slept := slept g |}.

Definition set_stdout (v : list out_event) (g : state) : state :=
  {| cpu_vendor := cpu_vendor g; cpu_id := cpu_id g;
     cpu_family := cpu_family g; cpu_model := cpu_model g;
     cpu_count := cpu_count g; share_count := share_count g;
     amd_energy_units := amd_energy_units g; energy_units := energy_units g;
     dram_units := dram_units g; scale := scale g; verbose := verbose g;
     pkg_msr := pkg_msr g; core_msr := core_msr g; dram_msr := dram_msr g;
     softc_slots := softc_slots g; softc := softc g; cpu := cpu g;
     first := first g; stdout := v; stderr := stderr g; msr_log := msr_log g;
     oob_log := oob_log g; slept := slept g |}.

Definition set_stderr (v : list err_event) (g : state) : state :=
  {| cpu_vendor := cpu_vendor g; cpu_id := cpu_id g;
     cpu_family := cpu_family g; cpu_model := cpu_model g;
     cpu_count := cpu_count g; share_count := share_count g;
     amd_energy_units := amd_energy_units g; energy_units := energy_units g;
     dram_units := dram_units g; scale := scale g; verbose := verbose g;
     pkg_msr := pkg_msr g; core_msr := core_msr g; dram_msr := dram_msr g;
     softc_slots := softc_slots g; softc := softc g; cpu := cpu g;
     first := first g; stdout := stdout g; stderr := v; msr_log := msr_log g;
     oob_log := oob_log g; slept := slept g |}.

Definition set_msr_log (v : list (Z * Z)) (g : state) : state :=
  {| cpu_vendor := cpu_vendor g; cpu_id := cpu_id g;
     cpu_family := cpu_family g; cpu_model := cpu_model g;
     cpu_count := cpu_count g; share_count := share_count g;
     amd_energy_units := amd_energy_units g; energy_units := energy_units g;
     dram_units := dram_units g; scale := scale g; verbose := verbose g;
     pkg_msr := pkg_msr g; core_msr := core_msr g; dram_msr := dram_msr g;
     softc_slots := softc_slots g; softc := softc g; cpu := cpu g;
     first := first g; stdout := stdout g; stderr := stderr g; msr_log := v;
     oob_log := oob_log g; slept := slept g |}.

Definition set_oob_log (v : list Z) (g : state) : state :=
  {| cpu_vendor := cpu_vendor g; cpu_id := cpu_id g;
     cpu_family := cpu_family g; cpu_model := cpu_model g;
     cpu_count := cpu_count g; share_count := share_count g;
     amd_energy_units := amd_energy_units g; energy_units := energy_units g;
     dram_units := dram_units g; scale := scale g; verbose := verbose g;
     pkg_msr := pkg_msr g; core_msr := core_msr g; dram_msr := dram_msr g;
     softc_slots := softc_slots g; softc := softc g; cpu := cpu g;
     first := first g; stdout := stdout g; stderr := stderr g;
     msr_log := msr_log g; oob_log := v; slept := slept g |}.

Definition set_slept (v : list Z) (g : state) : state :=
  {| cpu_vendor := cpu_vendor g; cpu_id := cpu_id g;
     cpu_family := cpu_family g; cpu_model := cpu_model g;
     cpu_count := cpu_count g; share_count := share_count g;
     amd_energy_units := amd_energy_units g; energy_units := energy_units g;
     dram_units := dram_units g; scale := scale g; verbose := verbose g;
     pkg_msr := pkg_msr g; core_msr := core_msr g; dram_msr := dram_msr g;
     softc_slots := softc_slots g; softc := softc g; cpu := cpu g;
     first := first g; stdout := stdout g; stderr := stderr g;
     msr_log := msr_log g; oob_log := oob_log g; slept := v |}.

(** The statics as the C start-up code leaves them. *)
Definition initial_state : state :=
  {| cpu_vendor := repeat 0 20; cpu_id := 0; cpu_family := 0;
     cpu_model := 0; cpu_count := 0; share_count := 0;
     amd_energy_units := 0; energy_units := 0%float; dram_units := 0%float;
     scale := 1%float; verbose := 0; pkg_msr := 0; core_msr := 0;
     dram_msr := 0; softc_slots := 0;
     softc := fun _ => {| fd := 0; last := 0%float |}; cpu := AMD;
     first := true; stdout := []; stderr := []; msr_log := [];
     oob_log := []; slept := [] |}.

(** ** The outside world *)

(** [cpuid ax cx] is what the instruction leaves in [eax, ebx, ecx, edx];
    [dev_open n] is the descriptor [open] returns for the MSR device of
    logical processor [n], or [-1]; [heap_past i] is what memory holds at
    element [i] of the array where [calloc] did not clear it. *)
Record world : Type := {
  cpuid : Z -> Z -> Z * Z * Z * Z;
  nprocessors_conf : Z;
  calloc_ok : bool;
  heap_past : Z -> softc_t;
  dev_open : Z -> Z
}.

(** The MSR device at one moment: descriptor and register address to the
    eight bytes read, [None] when the read fails. *)
Definition msr_dev : Type := Z -> Z -> option Z.

(** ** The monad: state and [exit] *)

Inductive outcome (A : Type) : Type :=
| Done (a : A) (g : state)
| Exited (status : Z) (g : state).
Arguments Done {A} a g.
Arguments Exited {A} status g.

Definition M (A : Type) : Type := state -> outcome A.

Definition ret {A} (a : A) : M A := fun g => Done a g.

Definition bind {A B} (m : M A) (k : A -> M B) : M B :=
  fun g => match m g with
           | Done a g' => k a g'
           | Exited c g' => Exited c g'
           end.

Notation "x <- m ;; k" := (bind m (fun x => k))
  (at level 61, m at next level, right associativity).
Notation "m ;;; k" := (bind m (fun _ => k))
  (at level 61, right associativity).

Definition exit {A} (status : Z) : M A := fun g => Exited status g.
Definition get : M state := fun g => Done g g.
Definition modify (f : state -> state) : M unit := fun g => Done tt (f g).

Definition printf (e : out_event) : M unit :=
  modify (fun g => set_stdout (stdout g ++ [e]) g).

Definition eprint (e : err_event) : M unit :=
  modify (fun g => set_stderr (stderr g ++ [e]) g).

Definition final_state {A} (o : outcome A) : state :=
  match o with Done _ g => g | Exited _ g => g end.

(** [for (core = start; ...; core++)] with [n] iterations left; [acc] is
    the local the body carries from one iteration to the next. *)
Fixpoint for_loop {A} (n : nat) (core : Z) (body : Z -> A -> M A) (acc : A)
  : M A :=
  match n with
  | O => ret acc
  | S k => acc' <- body core acc ;; for_loop k (core + 1) body acc'
  end.

(** ** [read_msr] and the handle array *)

Definition upd (m : Z -> softc_t) (i : Z) (v : softc_t) : Z -> softc_t :=
  fun j => if j =? i then v else m j.

(** [sc = &softc[core]].  The element index stands for the pointer; every
    pointer the program forms this way is dereferenced, so an index outside
    the [softc_slots] allocated elements is logged here. *)
Definition softc_ref (core : Z) : M Z :=
  fun g => if (0 <=? core) && (core <? softc_slots g) then Done core g
           else Done core (set_oob_log (oob_log g ++ [core]) g).

(** [read_msr(sc, reg)]: a failed read is fatal. *)
Definition read_msr (hw : msr_dev) (sc : Z) (reg : Z) : M Z :=
  g <- get ;;
  modify (set_msr_log (msr_log g ++ [(fd (softc g sc), reg)])) ;;;
  match hw (fd (softc g sc)) reg with
  | Some data => ret data
  | None => eprint (Perror "rdmsr:pread") ;;; exit 1
  end.

(** ** [open_msrs] *)

(** Lines 165-180: open the device of logical processor
    [i * share_count] into [softc[core]]. *)
Definition open_msrs_open (w : world) (core i : Z) : M unit :=
  sc <- softc_ref core ;;
  g <- get ;;
  let d := dev_open w (s32 (i * share_count g)) in
  modify (set_softc (upd (softc g) sc
                         {| fd := d; last := last (softc g sc) |})) ;;;
  if d =? -1 then
    eprint (Perror "open") ;;; printf PrintDriverHint ;;; exit 1
  else ret tt.

Definition open_msrs_body (w : world) (core : Z) (_ : unit) : M unit :=
  g <- get ;;
  if core >=? cpu_count g then
    open_msrs_open w core 0          (* for pkg & Intel dram power *)
  else if processor_type_eqb (cpu g) INTEL && negb (core =? 0) then
    ret tt                           (* continue *)
  else open_msrs_open w core core.

(** The bound [cpu_count + 2] does not change while the loop runs. *)
Definition open_msrs (w : world) : M unit :=
  g <- get ;;
  for_loop (Z.to_nat (u32 (cpu_count g + 2))) 0 (open_msrs_body w) tt.

(** ** [identify_cpu] *)

Definition reg_bytes (r : Z) : list Z :=
  map (fun k => Z.land (Z.shiftr r (8 * k)) 0xff) [0; 1; 2; 3].

(** A string literal as the bytes of a C string. *)
Definition c_string (s : string) : list Z :=
  map (fun c => Z.of_N (N_of_ascii c)) (list_ascii_of_string s) ++ [0].

(** [strncmp]: zero when the first [n] bytes, or the bytes up to the first
    NUL, agree; otherwise the difference of the first two that differ. *)
Fixpoint strncmp (s1 s2 : list Z) (n : nat) : Z :=
  match n with
  | O => 0
  | S k =>
      let c1 := hd 0 s1 in
      let c2 := hd 0 s2 in
      if c1 =? c2 then
        if c1 =? 0 then 0 else strncmp (tl s1) (tl s2) k
      else c1 - c2
  end.

(** Lines 190-204: vendor string, family and model from [cpuid]
    ([do_cpuid] leaves [ecx] as it is; leaves 0 and 1 do not look at
    it). *)
Definition identify_cpu_cpuid (w : world) : M unit :=
  let '(_, r1, r2, r3) := cpuid w 0 0 in
  g <- get ;;
  modify (set_cpu_vendor (reg_bytes r1 ++ reg_bytes r3 ++ reg_bytes r2
                          ++ [0] ++ skipn 13 (cpu_vendor g))) ;;;
  let '(id, _, _, _) := cpuid w 1 0 in
  modify (set_cpu_id id) ;;;
  modify (set_cpu_family (CPUID_TO_FAMILY id)) ;;;
  modify (set_cpu_model (CPUID_TO_MODEL id)).

Definition unsupported_cpu : M unit :=
  g <- get ;;
  printf (PrintUnsupportedCPU (cpu_family g) (cpu_model g)) ;;; exit 1.

(** Lines 206-279: the vendor, family and model the program accepts.  Each
    [switch] is the chain of comparisons it stands for. *)
Definition identify_cpu_classify : M unit :=
  g <- get ;;
  if strncmp (cpu_vendor g) (c_string "AuthenticAMD") 20 =? 0 then
    modify (set_cpu AMD) ;;;
    modify (set_pkg_msr AMD_ENERGY_PKG_MSR) ;;;
    modify (set_core_msr AMD_ENERGY_CORE_MSR) ;;;
    if cpu_family g =? 0x17 then
      if (cpu_model g =? 0x8) || (cpu_model g =? 0x31) then ret tt
      else unsupported_cpu
    else if cpu_family g =? 0x19 then
      if (cpu_model g =? 0x01) || (cpu_model g =? 0x30)
         || (cpu_model g =? 0x10) || (cpu_model g =? 0x11)
         || (cpu_model g =? 0xa0) || (cpu_model g =? 0x19) then ret tt
      else unsupported_cpu
    else if cpu_family g =? 0x1a then
      if (cpu_model g =? 0x02) || (cpu_model g =? 0x10)
         || (cpu_model g =? 0x11) then ret tt
      else unsupported_cpu
    else unsupported_cpu
  else if strncmp (cpu_vendor g) (c_string "GenuineIntel") 20 =? 0 then
    modify (set_cpu INTEL) ;;;
    if negb (cpu_family g =? 0x6) then unsupported_cpu
    else
      modify (set_pkg_msr INTEL_ENERGY_PKG_MSR) ;;;
      modify (set_dram_msr INTEL_ENERGY_DRAM_MSR) ;;;
      if cpu_model g =? 0x4f then ret tt
      else if cpu_model g =? 0x55 then ret tt
      else if cpu_model g =? 0x56 then ret tt
      else ret tt
  else
    printf (PrintVendorNotImplemented (cpu_vendor g)) ;;; exit 1.

(** Lines 280-287: sharing factor, physical-unit count and the array. *)
Definition identify_cpu_topology (w : world) : M unit :=
  let '(_, r1, _, _) := cpuid w 0x8000001e 0 in
  modify (set_share_count (u32 (Z.land (Z.shiftr r1 8) 0xff + 1))) ;;;
  g <- get ;;
  modify (set_cpu_count
            (u32 (Z.quot (nprocessors_conf w) (share_count g)))) ;;;
  g <- get ;;
  if calloc_ok w then
    let slots := u32 (cpu_count g + 1) in
    modify (set_softc_slots slots) ;;;
    modify (set_softc (fun i => if (0 <=? i) && (i <? slots)
                                then {| fd := 0; last := 0%float |}
                                else heap_past w i))
  else eprint (Perror "malloc") ;;; exit 1.

(** Lines 289-297: the one read of the power-unit register. *)
Definition identify_cpu_units (hw : msr_dev) : M unit :=
  sc <- softc_ref 0 ;;
  g <- get ;;
  match cpu g with
  | AMD =>
      data <- read_msr hw sc AMD_ENERGY_PWR_UNIT_MSR ;;
      modify (set_amd_energy_units
                (Z.shiftr (Z.land data AMD_ENERGY_UNIT_MASK) 8))
  | INTEL =>
      data <- read_msr hw sc INTEL_ENERGY_PWR_UNIT_MSR ;;
      modify (set_energy_units
                (pow 0.5%float (Z.land (Z.shiftr data 8) 0x1f))) ;;;
      modify (set_dram_units (pow 0.5%float 16))
  end.

(** Lines 298-305. *)
Definition identify_cpu_report : M unit :=
  g <- get ;;
  if verbose g >? 1 then
    printf (PrintThreads (s32 (cpu_count g * share_count g))
                         (s32 (cpu_count g))) ;;;
    match cpu g with
    | AMD => printf (PrintUnitsAMD (s32 (amd_energy_units g)))
    | INTEL => printf (PrintUnitsIntel (energy_units g))
    end
  else ret tt.

Definition identify_cpu (w : world) (hw : msr_dev) : M unit :=
  identify_cpu_cpuid w ;;;
  identify_cpu_classify ;;;
  identify_cpu_topology w ;;;
  open_msrs w ;;;
  identify_cpu_units hw ;;;
  identify_cpu_report.

(** ** Conversion of a raw reading *)

(** [1 << amd_energy_units] is an [int]; the unit field is at most 31. *)
Definition amd_add_power (g : state) (input : Z) : float :=
  (Z_to_double input * 1000000.0
   / Z_to_double (s32 (Z.shiftl 1 (amd_energy_units g))))%float.

Definition intel_add_power (input : Z) (units : float) : float :=
  (Z_to_double input * units)%float.

(** ** [read_power] *)

(** The register read for loop index [core] (lines 346-352). *)
Definition msr_of_core (g : state) (core : Z) : Z :=
  if core =? cpu_count g then pkg_msr g
  else if core =? u32 (cpu_count g + 1) then dram_msr g
  else core_msr g.

(** The value [watts] computed from a raw reading (lines 353-360). *)
Definition watts_of (g : state) (core : Z) (data : Z) : float :=
  match cpu g with
  | AMD => (amd_add_power g data / 1000000.0)%float
  | INTEL => intel_add_power data (if core =? cpu_count g
                                   then energy_units g else dram_units g)
  end.

(** Lines 345-362: read, convert, take the difference to [sc->last] and
    store the new value there.  The result is [delta]. *)
Definition read_power_sample (hw : msr_dev) (core : Z) : M float :=
  sc <- softc_ref core ;;
  g <- get ;;
  data <- read_msr hw sc (msr_of_core g core) ;;
  let watts := watts_of g core data in
  let delta := (watts - last (softc g sc))%float in
  modify (set_softc (upd (softc g) sc
                         {| fd := fd (softc g sc); last := watts |})) ;;;
  ret delta.

Definition when (b : bool) (m : M unit) : M unit := if b then m else ret tt.

(** Lines 366-389: what is printed for one loop index. *)
Definition read_power_print (max core : Z) (delta core_sum : float)
  : M unit :=
  g <- get ;;
  let v := negb (verbose g =? 0) in
  if core =? cpu_count g then
    (if v then printf (PrintPkg (delta * scale g))
     else printf (PrintPlain (delta * scale g))) ;;;
    when (v && negb (amd_energy_units g =? 0))
         (printf (PrintCoreSum (core_sum * scale g))) ;;;
    when (core =? u32 (max - 1)) (printf PrintNl)
  else if v && (core =? u32 (cpu_count g + 1)) then
    printf (PrintDram (delta * scale g)) ;;;
    when (core =? u32 (max - 1)) (printf PrintNl)
  else if v && negb (amd_energy_units g =? 0) then
    when (core =? 0) (printf PrintRule) ;;;
    when (core mod 8 =? 0) (printf (PrintCoreHdr (s32 core))) ;;;
    printf (PrintCore core (delta * scale g)) ;;;
    when ((core mod 8 =? 7) || (core =? u32 (cpu_count g - 1)))
         (printf PrintNl) ;;;
    when (core =? u32 (cpu_count g - 1)) (printf PrintRule)
  else ret tt.

(** The loop body; [core_sum] is carried from one index to the next, and
    the [continue] of line 364 leaves it as it is. *)
Definition read_power_body (hw : msr_dev) (max core : Z) (core_sum : float)
  : M float :=
  delta <- read_power_sample hw core ;;
  g <- get ;;
  if first g && (verbose g <? 2) then ret core_sum
  else read_power_print max core delta core_sum ;;;
       ret (core_sum + delta)%float.

(** The loop indices (lines 334-343): where the loop starts and its
    bound [max]. *)
Definition read_power_range (g : state) : Z * Z :=
  let first_core := cpu_count g in
  let max := u32 (cpu_count g + 1) in
  if negb (verbose g =? 0) && negb (core_msr g =? 0) then (0, max)
  else if negb (verbose g =? 0) && negb (dram_msr g =? 0)
       then (first_core, u32 (max + 1))
  else (first_core, max).

(** [hw] is what the MSR device reads during this tick; [fflush] has no
    counterpart here. *)
Definition read_power (hw : msr_dev) : M unit :=
  g <- get ;;
  let '(first_core, max) := read_power_range g in
  for_loop (Z.to_nat (max - first_core)) first_core
           (read_power_body hw max) 0%float ;;;
  modify (set_first false).

(** ** [main] *)

Definition usage (name : string) : M unit := eprint (Usage name).

(** [getopt(argc, argv, "v")] at the option character [o] of the command
    line: [v] is returned as it is; any other character is not in the
    option string, so the library, [opterr] being left at 1, writes its
    own line to standard error and returns [?]. *)
Definition getopt (name : string) (o : ascii) : M ascii :=
  if Ascii.eqb o "v" then ret "v"%char
  else eprint (GetoptInvalid name o) ;;; ret "?"%char.

(** Lines 409-417.  [opts] are the option characters of the command line,
    in order; after the last one [getopt] returns -1. *)
Fixpoint main_getopt (name : string) (opts : list ascii) : M unit :=
  match opts with
  | [] => ret tt
  | o :: rest =>
      c <- getopt name o ;;
      (if Ascii.eqb c "v" then modify (fun g => set_verbose (verbose g + 1) g)
       else usage name) ;;;
      main_getopt name rest
  end.

(** Lines 426-429, for the ticks whose register contents are given. *)
Fixpoint main_loop (timeo : Z) (ticks : list msr_dev) : M unit :=
  match ticks with
  | [] => ret tt
  | hw :: rest =>
      read_power hw ;;;
      modify (fun g => set_slept (slept g ++ [u32 timeo]) g) ;;;
      main_loop timeo rest
  end.

(** [timeo] (lines 405 and 418-422): [interval] is what [atof] returns for
    the first argument [getopt] left, when there is one; the assignment to
    the [int] converts it. *)
Definition main_timeo (interval : option float) : Z :=
  match interval with
  | Some x => double_to_int x
  | None => 1
  end.

(** [hw0] is the MSR device during start-up and [ticks] the device
    during each tick.  The loop of the source has no end: a run here is
    its first [length ticks] iterations. *)
Definition main (name : string) (opts : list ascii) (interval : option float)
    (w : world) (hw0 : msr_dev) (ticks : list msr_dev) : M unit :=
  main_getopt name opts ;;;
  let timeo := main_timeo interval in
  modify (set_scale (1 / Z_to_double timeo)%float) ;;;
  identify_cpu w hw0 ;;;
  main_loop timeo ticks.

(** * Statements: classification *)

(** The vendor array holds the C string [s]. *)
Definition vendor_is (g : state) (s : string) : Prop :=
  firstn 13 (cpu_vendor g) = c_string s.

(** The AMD families and, for each, the models of its [switch]. *)
Definition amd_allow_list : list (Z * list Z) :=
  [(0x17, [0x8; 0x31]);
   (0x19, [0x01; 0x30; 0x10; 0x11; 0xa0; 0x19]);
   (0x1a, [0x02; 0x10; 0x11])].

Definition amd_supported (family model : Z) : bool :=
  existsb (fun e => (family =? fst e)
                    && existsb (fun m => model =? m) (snd e))
          amd_allow_list.

Definition accepted (g : state) : Prop :=
  (vendor_is g "AuthenticAMD"
   /\ amd_supported (cpu_family g) (cpu_model g) = true)
  \/ (vendor_is g "GenuineIntel" /\ cpu_family g = 0x6).

(** * Statements: what a phase leaves alone *)

(** The globals that are fixed once [identify_cpu] has returned. *)
Definition config (g : state) :=
  (cpu_vendor g, cpu_id g, cpu_family g, cpu_model g, cpu_count g,
   share_count g, amd_energy_units g, energy_units g, dram_units g,
   scale g, verbose g, pkg_msr g, core_msr g, dram_msr g, softc_slots g,
   cpu g).

(** The state [softc_ref] leaves. *)
Definition softc_ref_state (core : Z) (g : state) : state :=
  if (0 <=? core) && (core <? softc_slots g) then g
  else set_oob_log (oob_log g ++ [core]) g.

(** The indices [core, core + 1, ...] of [n] loop iterations. *)
Fixpoint zrange (core : Z) (n : nat) : list Z :=
  match n with
  | O => []
  | S k => core :: zrange (core + 1) k
  end.

(** The processor count leaves room for the two extra loop indices. *)
Definition count_fits (g : state) : Prop :=
  0 <= cpu_count g /\ cpu_count g + 2 < 2 ^ 32.

(** The statics [identify_cpu] does not assign on every path are still as
    the C start-up code left them. *)
Definition fresh (g : state) : Prop :=
  core_msr g = 0 /\ dram_msr g = 0 /\ amd_energy_units g = 0
  /\ first g = true /\ msr_log g = [] /\ oob_log g = []
  /\ List.length (cpu_vendor g) = 20%nat.

(** What [identify_cpu] establishes, by vendor. *)
Definition identified (g : state) : Prop :=
  match cpu g with
  | AMD => pkg_msr g = AMD_ENERGY_PKG_MSR /\ core_msr g = AMD_ENERGY_CORE_MSR
           /\ dram_msr g = 0 /\ 0 <= amd_energy_units g <= 31
  | INTEL => pkg_msr g = INTEL_ENERGY_PKG_MSR /\ core_msr g = 0
             /\ dram_msr g = INTEL_ENERGY_DRAM_MSR /\ amd_energy_units g = 0
  end.

(** What [open_msrs] leaves alone on the way to its return. *)
Definition quiet (g : state) :=
  (config g, first g, stdout g, stderr g, msr_log g, slept g).

(** The power-unit register of the vendor (lines 291 and 294). *)
Definition unit_msr (g : state) : Z :=
  match cpu g with
  | AMD => AMD_ENERGY_PWR_UNIT_MSR
  | INTEL => INTEL_ENERGY_PWR_UNIT_MSR
  end.

(** * Statements: one tick *)

(** The raw reading of loop index [core] when the device reads as [hw]. *)
Definition raw_of (g : state) (hw : msr_dev) (core : Z) : option Z :=
  hw (fd (softc g core)) (msr_of_core g core).

(** [delta] of line 361 for loop index [core], from the state the tick
    starts in. *)
Definition delta_of (g : state) (hw : msr_dev) (core : Z) : float :=
  match raw_of g hw core with
  | Some raw => (watts_of g core raw - last (softc g core))%float
  | None => 0%float
  end.

Definition emit (l : list out_event) (g : state) : state :=
  set_stdout (stdout g ++ l) g.

(** What [read_power_print] appends to [stdout]. *)
Definition print_events (g : state) (max core : Z) (delta core_sum : float)
  : list out_event :=
  let v := negb (verbose g =? 0) in
  if core =? cpu_count g then
    [if v then PrintPkg (delta * scale g) else PrintPlain (delta * scale g)]
    ++ (if v && negb (amd_energy_units g =? 0)
        then [PrintCoreSum (core_sum * scale g)] else [])
    ++ (if core =? u32 (max - 1) then [PrintNl] else [])
  else if v && (core =? u32 (cpu_count g + 1)) then
    [PrintDram (delta * scale g)]
    ++ (if core =? u32 (max - 1) then [PrintNl] else [])
  else if v && negb (amd_energy_units g =? 0) then
    (if core =? 0 then [PrintRule] else [])
    ++ (if core mod 8 =? 0 then [PrintCoreHdr (s32 core)] else [])
    ++ [PrintCore core (delta * scale g)]
    ++ (if (core mod 8 =? 7) || (core =? u32 (cpu_count g - 1))
        then [PrintNl] else [])
    ++ (if core =? u32 (cpu_count g - 1) then [PrintRule] else [])
  else [].

(** What [n] iterations of the loop from index [core] append to [stdout],
    from the state [g] the tick starts in. *)
Fixpoint loop_events (g : state) (hw : msr_dev) (max : Z) (n : nat)
    (core : Z) (core_sum : float) : list out_event :=
  match n with
  | O => []
  | S k =>
      let delta := delta_of g hw core in
      if first g && (verbose g <? 2)
      then loop_events g hw max k (core + 1) core_sum
      else print_events g max core delta core_sum
           ++ loop_events g hw max k (core + 1) (core_sum + delta)%float
  end.

(** The loop indices of a tick and what the tick prints. *)
Definition tick_cores (g : state) : list Z :=
  let '(first_core, max) := read_power_range g in
  zrange first_core (Z.to_nat (max - first_core)).

Definition tick_events (g : state) (hw : msr_dev) : list out_event :=
  let '(first_core, max) := read_power_range g in
  loop_events g hw max (Z.to_nat (max - first_core)) first_core 0%float.

(** Two states agree on the configuration and on the array from index
    [core] on. *)
Definition agree_from (core : Z) (g1 g2 : state) : Prop :=
  config g1 = config g2 /\ first g1 = first g2
  /\ forall j, core <= j -> softc g1 j = softc g2 j.

(** * Statements: what is reported *)


(** The vendor conversions in closed form.  The AMD one divides by
    [1 << exponent], an [int]: the power of two for the exponents 0 to 30;
    for 31, the last value the 5-bit field can hold, the shift leaves the
    range of [int] and the divisor is the most negative [int].  The Intel
    one multiplies by the package unit or the DRAM unit. *)
Definition amd_divisor (exponent : Z) : Z :=
  if exponent =? 31 then - 2 ^ 31 else 2 ^ exponent.

Definition f_amd (exponent : Z) (raw : Z) : float :=
  (Z_to_double raw * 1000000 / Z_to_double (amd_divisor exponent)
   / 1000000)%float.

(** The AMD conversion with the power of two as its divisor whatever the
    exponent. *)
Definition f_amd_power_of_two (exponent : Z) (raw : Z) : float :=
  (Z_to_double raw * 1000000 / Z_to_double (2 ^ exponent) / 1000000)%float.

Definition f_intel (units : float) (raw : Z) : float :=
  (Z_to_double raw * units)%float.

Definition conversion (g : state) (core : Z) (raw : Z) : float :=
  match cpu g with
  | AMD => f_amd (amd_energy_units g) raw
  | INTEL => f_intel (if core =? cpu_count g then energy_units g
                      else dram_units g) raw
  end.

(** The events only the AMD layout has: the core sum and the per-core
    table. *)
Definition is_amd_format (e : out_event) : bool :=
  match e with
  | PrintCoreSum _ | PrintRule | PrintCoreHdr _ | PrintCore _ _ => true
  | _ => false
  end.


(** * Statements: the command line *)

Definition is_v (c : ascii) : bool := Ascii.eqb c "v".

(** The number of [-v] among the options, and what the others put on
    standard error: for each, the line of [getopt] and then the usage
    message. *)
Definition count_v (opts : list ascii) : Z :=
  Z.of_nat (List.length (filter is_v opts)).

Definition option_messages (name : string) (opts : list ascii)
  : list err_event :=
  flat_map (fun c => if is_v c then [] else [GetoptInvalid name c; Usage name])
           opts.

(** The state in which [identify_cpu] is called: the options counted,
    their messages written, [scale] assigned. *)
Definition parsed (name : string) (opts : list ascii)
    (interval : option float) : state :=
  set_scale (1 / Z_to_double (main_timeo interval))%float
    (set_stderr (option_messages name opts)
       (set_verbose (count_v opts) initial_state)).

(** Everything option parsing leaves alone. *)
Definition unparsed (g : state) :=
  (cpu_vendor g, cpu_id g, cpu_family g, cpu_model g, cpu_count g,
   share_count g, amd_energy_units g, energy_units g, dram_units g,
   scale g, pkg_msr g, core_msr g, dram_msr g, softc_slots g, softc g,
   cpu g, first g, stdout g, msr_log g, oob_log g, slept g).

(** * Statements: standard error has no influence *)

(** [g] with the messages [p] in front of its standard error. *)
Definition add_err (p : list err_event) (g : state) : state :=
  set_stderr (p ++ stderr g) g.

Definition outcome_map {A} (f : state -> state) (o : outcome A) : outcome A :=
  match o with
  | Done a g => Done a (f g)
  | Exited c g => Exited c (f g)
  end.

(** A computation that does the same whatever standard error holds. *)
Definition oblivious {A} (m : M A) : Prop :=
  forall p g, m (add_err p g) = outcome_map (add_err p) (m g).

(** * Statements: the per-core table *)

(** The cell of core [c] in the table: the opening rule line before core
    0, the row label before every eighth core, the value, the end of the
    row after every eighth core and after the last one, and the closing
    rule line after the last one. *)
Definition core_cell (g : state) (c : Z) (v : float) : list out_event :=
  (if c =? 0 then [PrintRule] else [])
  ++ (if c mod 8 =? 0 then [PrintCoreHdr c] else [])
  ++ [PrintCore c v]
  ++ (if (c mod 8 =? 7) || (c =? cpu_count g - 1) then [PrintNl] else [])
  ++ (if c =? cpu_count g - 1 then [PrintRule] else []).

(** The table of a tick, and the sum of its deltas as the loop
    accumulates it. *)
Definition core_table (g : state) (hw : msr_dev) (cores : list Z)
  : list out_event :=
  flat_map (fun c => core_cell g c (delta_of g hw c * scale g)%float) cores.

Definition core_sum_of (g : state) (hw : msr_dev) (cores : list Z)
    (start : float) : float :=
  fold_left (fun s c => (s + delta_of g hw c)%float) cores start.

(** * Example machines *)

(** [cpuid] of a processor: the three vendor registers of leaf 0, the
    signature of leaf 1 and [ebx] of the topology leaf. *)
Definition example_world (ebx edx ecx id nprocs topo_ebx : Z) : world :=
  {| cpuid := fun ax _ =>
       if ax =? 0 then (0x10, ebx, ecx, edx)
       else if ax =? 1 then (id, 0, 0, 0)
       else (0, topo_ebx, 0, 0);
     nprocessors_conf := nprocs;
     calloc_ok := true;
     heap_past := fun _ => {| fd := 0; last := 0%float |};
     dev_open := fun n => 3 + n |}.

(** An AMD family 0x19 model 0x30 with four processors, two threads a
    core. *)
Definition amd_world : world :=
  example_world 0x68747541 0x69746e65 0x444d4163 0x00A30F00 4 0x100.

(** An AMD family 0x19 model 0x02. *)
Definition amd_world_model_02 : world :=
  example_world 0x68747541 0x69746e65 0x444d4163 0x00A00F20 4 0x100.

(** An Intel family 6 model 0x55 with four processors. *)
Definition intel_world : world :=
  example_world 0x756e6547 0x49656e69 0x6c65746e 0x00050650 4 0.

(** An MSR device whose power-unit registers hold [units] and whose
    energy counters hold [counter] plus the descriptor. *)
Definition example_msr (units counter : Z) : msr_dev :=
  fun fd reg =>
    if (reg =? AMD_ENERGY_PWR_UNIT_MSR) || (reg =? INTEL_ENERGY_PWR_UNIT_MSR)
    then Some units
    else Some (counter + fd).

(** The AMD machine after [identify_cpu] at verbosity 1, and after one
    and two ticks. *)
Definition amd_started : state :=
  final_state (identify_cpu amd_world (example_msr 0x1000 0)
                 (set_verbose 1 initial_state)).

Definition amd_tick1 : state :=
  final_state (read_power (example_msr 0 65536) amd_started).

Definition amd_tick2 : state :=
  final_state (read_power (example_msr 0 196608) amd_tick1).

(** The Intel machine after [identify_cpu] at verbosity 2, and after one
    tick. *)
Definition intel_started : state :=
  final_state (identify_cpu intel_world (example_msr 0x0a00 0)
                 (set_verbose 2 initial_state)).

Definition intel_tick1 : state :=
  final_state (read_power (example_msr 0 1000) intel_started).

(** The AMD machine with a power-unit register that reads 0, after
    [identify_cpu] at verbosity 1 and after one tick. *)
Definition amd_zero_started : state :=
  final_state (identify_cpu amd_world (example_msr 0 0)
                 (set_verbose 1 initial_state)).

Definition amd_zero_tick1 : state :=
  final_state (read_power (example_msr 0 65536) amd_zero_started).

(** Whole runs of two ticks: the AMD machine with one [-v], the Intel
    machine with the interval 2 and with the interval 0.5. *)
Definition amd_run : outcome unit :=
  main "pmon" ["v"%char] None amd_world (example_msr 0x1000 0)
       [example_msr 0 65536; example_msr 0 196608] initial_state.

Definition intel_run (interval : float) : outcome unit :=
  main "pmon" [] (Some interval) intel_world (example_msr 0x0a00 0)
       [example_msr 0 1000; example_msr 0 3000] initial_state.

(** * Statements: fatal errors *)


(** * Statements: the devices [open_msrs] opens *)

(** Whether the loop of [open_msrs] opens a device for index [core], and
    the logical processor whose device it is. *)
Definition opens (g : state) (core : Z) : bool :=
  (core >=? cpu_count g)
  || negb (processor_type_eqb (cpu g) INTEL && negb (core =? 0)).

Definition device_of (g : state) (core : Z) : Z :=
  s32 ((if core >=? cpu_count g then 0 else core) * share_count g).

(** * Statements: the registers of [cpuid] *)

(** Bytes, least significant first, as one register. *)
Definition pack (l : list Z) : Z := fold_right (fun b r => b + 256 * r) 0 l.

(** The processor signature ([eax] of leaf 1) from its fields: stepping,
    model, family, the four bits above them, extended model, extended
    family and the four top bits. *)
Definition signature (stepping model family type ext_model ext_family top : Z)
  : Z :=
  stepping + 2 ^ 4 * model + 2 ^ 8 * family + 2 ^ 12 * type
  + 2 ^ 16 * ext_model + 2 ^ 20 * ext_family + 2 ^ 28 * top.

(** The AMD machine without the [msr] driver: no device opens. *)
Definition no_driver_world : world :=
  {| cpuid := cpuid amd_world;
     nprocessors_conf := nprocessors_conf amd_world;
     calloc_ok := true;
     heap_past := heap_past amd_world;
     dev_open := fun _ => -1 |}.

(** The bytes of [AuthenticAMD]. *)
Definition authentic_amd : list Z :=
  [0x41; 0x75; 0x74; 0x68; 0x65; 0x6e; 0x74; 0x69; 0x63; 0x41; 0x4d; 0x44].

(** The Intel machine on a heap that holds 7.0 where the [last] of an
    element past the array would be, after [identify_cpu] at verbosity
    2. *)
Definition intel_world_stale_heap : world :=
  {| cpuid := cpuid intel_world;
     nprocessors_conf := nprocessors_conf intel_world;
     calloc_ok := true;
     heap_past := fun _ => {| fd := 0; last := 7%float |};
     dev_open := dev_open intel_world |}.

Definition intel_stale_started : state :=
  final_state (identify_cpu intel_world_stale_heap (example_msr 0x0a00 0)
                 (set_verbose 2 initial_state)).

(** The AMD machine when [calloc] fails. *)
Definition no_memory_world : world :=
  {| cpuid := cpuid amd_world;
     nprocessors_conf := nprocessors_conf amd_world;
     calloc_ok := false;
     heap_past := heap_past amd_world;
     dev_open := dev_open amd_world |}.

(** * Reasoning about the monad *)

Lemma bind_Done {A B} (m : M A) (k : A -> M B) g b g' :
  bind m k g = Done b g' ->
  exists a g1, m g = Done a g1 /\ k a g1 = Done b g'.
Proof.
  unfold bind. destruct (m g) as [a g1|c g1]; intro H; [|discriminate].
  exists a, g1. split; [reflexivity|exact H].
Qed.


Ltac unfold_M :=
  unfold when, printf, eprint, usage, modify, get, exit, ret, bind in *.

Ltac cbn_state :=
  cbn [cpu_vendor cpu_id cpu_family cpu_model cpu_count share_count
       amd_energy_units energy_units dram_units scale verbose pkg_msr
       core_msr dram_msr softc_slots softc cpu first stdout stderr msr_log
       oob_log slept set_cpu_vendor set_cpu_id set_cpu_family set_cpu_model
       set_cpu_count set_share_count set_amd_energy_units set_energy_units
       set_dram_units set_scale set_verbose set_pkg_msr set_core_msr
       set_dram_msr set_softc_slots set_softc set_cpu set_first set_stdout
       set_stderr set_msr_log set_oob_log set_slept fd last].

Ltac cbn_state_all :=
  cbn [cpu_vendor cpu_id cpu_family cpu_model cpu_count share_count
       amd_energy_units energy_units dram_units scale verbose pkg_msr
       core_msr dram_msr softc_slots softc cpu first stdout stderr msr_log
       oob_log slept set_cpu_vendor set_cpu_id set_cpu_family set_cpu_model
       set_cpu_count set_share_count set_amd_energy_units set_energy_units
       set_dram_units set_scale set_verbose set_pkg_msr set_core_msr
       set_dram_msr set_softc_slots set_softc set_cpu set_first set_stdout
       set_stderr set_msr_log set_oob_log set_slept fd last] in *.


(** * The vendor string *)

Lemma strncmp_literal lit : forall v n,
  Forall (fun c => c <> 0) lit ->
  (List.length lit < n)%nat -> (List.length lit < List.length v)%nat ->
  strncmp v (lit ++ [0]) n = 0 <-> firstn (S (List.length lit)) v = lit ++ [0].
Proof.
  induction lit as [|a l IH]; intros v n Hnz Hn Hv.
  - destruct n as [|n]; [simpl in Hn; lia|].
    destruct v as [|x v]; [simpl in Hv; lia|]. simpl.
    destruct (Z.eqb_spec x 0) as [->|Hx].
    + split; reflexivity.
    + split; intro H; [lia|]. inversion H. contradiction.
  - destruct n as [|n]; [simpl in Hn; lia|].
    destruct v as [|x v]; [simpl in Hv; lia|].
    inversion Hnz as [|? ? Ha Hl]; subst.
    simpl in Hn, Hv.
    change (strncmp (x :: v) ((a :: l) ++ [0]) (S n))
      with (if x =? a then if x =? 0 then 0 else strncmp v (l ++ [0]) n
            else x - a).
    change (firstn (S (List.length (a :: l))) (x :: v))
      with (x :: firstn (S (List.length l)) v).
    destruct (Z.eqb_spec x a) as [->|Hxa].
    + destruct (Z.eqb_spec a 0) as [?|_]; [contradiction|].
      pose proof (IH v n Hl ltac:(lia) ltac:(lia)) as E.
      split; intro H.
      * apply E in H. rewrite H. reflexivity.
      * apply E. change ((a :: l) ++ [0]) with (a :: (l ++ [0])) in H.
        now inversion H.
    + split; intro H; [lia|].
      change ((a :: l) ++ [0]) with (a :: (l ++ [0])) in H.
      inversion H. contradiction.
Qed.

Lemma strncmp_AuthenticAMD g :
  (13 <= List.length (cpu_vendor g))%nat ->
  strncmp (cpu_vendor g) (c_string "AuthenticAMD") 20 = 0
  <-> vendor_is g "AuthenticAMD".
Proof.
  intro Hlen. unfold vendor_is.
  change (c_string "AuthenticAMD")
    with ([65; 117; 116; 104; 101; 110; 116; 105; 99; 65; 77; 68] ++ [0]).
  apply (strncmp_literal [65; 117; 116; 104; 101; 110; 116; 105; 99; 65; 77; 68]).
  - repeat constructor; lia.
  - simpl; lia.
  - simpl; lia.
Qed.

Lemma strncmp_GenuineIntel g :
  (13 <= List.length (cpu_vendor g))%nat ->
  strncmp (cpu_vendor g) (c_string "GenuineIntel") 20 = 0
  <-> vendor_is g "GenuineIntel".
Proof.
  intro Hlen. unfold vendor_is.
  change (c_string "GenuineIntel")
    with ([71; 101; 110; 117; 105; 110; 101; 73; 110; 116; 101; 108] ++ [0]).
  apply (strncmp_literal [71; 101; 110; 117; 105; 110; 101; 73; 110; 116; 101; 108]).
  - repeat constructor; lia.
  - simpl; lia.
  - simpl; lia.
Qed.

Lemma vendor_exclusive g :
  vendor_is g "AuthenticAMD" -> vendor_is g "GenuineIntel" -> False.
Proof.
  unfold vendor_is. intros H1 H2. rewrite H1 in H2. discriminate H2.
Qed.

Ltac split_eqb :=
  repeat match goal with
         | |- context [Z.eqb ?a ?b] => destruct (Z.eqb_spec a b)
         end.

Lemma classify_amd g :
  vendor_is g "AuthenticAMD" -> (13 <= List.length (cpu_vendor g))%nat ->
  if amd_supported (cpu_family g) (cpu_model g)
  then exists g', identify_cpu_classify g = Done tt g'
  else exists g', identify_cpu_classify g = Exited 1 g'.
Proof.
  intros Hv Hlen. apply (strncmp_AuthenticAMD g Hlen) in Hv.
  unfold identify_cpu_classify, unsupported_cpu. unfold_M.
  rewrite Hv. change (0 =? 0) with true. cbv iota.
  unfold amd_supported, amd_allow_list, existsb, fst, snd.
  generalize (cpu_family g) (cpu_model g). intros f m.
  destruct (Z.eqb_spec f 0x17) as [->|F1];
    [|destruct (Z.eqb_spec f 0x19) as [->|F2];
      [|destruct (Z.eqb_spec f 0x1a) as [->|F3]]];
    cbn [orb andb negb];
    repeat match goal with
           | |- context [Z.eqb ?a ?b] =>
               lazymatch a with
               | m => destruct (Z.eqb_spec a b); [subst m|]
               | _ => change (Z.eqb a b) with false
               end; cbn [orb andb negb]
           end;
    eexists; reflexivity.
Qed.

Lemma classify_intel g :
  vendor_is g "GenuineIntel" -> (13 <= List.length (cpu_vendor g))%nat ->
  if cpu_family g =? 0x6
  then exists g', identify_cpu_classify g = Done tt g'
  else exists g', identify_cpu_classify g = Exited 1 g'.
Proof.
  intros Hv Hlen.
  assert (Ha : strncmp (cpu_vendor g) (c_string "AuthenticAMD") 20 <> 0).
  { intro H. apply (strncmp_AuthenticAMD g Hlen) in H.
    exact (vendor_exclusive g H Hv). }
  apply (strncmp_GenuineIntel g Hlen) in Hv.
  unfold identify_cpu_classify, unsupported_cpu. unfold_M.
  rewrite Hv. apply Z.eqb_neq in Ha. rewrite Ha.
  change (0 =? 0) with true. cbv iota.
  split_eqb; simpl; eexists; reflexivity.
Qed.

Lemma classify_other g :
  ~ vendor_is g "AuthenticAMD" -> ~ vendor_is g "GenuineIntel" ->
  (13 <= List.length (cpu_vendor g))%nat ->
  exists g', identify_cpu_classify g = Exited 1 g'.
Proof.
  intros Ha Hi Hlen.
  rewrite <- (strncmp_AuthenticAMD g Hlen) in Ha.
  rewrite <- (strncmp_GenuineIntel g Hlen) in Hi.
  apply Z.eqb_neq in Ha, Hi.
  unfold identify_cpu_classify. unfold_M. rewrite Ha, Hi.
  eexists; reflexivity.
Qed.

Lemma vendor_is_dec g s : vendor_is g s \/ ~ vendor_is g s.
Proof.
  unfold vendor_is.
  destruct (list_eq_dec Z.eq_dec (firstn 13 (cpu_vendor g)) (c_string s));
    [left|right]; assumption.
Qed.

Lemma classify_intel_model g m g' :
  identify_cpu_classify g = Done tt g' -> cpu g' = INTEL ->
  identify_cpu_classify (set_cpu_model m g) = Done tt (set_cpu_model m g').
Proof.
  unfold identify_cpu_classify, unsupported_cpu. unfold_M.
  cbn [cpu_vendor cpu_family cpu_model set_cpu_model].
  destruct (strncmp (cpu_vendor g) (c_string "AuthenticAMD") 20 =? 0).
  - intros H Hc. exfalso. revert H Hc.
    split_eqb; simpl; intro H; inversion H; subst; simpl; discriminate.
  - destruct (strncmp (cpu_vendor g) (c_string "GenuineIntel") 20 =? 0);
      [|discriminate].
    destruct (cpu_family g =? 6); simpl; [|discriminate].
    intros H _.
    assert (E : g' = set_dram_msr INTEL_ENERGY_DRAM_MSR
                  (set_pkg_msr INTEL_ENERGY_PKG_MSR (set_cpu INTEL g))).
    { revert H. split_eqb; intro H; inversion H; reflexivity. }
    subst g'. split_eqb; reflexivity.
Qed.

(** C6: classification returns exactly for the vendor AuthenticAMD with a
    family and model of the allow-list and for the vendor GenuineIntel
    with family 6; in every other case it exits with status 1.  Family
    0x19 model 0x30 of AMD is accepted, family 0x19 model 0x02 is not.  For
    a processor classified as Intel the model changes nothing but the
    stored model itself. *)
Theorem classify_accepts_exactly g :
  (13 <= List.length (cpu_vendor g))%nat ->
  ((exists g', identify_cpu_classify g = Done tt g') <-> accepted g)
  /\ (~ accepted g -> exists g', identify_cpu_classify g = Exited 1 g')
  /\ (forall c g', identify_cpu_classify g = Exited c g' -> c = 1)
  /\ (vendor_is g "AuthenticAMD" -> cpu_family g = 0x19 ->
      cpu_model g = 0x30 -> exists g', identify_cpu_classify g = Done tt g')
  /\ (vendor_is g "AuthenticAMD" -> cpu_family g = 0x19 ->
      cpu_model g = 0x02 -> exists g', identify_cpu_classify g = Exited 1 g')
  /\ (forall m g',
        identify_cpu_classify g = Done tt g' -> cpu g' = INTEL ->
        identify_cpu_classify (set_cpu_model m g)
        = Done tt (set_cpu_model m g')).
Proof.
  intro Hlen.
  assert (Hcases :
            (accepted g /\ exists g', identify_cpu_classify g = Done tt g')
            \/ (~ accepted g
                /\ exists g', identify_cpu_classify g = Exited 1 g')).
  { unfold accepted.
    destruct (vendor_is_dec g "AuthenticAMD") as [Ha|Ha].
    - pose proof (classify_amd g Ha Hlen) as H.
      destruct (amd_supported (cpu_family g) (cpu_model g)).
      + left. split; [left; auto|exact H].
      + right. split; [|exact H].
        intros [[_ E]|[Hi _]]; [discriminate|].
        exact (vendor_exclusive g Ha Hi).
    - destruct (vendor_is_dec g "GenuineIntel") as [Hi|Hi].
      + pose proof (classify_intel g Hi Hlen) as H.
        destruct (Z.eqb_spec (cpu_family g) 6) as [E|E].
        * left. split; [right; auto|exact H].
        * right. split; [|exact H]. intros [[Ha' _]|[_ E']]; contradiction.
      + right. split; [intros [[Ha' _]|[Hi' _]]; contradiction|].
        now apply classify_other. }
  split; [|split; [|split; [|split; [|split]]]].
  - destruct Hcases as [[Hacc Hdone]|[Hrej (g1 & Hex)]].
    + split; auto.
    + split; [|contradiction]. intros (g' & Hd). rewrite Hd in Hex. discriminate.
  - intro Hrej. destruct Hcases as [[Hacc _]|[_ Hex]]; [contradiction|exact Hex].
  - intros c g' Hc.
    destruct Hcases as [[_ (g1 & Hd)]|[_ (g1 & Hex)]]; rewrite Hc in *;
      [discriminate|now inversion Hex].
  - intros Ha Hf Hm. pose proof (classify_amd g Ha Hlen) as H.
    rewrite Hf, Hm in H. exact H.
  - intros Ha Hf Hm. pose proof (classify_amd g Ha Hlen) as H.
    rewrite Hf, Hm in H. exact H.
  - intros m g'. apply classify_intel_model.
Qed.

(** Rewrite with the sixteen equations of [H : config g' = config g]. *)
Ltac config_rewrite H :=
  let H' := fresh in
  pose proof H as H'; unfold config in H'; injection H'; clear H';
  do 16 (let E := fresh "E" in intro E; try rewrite E).

(** * The phases of [identify_cpu] *)


Lemma softc_ref_state_config core g :
  config (softc_ref_state core g) = config g
  /\ softc (softc_ref_state core g) = softc g
  /\ first (softc_ref_state core g) = first g
  /\ stdout (softc_ref_state core g) = stdout g
  /\ stderr (softc_ref_state core g) = stderr g
  /\ msr_log (softc_ref_state core g) = msr_log g
  /\ slept (softc_ref_state core g) = slept g.
Proof.
  unfold softc_ref_state.
  destruct ((0 <=? core) && (core <? softc_slots g)); repeat split.
Qed.

Lemma softc_ref_state_oob core g :
  oob_log (softc_ref_state core g)
  = oob_log g ++ (if (0 <=? core) && (core <? softc_slots g)
                  then [] else [core]).
Proof.
  unfold softc_ref_state.
  destruct ((0 <=? core) && (core <? softc_slots g)); simpl;
    [now rewrite app_nil_r | reflexivity].
Qed.

Lemma identify_cpu_cpuid_run w g :
  exists v id,
    identify_cpu_cpuid w g
    = Done tt (set_cpu_model (CPUID_TO_MODEL id)
                 (set_cpu_family (CPUID_TO_FAMILY id)
                    (set_cpu_id id (set_cpu_vendor v g))))
    /\ (List.length (cpu_vendor g) = 20%nat -> List.length v = 20%nat).
Proof.
  unfold identify_cpu_cpuid.
  destruct (cpuid w 0 0) as [[[r0 r1] r2] r3].
  destruct (cpuid w 1 0) as [[[id x1] x2] x3].
  eexists _, id. split; [reflexivity|].
  intro H. rewrite !length_app, length_skipn, H. reflexivity.
Qed.

Lemma identify_cpu_topology_Done w g g' :
  identify_cpu_topology w g = Done tt g' ->
  let s := u32 (Z.land (Z.shiftr (snd (fst (fst (cpuid w 0x8000001e 0)))) 8)
                       0xff + 1) in
  let n := u32 (Z.quot (nprocessors_conf w) s) in
  g' = set_softc (fun i => if (0 <=? i) && (i <? u32 (n + 1))
                           then {| fd := 0; last := 0%float |}
                           else heap_past w i)
         (set_softc_slots (u32 (n + 1))
            (set_cpu_count n (set_share_count s g))).
Proof.
  unfold identify_cpu_topology.
  destruct (cpuid w 0x8000001e 0) as [[[r0 r1] r2] r3]. unfold_M. simpl.
  destruct (calloc_ok w); intro H; inversion H. reflexivity.
Qed.

Lemma identify_cpu_units_Done hw g g' :
  identify_cpu_units hw g = Done tt g' ->
  let g1 := softc_ref_state 0 g in
  let reg := match cpu g with
             | AMD => AMD_ENERGY_PWR_UNIT_MSR
             | INTEL => INTEL_ENERGY_PWR_UNIT_MSR
             end in
  let g2 := set_msr_log (msr_log g1 ++ [(fd (softc g 0), reg)]) g1 in
  exists data,
    hw (fd (softc g 0)) reg = Some data
    /\ g' = match cpu g with
            | AMD => set_amd_energy_units
                       (Z.shiftr (Z.land data AMD_ENERGY_UNIT_MASK) 8) g2
            | INTEL => set_dram_units (pow 0.5%float 16)
                         (set_energy_units
                            (pow 0.5%float (Z.land (Z.shiftr data 8) 0x1f))
                            g2)
            end.
Proof.
  unfold identify_cpu_units, read_msr, softc_ref, softc_ref_state. unfold_M.
  destruct ((0 <=? 0) && (0 <? softc_slots g)); cbn [cpu softc set_oob_log];
    destruct (cpu g); cbn [softc msr_log set_msr_log set_oob_log];
    match goal with |- context [hw ?a ?b] => destruct (hw a b) as [data|] end;
    intro H; inversion H; exists data; split; reflexivity.
Qed.

Lemma identify_cpu_report_Done g g' :
  identify_cpu_report g = Done tt g' ->
  exists out, g' = set_stdout (stdout g ++ out) g.
Proof.
  unfold identify_cpu_report. unfold_M.
  destruct (verbose g >? 1).
  - destruct (cpu g); intro H; inversion H; simpl; rewrite <- app_assoc;
      eexists; reflexivity.
  - intro H; inversion H. exists []. rewrite app_nil_r. now destruct g'.
Qed.

(** * [open_msrs] *)

Lemma open_msrs_open_Done w core i g g' :
  open_msrs_open w core i g = Done tt g' ->
  g' = set_softc (upd (softc g) core
                      {| fd := dev_open w (s32 (i * share_count g));
                         last := last (softc g core) |})
         (softc_ref_state core g).
Proof.
  unfold open_msrs_open, softc_ref, softc_ref_state. unfold_M.
  destruct ((0 <=? core) && (core <? softc_slots g));
    cbn [share_count softc set_oob_log set_softc];
    destruct (dev_open w (s32 (i * share_count g)) =? -1);
    intro H; inversion H; reflexivity.
Qed.

Lemma open_msrs_open_frame w core i g g' :
  open_msrs_open w core i g = Done tt g' ->
  quiet g' = quiet g
  /\ (forall j, last (softc g' j) = last (softc g j))
  /\ oob_log g' = oob_log g ++ (if (0 <=? core) && (core <? softc_slots g)
                                then [] else [core]).
Proof.
  intro H. apply open_msrs_open_Done in H. subst g'.
  destruct (softc_ref_state_config core g) as (Hc & Hs & Hf & Ho & He & Hm & Hl).
  pose proof (softc_ref_state_oob core g) as Hoob.
  unfold quiet, config in *. cbn. repeat split.
  - injection Hc; intros. congruence.
  - intro j. unfold upd. destruct (j =? core) eqn:E; [|reflexivity].
    apply Z.eqb_eq in E. subst j. reflexivity.
  - exact Hoob.
Qed.

Lemma open_msrs_body_frame w core g g' :
  open_msrs_body w core tt g = Done tt g' ->
  quiet g' = quiet g
  /\ (forall j, last (softc g' j) = last (softc g j))
  /\ exists l, oob_log g' = oob_log g ++ l
               /\ (cpu_count g <= core ->
                   ~ (0 <= core < softc_slots g) -> In core l).
Proof.
  unfold open_msrs_body. unfold get, bind at 1.
  destruct (core >=? cpu_count g) eqn:E.
  - intro H. apply open_msrs_open_frame in H. destruct H as (H1 & H2 & H3).
    split; [exact H1|]. split; [exact H2|]. eexists. split; [exact H3|].
    intros _ Hout.
    destruct ((0 <=? core) && (core <? softc_slots g)) eqn:B; [|now left].
    apply andb_true_iff in B. lia.
  - destruct (processor_type_eqb (cpu g) INTEL && negb (core =? 0)).
    + unfold ret. intro H; inversion H; subst. split; [reflexivity|].
      split; [reflexivity|]. exists []. rewrite app_nil_r.
      split; [reflexivity|]. lia.
    + intro H. apply open_msrs_open_frame in H. destruct H as (H1 & H2 & H3).
      split; [exact H1|]. split; [exact H2|]. eexists. split; [exact H3|]. lia.
Qed.

Lemma quiet_cpu_count g g' : quiet g' = quiet g -> cpu_count g' = cpu_count g.
Proof. unfold quiet, config. intro H. injection H. intros. assumption. Qed.

Lemma quiet_softc_slots g g' :
  quiet g' = quiet g -> softc_slots g' = softc_slots g.
Proof. unfold quiet, config. intro H. injection H. intros. assumption. Qed.

Lemma open_msrs_loop_frame w n : forall core g g',
  for_loop n core (open_msrs_body w) tt g = Done tt g' ->
  quiet g' = quiet g
  /\ (forall j, last (softc g' j) = last (softc g j))
  /\ exists l, oob_log g' = oob_log g ++ l
               /\ (forall j, In j (zrange core n) -> cpu_count g <= j ->
                             ~ (0 <= j < softc_slots g) -> In j l).
Proof.
  induction n as [|n IH]; intros core g g' H.
  - simpl in H. inversion H; subst. split; [reflexivity|].
    split; [reflexivity|]. exists []. rewrite app_nil_r.
    split; [reflexivity|]. intros j [].
  - simpl in H. apply bind_Done in H. destruct H as ([] & g1 & Hb & Hl).
    apply open_msrs_body_frame in Hb.
    destruct Hb as (Hq1 & Hl1 & l1 & Ho1 & Hin1).
    apply IH in Hl. destruct Hl as (Hq2 & Hl2 & l2 & Ho2 & Hin2).
    split; [congruence|]. split; [intro j; now rewrite Hl2, Hl1|].
    exists (l1 ++ l2). split; [rewrite Ho2, Ho1; now rewrite app_assoc|].
    intros j Hj Hc Hout. apply in_or_app. simpl in Hj. destruct Hj as [<-|Hj].
    + left. now apply Hin1.
    + right. apply Hin2; [exact Hj| |].
      * now rewrite (quiet_cpu_count _ _ Hq1).
      * now rewrite (quiet_softc_slots _ _ Hq1).
Qed.

Lemma zrange_In core n : forall j,
  In j (zrange core n) <-> core <= j < core + Z.of_nat n.
Proof.
  revert core. induction n as [|n IH]; intros core j.
  - simpl. lia.
  - cbn [zrange In]. rewrite IH. lia.
Qed.

Lemma open_msrs_frame w g g' :
  open_msrs w g = Done tt g' ->
  quiet g' = quiet g
  /\ (forall j, last (softc g' j) = last (softc g j))
  /\ exists l, oob_log g' = oob_log g ++ l
               /\ (count_fits g -> softc_slots g = u32 (cpu_count g + 1) ->
                   In (cpu_count g + 1) l).
Proof.
  unfold open_msrs. unfold get, bind at 1. intro H.
  apply open_msrs_loop_frame in H. destruct H as (Hq & Hl & l & Ho & Hin).
  split; [exact Hq|]. split; [exact Hl|]. exists l. split; [exact Ho|].
  intros [Hc0 Hc1] Hs. unfold u32 in *.
  rewrite Z.mod_small in Hs by lia. rewrite Z.mod_small in Hin by lia.
  apply Hin; [|lia|lia]. apply zrange_In. lia.
Qed.

(** * [identify_cpu] as a whole *)

Lemma identify_cpu_classify_Done g g' :
  identify_cpu_classify g = Done tt g' ->
  g' = set_core_msr AMD_ENERGY_CORE_MSR
         (set_pkg_msr AMD_ENERGY_PKG_MSR (set_cpu AMD g))
  \/ g' = set_dram_msr INTEL_ENERGY_DRAM_MSR
            (set_pkg_msr INTEL_ENERGY_PKG_MSR (set_cpu INTEL g)).
Proof.
  unfold identify_cpu_classify, unsupported_cpu. unfold_M.
  split_eqb; simpl; intro H; inversion H; auto.
Qed.

Lemma identify_cpu_phases w hw g0 g :
  identify_cpu w hw g0 = Done tt g ->
  exists g1 g2 g3 g4 g5,
    identify_cpu_cpuid w g0 = Done tt g1
    /\ identify_cpu_classify g1 = Done tt g2
    /\ identify_cpu_topology w g2 = Done tt g3
    /\ open_msrs w g3 = Done tt g4
    /\ identify_cpu_units hw g4 = Done tt g5
    /\ identify_cpu_report g5 = Done tt g.
Proof.
  unfold identify_cpu. intro H.
  apply bind_Done in H. destruct H as ([] & g1 & H1 & H).
  apply bind_Done in H. destruct H as ([] & g2 & H2 & H).
  apply bind_Done in H. destruct H as ([] & g3 & H3 & H).
  apply bind_Done in H. destruct H as ([] & g4 & H4 & H).
  apply bind_Done in H. destruct H as ([] & g5 & H5 & H).
  exists g1, g2, g3, g4, g5. auto 10.
Qed.

(** The sharing factor and the physical-unit count as lines 281-282
    compute them. *)
Lemma identify_cpu_topology_fields w hw g0 g :
  identify_cpu w hw g0 = Done tt g ->
  let s := u32 (Z.land (Z.shiftr (snd (fst (fst (cpuid w 0x8000001e 0)))) 8)
                       0xff + 1) in
  let n := u32 (Z.quot (nprocessors_conf w) s) in
  share_count g = s /\ cpu_count g = n /\ softc_slots g = u32 (n + 1)
  /\ (forall j, 0 <= j < u32 (n + 1) -> last (softc g j) = 0%float).
Proof.
  intros H s n. apply identify_cpu_phases in H.
  destruct H as (g1 & g2 & g3 & g4 & g5 & H1 & H2 & H3 & H4 & H5 & H6).
  apply identify_cpu_topology_Done in H3. fold s n in H3.
  apply open_msrs_frame in H4. destruct H4 as (Hq & Hl & _).
  apply identify_cpu_units_Done in H5. destruct H5 as (data & _ & H5).
  apply identify_cpu_report_Done in H6. destruct H6 as (out & H6).
  assert (Hs5 : share_count g5 = s /\ cpu_count g5 = n
                /\ softc_slots g5 = u32 (n + 1) /\ softc g5 = softc g4).
  { unfold quiet, config in Hq. injection Hq; intros. subst g3.
    cbn in *. subst g5. unfold softc_ref_state.
    destruct (cpu g4);
      destruct ((0 <=? 0) && (0 <? softc_slots g4)); cbn; auto. }
  destruct Hs5 as (A & B & C & D). subst g. cbn.
  repeat split; try assumption.
  intros j Hj. rewrite D, Hl. subst g3. cbn.
  destruct (Z.leb_spec 0 j); [|lia]. destruct (Z.ltb_spec j (u32 (n + 1))); [|lia].
  reflexivity.
Qed.

Lemma unit_field_bits data :
  Z.shiftr (Z.land data AMD_ENERGY_UNIT_MASK) 8
  = Z.land (Z.shiftr data 8) 0x1f.
Proof. now rewrite Z.shiftr_land. Qed.

Lemma land_ones_bounds a n : 0 <= n -> 0 <= Z.land a (Z.ones n) < 2 ^ n.
Proof.
  intro Hn. rewrite Z.land_ones by exact Hn.
  apply Z.mod_pos_bound. apply Z.pow_pos_nonneg; lia.
Qed.

Lemma unit_field_range data : 0 <= Z.land (Z.shiftr data 8) 0x1f <= 31.
Proof.
  pose proof (land_ones_bounds (Z.shiftr data 8) 5 ltac:(lia)) as H.
  change (Z.ones 5) with 0x1f in H. change (2 ^ 5) with 32 in H. lia.
Qed.

Lemma identify_cpu_before_units w g0 g1 g2 g3 g4 :
  identify_cpu_cpuid w g0 = Done tt g1 ->
  identify_cpu_classify g1 = Done tt g2 ->
  identify_cpu_topology w g2 = Done tt g3 ->
  open_msrs w g3 = Done tt g4 ->
  fresh g0 ->
  (cpu g4 = AMD /\ pkg_msr g4 = AMD_ENERGY_PKG_MSR
   /\ core_msr g4 = AMD_ENERGY_CORE_MSR /\ dram_msr g4 = 0
   \/ cpu g4 = INTEL /\ pkg_msr g4 = INTEL_ENERGY_PKG_MSR
      /\ core_msr g4 = 0 /\ dram_msr g4 = INTEL_ENERGY_DRAM_MSR)
  /\ amd_energy_units g4 = 0 /\ first g4 = true /\ msr_log g4 = []
  /\ verbose g4 = verbose g0 /\ scale g4 = scale g0
  /\ stderr g4 = stderr g0 /\ slept g4 = slept g0
  /\ exists l, oob_log g4 = l
               /\ (count_fits g4 -> In (cpu_count g4 + 1) l).
Proof.
  intros H1 H2 H3 H4 (F1 & F2 & F3 & F4 & F5 & F6 & F7).
  destruct (identify_cpu_cpuid_run w g0) as (v & id & E1 & _).
  rewrite E1 in H1. inversion H1 as [G1]. clear H1 E1.
  apply identify_cpu_classify_Done in H2.
  apply identify_cpu_topology_Done in H3.
  apply open_msrs_frame in H4. destruct H4 as (Hq & _ & l & Ho & Hin).
  assert (Hslots : softc_slots g3 = u32 (cpu_count g3 + 1))
    by (subst g3; reflexivity).
  unfold quiet, config in Hq. injection Hq. clear Hq. intros.
  assert (Hoob : count_fits g4 -> In (cpu_count g4 + 1) (oob_log g4)).
  { unfold count_fits. replace (cpu_count g4) with (cpu_count g3) by congruence.
    rewrite Ho. intro Hfit. apply in_or_app. right. now apply Hin. }
  clear Hin Ho Hslots.
  subst g3. destruct H2 as [H2|H2]; subst g2 g1; cbn in *.
  - split; [left; repeat split; congruence|].
    repeat split; try congruence. eexists; split; [reflexivity|exact Hoob].
  - split; [right; repeat split; congruence|].
    repeat split; try congruence. eexists; split; [reflexivity|exact Hoob].
Qed.

Lemma identify_cpu_post w hw g0 g :
  identify_cpu w hw g0 = Done tt g -> fresh g0 ->
  identified g /\ first g = true /\ verbose g = verbose g0
  /\ scale g = scale g0 /\ stderr g = stderr g0 /\ slept g = slept g0
  /\ (exists data,
        hw (fd (softc g 0)) (unit_msr g) = Some data
        /\ msr_log g = [(fd (softc g 0), unit_msr g)]
        /\ match cpu g with
           | AMD => amd_energy_units g = Z.land (Z.shiftr data 8) 0x1f
           | INTEL =>
               energy_units g = pow 0.5%float (Z.land (Z.shiftr data 8) 0x1f)
               /\ dram_units g = pow 0.5%float 16
           end).
Proof.
  intros H Hfresh.
  apply identify_cpu_phases in H.
  destruct H as (g1 & g2 & g3 & g4 & g5 & H1 & H2 & H3 & H4 & H5 & H6).
  destruct (identify_cpu_before_units _ _ _ _ _ _ H1 H2 H3 H4 Hfresh)
    as (Hv & Hu & Hf & Hm & Hvb & Hsc & He & Hsl & _).
  clear H1 H2 H3 H4.
  apply identify_cpu_units_Done in H5. destruct H5 as (data & Hd & H5).
  apply identify_cpu_report_Done in H6. destruct H6 as (out & H6).
  destruct (softc_ref_state_config 0 g4) as (Rc & Rs & Rf & Ro & Re & Rm & Rl).
  unfold config in Rc. injection Rc. clear Rc. intros.
  pose proof (unit_field_range data) as Hrange.
  rewrite unit_field_bits in H5.
  unfold identified, unit_msr.
  destruct Hv as [(Hc & Hp & Hco & Hdr)|(Hc & Hp & Hco & Hdr)];
    rewrite Hc in *; subst g5 g; cbn_state;
    repeat match goal with
           | E : _ (softc_ref_state 0 g4) = _ |- _ => rewrite E; clear E
           end;
    rewrite ?Hc, ?Hm; cbn [app].
  - repeat split; try congruence; try lia.
    exists data. repeat split; congruence.
  - repeat split; try congruence; try lia.
    exists data. repeat split; congruence.
Qed.

(** [open_msrs] has addressed the element past the allocated ones. *)
Lemma identify_cpu_oob w hw g0 g :
  identify_cpu w hw g0 = Done tt g -> fresh g0 -> count_fits g ->
  In (cpu_count g + 1) (oob_log g).
Proof.
  intros H Hfresh Hfit.
  apply identify_cpu_phases in H.
  destruct H as (g1 & g2 & g3 & g4 & g5 & H1 & H2 & H3 & H4 & H5 & H6).
  destruct (identify_cpu_before_units _ _ _ _ _ _ H1 H2 H3 H4 Hfresh)
    as (_ & _ & _ & _ & _ & _ & _ & _ & l & Ho & Hin).
  clear H1 H2 H3 H4.
  apply identify_cpu_units_Done in H5. destruct H5 as (data & Hd & H5).
  apply identify_cpu_report_Done in H6. destruct H6 as (out & H6).
  destruct (softc_ref_state_config 0 g4) as (Rc & _).
  pose proof (softc_ref_state_oob 0 g4) as Roob.
  unfold config in Rc. injection Rc. clear Rc. intros.
  unfold count_fits in *. subst g.
  destruct (cpu g4); subst g5; cbn_state_all; rewrite Roob;
    apply in_or_app; left; rewrite <- Ho in Hin;
    replace (cpu_count (softc_ref_state 0 g4)) with (cpu_count g4) in *
      by congruence; now apply Hin.
Qed.

(** * [read_power]: one loop index *)

Lemma emit_nil g : emit [] g = g.
Proof. unfold emit. destruct g. cbn. now rewrite app_nil_r. Qed.

Lemma emit_emit a b g : emit b (emit a g) = emit (a ++ b) g.
Proof. unfold emit. cbn. now rewrite app_assoc. Qed.

Lemma printf_run e g : printf e g = Done tt (emit [e] g).
Proof. reflexivity. Qed.

Lemma when_printf_run b e g :
  when b (printf e) g = Done tt (emit (if b then [e] else []) g).
Proof. destruct b; [reflexivity|]. now rewrite emit_nil. Qed.

Lemma read_power_print_run max core delta cs g :
  read_power_print max core delta cs g
  = Done tt (emit (print_events g max core delta cs) g).
Proof.
  unfold read_power_print, print_events. unfold get, bind at 1.
  destruct (core =? cpu_count g).
  - unfold bind. destruct (negb (verbose g =? 0)); rewrite printf_run;
      rewrite when_printf_run, when_printf_run, !emit_emit; reflexivity.
  - destruct (negb (verbose g =? 0) && (core =? u32 (cpu_count g + 1))).
    + unfold bind. rewrite printf_run, when_printf_run, emit_emit. reflexivity.
    + destruct (negb (verbose g =? 0) && negb (amd_energy_units g =? 0)).
      * unfold bind.
        rewrite when_printf_run, when_printf_run, printf_run,
          when_printf_run, when_printf_run, !emit_emit.
        rewrite <- ?app_assoc. reflexivity.
      * unfold ret. now rewrite emit_nil.
Qed.

Lemma read_power_sample_Done hw core g delta g' :
  read_power_sample hw core g = Done delta g' ->
  exists raw,
    raw_of g hw core = Some raw
    /\ delta = delta_of g hw core
    /\ g' = set_softc (upd (softc g) core
                           {| fd := fd (softc g core);
                              last := watts_of g core raw |})
              (set_msr_log (msr_log g ++ [(fd (softc g core),
                                           msr_of_core g core)])
                 (softc_ref_state core g)).
Proof.
  unfold read_power_sample, read_msr, softc_ref, softc_ref_state, delta_of,
    raw_of.
  unfold_M.
  destruct ((0 <=? core) && (core <? softc_slots g)); cbn_state;
    change (msr_of_core (set_oob_log (oob_log g ++ [core]) g) core)
      with (msr_of_core g core);
    destruct (hw (fd (softc g core)) (msr_of_core g core)) as [raw|];
    intro H; inversion H; exists raw; repeat split.
Qed.

Lemma sample_state_frame core g l s :
  let g' := set_softc s (set_msr_log l (softc_ref_state core g)) in
  config g' = config g /\ first g' = first g /\ stdout g' = stdout g
  /\ stderr g' = stderr g /\ slept g' = slept g
  /\ oob_log g' = oob_log g ++ (if (0 <=? core) && (core <? softc_slots g)
                                then [] else [core]).
Proof.
  destruct (softc_ref_state_config core g) as (Hc & Hs & Hf & Ho & He & Hm & Hl).
  pose proof (softc_ref_state_oob core g) as Hoob.
  cbv zeta. unfold config in *. cbn_state. injection Hc. intros.
  repeat split; congruence.
Qed.

Lemma read_power_body_Done hw max core cs g cs' g' :
  read_power_body hw max core cs g = Done cs' g' ->
  exists raw,
    raw_of g hw core = Some raw
    /\ config g' = config g /\ first g' = first g
    /\ stderr g' = stderr g /\ slept g' = slept g
    /\ softc g' = upd (softc g) core {| fd := fd (softc g core);
                                        last := watts_of g core raw |}
    /\ msr_log g' = msr_log g ++ [(fd (softc g core), msr_of_core g core)]
    /\ oob_log g' = oob_log g ++ (if (0 <=? core) && (core <? softc_slots g)
                                  then [] else [core])
    /\ stdout g' = stdout g
                   ++ (if first g && (verbose g <? 2) then []
                       else print_events g max core (delta_of g hw core) cs)
    /\ cs' = if first g && (verbose g <? 2) then cs
             else (cs + delta_of g hw core)%float.
Proof.
  unfold read_power_body. intro H.
  apply bind_Done in H. destruct H as (delta & g1 & Hs & H).
  apply read_power_sample_Done in Hs. destruct Hs as (raw & Hraw & Hd & Hg1).
  exists raw. split; [exact Hraw|].
  destruct (sample_state_frame core g
              (msr_log g ++ [(fd (softc g core), msr_of_core g core)])
              (upd (softc g) core {| fd := fd (softc g core);
                                     last := watts_of g core raw |}))
    as (Fc & Ff & Fo & Fe & Fl & Foob).
  rewrite <- Hg1 in *.
  assert (Fm : msr_log g1 = msr_log g ++ [(fd (softc g core), msr_of_core g core)]).
  { subst g1. cbn_state. destruct (softc_ref_state_config core g) as (_&_&_&_&_&Hm&_).
    reflexivity. }
  assert (Fs : softc g1 = upd (softc g) core {| fd := fd (softc g core);
                                        last := watts_of g core raw |})
    by (subst g1; reflexivity).
  assert (Fv : verbose g1 = verbose g)
    by (unfold config in Fc; injection Fc; intros; assumption).
  unfold get, bind at 1 in H. rewrite Ff, Fv in H.
  destruct (first g && (verbose g <? 2)).
  - unfold ret in H. inversion H. subst. rewrite app_nil_r. auto 10.
  - unfold bind in H. rewrite read_power_print_run in H. unfold ret in H.
    inversion H. subst cs' g'. unfold emit. cbn_state.
    assert (Ep : print_events g1 max core delta cs
                 = print_events g max core delta cs).
    { unfold print_events. config_rewrite Fc. reflexivity. }
    rewrite Ep, Fo, Hd.
    unfold config in *. cbn_state. repeat split; assumption.
Qed.

(** * [read_power]: the loop *)

Lemma msr_of_core_config g1 g2 core :
  config g1 = config g2 -> msr_of_core g1 core = msr_of_core g2 core.
Proof. intro H. unfold msr_of_core. config_rewrite H. reflexivity. Qed.

Lemma watts_of_config g1 g2 core raw :
  config g1 = config g2 -> watts_of g1 core raw = watts_of g2 core raw.
Proof.
  intro H. unfold watts_of, amd_add_power. config_rewrite H. reflexivity.
Qed.

Lemma print_events_config g1 g2 max core delta cs :
  config g1 = config g2 ->
  print_events g1 max core delta cs = print_events g2 max core delta cs.
Proof. intro H. unfold print_events. config_rewrite H. reflexivity. Qed.

Lemma raw_of_agree g1 g2 hw core j :
  agree_from core g1 g2 -> core <= j -> raw_of g1 hw j = raw_of g2 hw j.
Proof.
  intros (Hc & _ & Hs) Hj. unfold raw_of.
  now rewrite (Hs j Hj), (msr_of_core_config _ _ j Hc).
Qed.

Lemma delta_of_agree g1 g2 hw core j :
  agree_from core g1 g2 -> core <= j -> delta_of g1 hw j = delta_of g2 hw j.
Proof.
  intros H Hj. unfold delta_of. rewrite (raw_of_agree _ _ hw _ _ H Hj).
  destruct H as (Hc & _ & Hs). rewrite (Hs j Hj).
  destruct (raw_of g2 hw j); [|reflexivity].
  now rewrite (watts_of_config _ _ j z Hc).
Qed.

Section Loop.

Variables (hw : msr_dev) (max : Z).

Lemma loop_events_agree n : forall core cs g1 g2,
  agree_from core g1 g2 ->
  loop_events g1 hw max n core cs = loop_events g2 hw max n core cs.
Proof.
  induction n as [|n IH]; intros core cs g1 g2 H; [reflexivity|].
  cbn [loop_events].
  rewrite (delta_of_agree _ _ hw core core H) by lia.
  assert (H' : agree_from (core + 1) g1 g2).
  { destruct H as (Hc & Hf & Hs). repeat split; try assumption.
    intros j Hj. apply Hs. lia. }
  rewrite !(IH (core + 1) _ g1 g2 H').
  destruct H as (Hc & Hf & _). rewrite Hf.
  rewrite (print_events_config _ _ max core _ cs Hc).
  config_rewrite Hc. reflexivity.
Qed.

Lemma read_power_loop_Done n : forall core cs g cs' g',
  for_loop n core (read_power_body hw max) cs g = Done cs' g' ->
  config g' = config g /\ first g' = first g
  /\ stderr g' = stderr g /\ slept g' = slept g
  /\ stdout g' = stdout g ++ loop_events g hw max n core cs
  /\ (forall j, ~ In j (zrange core n) -> softc g' j = softc g j)
  /\ (forall j, In j (zrange core n) ->
        exists raw, raw_of g hw j = Some raw
                    /\ softc g' j = {| fd := fd (softc g j);
                                       last := watts_of g j raw |})
  /\ msr_log g' = msr_log g
                  ++ map (fun j => (fd (softc g j), msr_of_core g j))
                         (zrange core n)
  /\ oob_log g' = oob_log g
                  ++ filter (fun j => negb ((0 <=? j) && (j <? softc_slots g)))
                            (zrange core n).
Proof.
  induction n as [|n IH]; intros core cs g cs' g' H.
  - simpl in H. unfold ret in H. inversion H. subst. cbn.
    rewrite !app_nil_r. repeat split; try reflexivity. intros j [].
  - cbn [for_loop] in H. apply bind_Done in H.
    destruct H as (cs1 & g1 & Hb & Hl).
    apply read_power_body_Done in Hb.
    destruct Hb as (raw & Hraw & Bc & Bf & Be & Bl & Bs & Bm & Bo & Bout & Bcs).
    apply IH in Hl.
    destruct Hl as (Lc & Lf & Le & Ll & Lout & Lkeep & Lnew & Lm & Lo).
    assert (Hag : agree_from (core + 1) g1 g).
    { repeat split; try assumption. intros j Hj. rewrite Bs. unfold upd.
      destruct (Z.eqb_spec j core); [lia|reflexivity]. }
    assert (Hsl : softc_slots g1 = softc_slots g)
      by (unfold config in Bc; injection Bc; intros; assumption).
    split; [congruence|]. split; [congruence|]. split; [congruence|].
    split; [congruence|]. split.
    { rewrite Lout, Bout, <- app_assoc. f_equal. cbn [loop_events].
      rewrite (loop_events_agree n (core + 1) cs1 g1 g Hag).
      subst cs1. destruct (first g && (verbose g <? 2)); reflexivity. }
    split.
    { intros j Hj. cbn [zrange In] in Hj.
      rewrite Lkeep by tauto. rewrite Bs. unfold upd.
      destruct (Z.eqb_spec j core); [subst; tauto|reflexivity]. }
    split.
    { intros j Hj. cbn [zrange In] in Hj.
      destruct (Z.eq_dec core j) as [<-|Hne].
      - exists raw. split; [exact Hraw|].
        rewrite Lkeep by (rewrite zrange_In; lia).
        rewrite Bs. unfold upd. now rewrite Z.eqb_refl.
      - destruct Hj as [Hj|Hj]; [contradiction|].
        destruct (Lnew j Hj) as (r & Hr & Hs). exists r.
        apply zrange_In in Hj.
        rewrite <- (raw_of_agree g1 g hw (core + 1) j Hag) by lia.
        split; [exact Hr|]. rewrite Hs.
        rewrite (watts_of_config _ _ j r Bc).
        destruct Hag as (_ & _ & Ha). rewrite (Ha j) by lia. reflexivity. }
    split.
    { rewrite Lm, Bm, <- app_assoc. f_equal. cbn [zrange map app]. f_equal.
      apply map_ext_in. intros j Hj. apply zrange_In in Hj.
      destruct Hag as (_ & _ & Ha). rewrite (Ha j) by lia.
      now rewrite (msr_of_core_config _ _ j Bc). }
    { rewrite Lo, Bo, <- app_assoc. f_equal. cbn [zrange filter]. rewrite Hsl.
      destruct ((0 <=? core) && (core <? softc_slots g)); reflexivity. }
Qed.

End Loop.

Lemma read_power_Done hw g g' :
  read_power hw g = Done tt g' ->
  config g' = config g /\ first g' = false
  /\ stderr g' = stderr g /\ slept g' = slept g
  /\ stdout g' = stdout g ++ tick_events g hw
  /\ (forall j, ~ In j (tick_cores g) -> softc g' j = softc g j)
  /\ (forall j, In j (tick_cores g) ->
        exists raw, raw_of g hw j = Some raw
                    /\ softc g' j = {| fd := fd (softc g j);
                                       last := watts_of g j raw |})
  /\ msr_log g' = msr_log g
                  ++ map (fun j => (fd (softc g j), msr_of_core g j))
                         (tick_cores g)
  /\ oob_log g' = oob_log g
                  ++ filter (fun j => negb ((0 <=? j) && (j <? softc_slots g)))
                            (tick_cores g).
Proof.
  unfold read_power, tick_events, tick_cores. unfold get, bind at 1.
  destruct (read_power_range g) as [first_core max]. intro H.
  apply bind_Done in H. destruct H as (cs & g1 & Hl & H).
  apply read_power_loop_Done in Hl. unfold modify in H. inversion H. subst g'.
  cbn_state. unfold config in *. cbn_state. tauto.
Qed.

(** * Facts about doubles and machine integers *)

Lemma sub_zero_r (x : float) : (x - 0)%float = x.
Proof.
  apply Prim2SF_inj. rewrite sub_spec.
  change (Prim2SF 0) with (S754_zero false).
  destruct (Prim2SF x) as [[]|[]| |[] m e]; reflexivity.
Qed.


Lemma int_shift_pow2 k : 0 <= k <= 30 -> s32 (Z.shiftl 1 k) = 2 ^ k.
Proof.
  intro Hk. rewrite Z.shiftl_1_l. unfold s32.
  assert (0 < 2 ^ k) by (apply Z.pow_pos_nonneg; lia).
  assert (2 ^ k <= 2 ^ 30) by (apply Z.pow_le_mono_r; lia).
  change (2 ^ 30) with 1073741824 in *. change (2 ^ 31) with 2147483648.
  change (2 ^ 32) with 4294967296.
  rewrite Z.mod_small; lia.
Qed.

Lemma int_shift_divisor k : 0 <= k <= 31 -> s32 (Z.shiftl 1 k) = amd_divisor k.
Proof.
  intro Hk. unfold amd_divisor.
  destruct (Z.eqb_spec k 31) as [->|Hne]; [reflexivity|].
  apply int_shift_pow2. lia.
Qed.

Lemma watts_of_conversion g core raw :
  (cpu g = AMD -> 0 <= amd_energy_units g <= 31) ->
  watts_of g core raw = conversion g core raw.
Proof.
  intro H. unfold watts_of, conversion, amd_add_power, f_amd,
             intel_add_power, f_intel.
  destruct (cpu g); [|reflexivity].
  now rewrite int_shift_divisor by auto.
Qed.

Lemma identified_exponent g :
  identified g -> cpu g = AMD -> 0 <= amd_energy_units g <= 31.
Proof. unfold identified. intros H E. rewrite E in H. tauto. Qed.

(** * What a tick reports *)



(** The package line is printed once the loop reaches [cpu_count]. *)
Lemma loop_events_pkg g hw max n : forall core cs,
  first g && (verbose g <? 2) = false ->
  In (cpu_count g) (zrange core n) ->
  In (if negb (verbose g =? 0)
      then PrintPkg (delta_of g hw (cpu_count g) * scale g)
      else PrintPlain (delta_of g hw (cpu_count g) * scale g))
     (loop_events g hw max n core cs).
Proof.
  induction n as [|n IH]; intros core cs Hp Hin; [destruct Hin|].
  cbn [loop_events]. rewrite Hp. cbn [zrange In] in Hin.
  apply in_or_app. destruct Hin as [->|Hin].
  - left. unfold print_events. rewrite Z.eqb_refl. now left.
  - right. now apply IH.
Qed.

Lemma read_power_range_config g1 g2 :
  config g1 = config g2 -> read_power_range g1 = read_power_range g2.
Proof. intro H. unfold read_power_range. config_rewrite H. reflexivity. Qed.

Lemma tick_cores_config g1 g2 :
  config g1 = config g2 -> tick_cores g1 = tick_cores g2.
Proof.
  intro H. unfold tick_cores. now rewrite (read_power_range_config _ _ H).
Qed.


Lemma cpu_count_in_tick_cores g :
  count_fits g -> In (cpu_count g) (tick_cores g).
Proof.
  intros [H0 H1]. unfold tick_cores, read_power_range, u32.
  rewrite (Z.mod_small (cpu_count g + 1)) by lia.
  destruct (negb (verbose g =? 0) && negb (core_msr g =? 0));
    [|destruct (negb (verbose g =? 0) && negb (dram_msr g =? 0));
      [rewrite Z.mod_small by lia|]];
    apply zrange_In; lia.
Qed.

Lemma tick_events_pkg g hw :
  count_fits g -> first g && (verbose g <? 2) = false ->
  In (if negb (verbose g =? 0)
      then PrintPkg (delta_of g hw (cpu_count g) * scale g)
      else PrintPlain (delta_of g hw (cpu_count g) * scale g))
     (tick_events g hw).
Proof.
  intros Hfit Hp. pose proof (cpu_count_in_tick_cores g Hfit) as Hin.
  unfold tick_events, tick_cores in *.
  destruct (read_power_range g) as [first_core max].
  now apply loop_events_pkg.
Qed.


Lemma config_scale g1 g2 : config g1 = config g2 -> scale g1 = scale g2.
Proof. intro H. unfold config in H. injection H. intros. assumption. Qed.




(** * Topology *)

Lemma share_field_range r : 0 <= Z.land (Z.shiftr r 8) 0xff <= 255.
Proof.
  pose proof (land_ones_bounds (Z.shiftr r 8) 8 ltac:(lia)) as H.
  change (Z.ones 8) with 0xff in H. change (2 ^ 8) with 256 in H. lia.
Qed.

Lemma share_count_value r :
  u32 (Z.land (Z.shiftr r 8) 0xff + 1) = Z.land (Z.shiftr r 8) 0xff + 1.
Proof.
  pose proof (share_field_range r). unfold u32.
  apply Z.mod_small. change (2 ^ 32) with 4294967296. lia.
Qed.

Lemma cpu_count_value p s :
  0 <= p < 2 ^ 32 -> 0 < s -> u32 (Z.quot p s) = p / s /\ 0 <= p / s <= p.
Proof.
  intros Hp Hs. rewrite Z.quot_div_nonneg by lia.
  assert (0 <= p / s) by (apply Z.div_pos; lia).
  assert (p / s <= p) by (apply Z.div_le_upper_bound; nia).
  split; [|lia]. unfold u32. apply Z.mod_small. lia.
Qed.

Lemma identify_cpu_count_fits w hw g0 g :
  identify_cpu w hw g0 = Done tt g ->
  0 <= nprocessors_conf w < 2 ^ 31 -> count_fits g.
Proof.
  intros H Hp. apply identify_cpu_topology_fields in H.
  destruct H as (_ & Hn & _). unfold count_fits. rewrite Hn.
  rewrite share_count_value.
  pose proof (share_field_range (snd (fst (fst (cpuid w 0x8000001e 0))))).
  destruct (cpu_count_value (nprocessors_conf w)
              (Z.land (Z.shiftr (snd (fst (fst (cpuid w 0x8000001e 0)))) 8)
                      0xff + 1)) as [-> ?].
  - change (2 ^ 32) with 4294967296. change (2 ^ 31) with 2147483648 in Hp. lia.
  - lia.
  - change (2 ^ 32) with 4294967296. change (2 ^ 31) with 2147483648 in Hp. lia.
Qed.

(** C8: the physical-unit count [identify_cpu] computes is the configured
    processor count [p] divided (integer division) by the sharing factor
    [s], where [s] is the 8-bit field at bits 8..15 of [ebx] of the
    topology leaf plus one; in particular for [s = 1] and [s = 2]. *)
Theorem physical_unit_count w hw g0 g :
  0 <= nprocessors_conf w < 2 ^ 32 ->
  identify_cpu w hw g0 = Done tt g ->
  let field := Z.land (Z.shiftr (snd (fst (fst (cpuid w 0x8000001e 0)))) 8)
                      0xff in
  0 <= field < 2 ^ 8
  /\ share_count g = field + 1
  /\ cpu_count g = nprocessors_conf w / share_count g
  /\ (share_count g = 1 -> cpu_count g = nprocessors_conf w)
  /\ (share_count g = 2 -> cpu_count g = nprocessors_conf w / 2).
Proof.
  intros Hp H field. apply identify_cpu_topology_fields in H.
  destruct H as (Hs & Hn & _). fold field in Hs, Hn.
  pose proof (share_field_range (snd (fst (fst (cpuid w 0x8000001e 0))))) as Hf.
  fold field in Hf. unfold field in Hs at 1. rewrite share_count_value in Hs.
  fold field in Hs.
  assert (Hc : cpu_count g = nprocessors_conf w / share_count g).
  { rewrite Hn, Hs. unfold field at 1. rewrite share_count_value. fold field.
    apply cpu_count_value; lia. }
  split; [change (2 ^ 8) with 256; lia|]. split; [exact Hs|].
  split; [exact Hc|]. split; intro E; rewrite Hc, E; [apply Z.div_1_r|reflexivity].
Qed.

(** * The first tick *)

Lemma loop_events_suppressed g hw max n : forall core cs,
  first g && (verbose g <? 2) = true -> loop_events g hw max n core cs = [].
Proof.
  induction n as [|n IH]; intros core cs H; [reflexivity|].
  cbn [loop_events]. rewrite H. now apply IH.
Qed.

Lemma tick_events_suppressed g hw :
  first g = true -> verbose g < 2 -> tick_events g hw = [].
Proof.
  intros Hf Hv. unfold tick_events.
  destruct (read_power_range g) as [first_core max].
  apply loop_events_suppressed. rewrite Hf.
  destruct (Z.ltb_spec (verbose g) 2); [reflexivity|lia].
Qed.

Lemma identify_cpu_last_zero w hw g0 g :
  identify_cpu w hw g0 = Done tt g -> count_fits g ->
  forall j, 0 <= j <= cpu_count g -> last (softc g j) = 0%float.
Proof.
  intros H [H0 H1] j Hj. apply identify_cpu_topology_fields in H.
  destruct H as (_ & Hn & _ & Hz). rewrite <- Hn in Hz. apply Hz.
  unfold u32. rewrite Z.mod_small; lia.
Qed.

(** * The layout of a tick *)

Lemma not_suppressed g :
  first g = false \/ 2 <= verbose g -> first g && (verbose g <? 2) = false.
Proof.
  intros [->|H]; [reflexivity|].
  destruct (Z.ltb_spec (verbose g) 2); [lia|apply andb_false_r].
Qed.

Lemma verbose_flag g : verbose g <> 0 -> negb (verbose g =? 0) = true.
Proof. intro H. now destruct (Z.eqb_spec (verbose g) 0). Qed.

Lemma units_flag g :
  amd_energy_units g <> 0 -> negb (amd_energy_units g =? 0) = true.
Proof. intro H. now destruct (Z.eqb_spec (amd_energy_units g) 0). Qed.

Lemma u32_small z : 0 <= z < 2 ^ 32 -> u32 z = z.
Proof. intro H. unfold u32. now apply Z.mod_small. Qed.

Lemma s32_small z : 0 <= z < 2 ^ 31 -> s32 z = z.
Proof.
  intro H. unfold s32. change (2 ^ 31) with 2147483648 in *.
  change (2 ^ 32) with 4294967296. rewrite Z.mod_small; lia.
Qed.

(** The events of a loop index below [cpu_count] when the table is on. *)
Lemma print_events_core g max c delta cs :
  0 <= cpu_count g < 2 ^ 31 -> verbose g <> 0 -> amd_energy_units g <> 0 ->
  0 <= c < cpu_count g ->
  print_events g max c delta cs = core_cell g c (delta * scale g).
Proof.
  intros Hfit Hv Hu Hc. unfold print_events, core_cell.
  change (2 ^ 31) with 2147483648 in Hfit.
  rewrite (verbose_flag g Hv), (units_flag g Hu).
  rewrite (u32_small (cpu_count g + 1))
    by (change (2 ^ 32) with 4294967296; lia).
  rewrite (u32_small (cpu_count g - 1))
    by (change (2 ^ 32) with 4294967296; lia).
  rewrite (s32_small c) by (change (2 ^ 31) with 2147483648; lia).
  destruct (Z.eqb_spec c (cpu_count g)); [lia|].
  destruct (Z.eqb_spec c (cpu_count g + 1)); [lia|]. reflexivity.
Qed.

Lemma print_events_pkg_amd g c delta cs :
  count_fits g -> verbose g <> 0 -> amd_energy_units g <> 0 ->
  c = cpu_count g ->
  print_events g (cpu_count g + 1) c delta cs
  = [PrintPkg (delta * scale g); PrintCoreSum (cs * scale g); PrintNl].
Proof.
  intros [H0 H1] Hv Hu ->. unfold print_events.
  rewrite (verbose_flag g Hv), (units_flag g Hu), Z.eqb_refl.
  replace (cpu_count g + 1 - 1) with (cpu_count g) by lia.
  rewrite u32_small by lia. rewrite Z.eqb_refl. reflexivity.
Qed.

Lemma amd_loop_shape g hw :
  0 <= cpu_count g < 2 ^ 31 -> verbose g <> 0 -> amd_energy_units g <> 0 ->
  first g && (verbose g <? 2) = false ->
  forall n core cs,
    0 <= core <= cpu_count g ->
    core + Z.of_nat n = cpu_count g ->
    loop_events g hw (cpu_count g + 1) (S n) core cs
    = core_table g hw (zrange core n)
      ++ [PrintPkg (delta_of g hw (cpu_count g) * scale g);
          PrintCoreSum (core_sum_of g hw (zrange core n) cs * scale g);
          PrintNl].
Proof.
  intros Hfit Hv Hu Hp.
  assert (Hfit' : count_fits g).
  { unfold count_fits. change (2 ^ 31) with 2147483648 in Hfit.
    change (2 ^ 32) with 4294967296. lia. }
  induction n as [|n IH]; intros core cs Hc Hn.
  - cbn [loop_events zrange core_table flat_map core_sum_of fold_left app].
    rewrite Hp, app_nil_r.
    replace core with (cpu_count g) by lia.
    now apply print_events_pkg_amd.
  - cbn [loop_events] in *. rewrite Hp in *.
    cbn [zrange core_table flat_map core_sum_of fold_left].
    rewrite (print_events_core g (cpu_count g + 1) core _ cs Hfit Hv Hu)
      by lia.
    rewrite <- app_assoc. f_equal. apply IH; lia.
Qed.

(** The loop indices below [cpu_count] print nothing when the unit
    exponent is zero. *)
Lemma amd_loop_shape_zero g hw :
  count_fits g -> verbose g <> 0 -> amd_energy_units g = 0 ->
  first g && (verbose g <? 2) = false ->
  forall n core cs,
    0 <= core <= cpu_count g ->
    core + Z.of_nat n = cpu_count g + 1 ->
    loop_events g hw (cpu_count g + 1) n core cs
    = [PrintPkg (delta_of g hw (cpu_count g) * scale g); PrintNl].
Proof.
  intros Hfit Hv Hu Hp.
  induction n as [|n IH]; intros core cs Hc Hn; [lia|].
  cbn [loop_events]. rewrite Hp. destruct Hfit as [H0 H1].
  unfold print_events. rewrite (verbose_flag g Hv), Hu.
  rewrite (u32_small (cpu_count g + 1)) by lia.
  replace (cpu_count g + 1 - 1) with (cpu_count g) by lia.
  rewrite (u32_small (cpu_count g)) by lia.
  destruct (Z.eqb_spec core (cpu_count g)) as [E|E].
  - destruct n as [|n]; [|lia]. subst core. reflexivity.
  - destruct (Z.eqb_spec core (cpu_count g + 1)); [lia|]. cbn [andb negb app].
    apply IH; lia.
Qed.

Lemma read_power_range_quiet g :
  count_fits g -> verbose g = 0 ->
  read_power_range g = (cpu_count g, cpu_count g + 1).
Proof.
  intros [H0 H1] Hv. unfold read_power_range. rewrite Hv. cbn [Z.eqb negb andb].
  now rewrite u32_small by lia.
Qed.

Lemma read_power_range_cores g :
  count_fits g -> verbose g <> 0 -> core_msr g <> 0 ->
  read_power_range g = (0, cpu_count g + 1).
Proof.
  intros [H0 H1] Hv Hc. unfold read_power_range. rewrite (verbose_flag g Hv).
  destruct (Z.eqb_spec (core_msr g) 0); [contradiction|]. cbn [negb andb].
  now rewrite u32_small by lia.
Qed.

Lemma read_power_range_dram g :
  count_fits g -> verbose g <> 0 -> core_msr g = 0 -> dram_msr g <> 0 ->
  read_power_range g = (cpu_count g, cpu_count g + 2).
Proof.
  intros [H0 H1] Hv Hc Hd. unfold read_power_range.
  rewrite (verbose_flag g Hv), Hc.
  destruct (Z.eqb_spec (dram_msr g) 0); [contradiction|]. cbn [Z.eqb negb andb].
  rewrite (u32_small (cpu_count g + 1)) by lia.
  rewrite u32_small by lia. f_equal. lia.
Qed.

Lemma tick_events_quiet g hw :
  count_fits g -> verbose g = 0 -> first g = false ->
  tick_events g hw
  = [PrintPlain (delta_of g hw (cpu_count g) * scale g); PrintNl].
Proof.
  intros Hfit Hv Hf. unfold tick_events.
  rewrite (read_power_range_quiet g Hfit Hv). destruct Hfit as [H0 H1].
  replace (Z.to_nat (cpu_count g + 1 - cpu_count g)) with 1%nat by lia.
  cbn [loop_events]. rewrite Hf. cbn [andb]. unfold print_events.
  rewrite Hv, Z.eqb_refl. cbn [Z.eqb negb andb app].
  replace (cpu_count g + 1 - 1) with (cpu_count g) by lia.
  rewrite u32_small by lia. now rewrite Z.eqb_refl.
Qed.

Lemma tick_events_intel g hw :
  count_fits g -> verbose g <> 0 -> first g && (verbose g <? 2) = false ->
  core_msr g = 0 -> dram_msr g <> 0 -> amd_energy_units g = 0 ->
  tick_events g hw
  = [PrintPkg (delta_of g hw (cpu_count g) * scale g);
     PrintDram (delta_of g hw (cpu_count g + 1) * scale g); PrintNl].
Proof.
  intros Hfit Hv Hp Hc Hd Hu. unfold tick_events.
  rewrite (read_power_range_dram g Hfit Hv Hc Hd). destruct Hfit as [H0 H1].
  replace (Z.to_nat (cpu_count g + 2 - cpu_count g)) with 2%nat by lia.
  cbn [loop_events]. rewrite Hp. unfold print_events.
  rewrite (verbose_flag g Hv), Hu, Z.eqb_refl. cbn [Z.eqb negb andb app].
  replace (cpu_count g + 2 - 1) with (cpu_count g + 1) by lia.
  rewrite (u32_small (cpu_count g + 1)) by lia.
  destruct (Z.eqb_spec (cpu_count g) (cpu_count g + 1)); [lia|].
  destruct (Z.eqb_spec (cpu_count g + 1) (cpu_count g)); [lia|].
  rewrite Z.eqb_refl. reflexivity.
Qed.

Lemma tick_events_amd g hw :
  count_fits g -> verbose g <> 0 -> first g && (verbose g <? 2) = false ->
  core_msr g <> 0 ->
  tick_events g hw
  = loop_events g hw (cpu_count g + 1) (Z.to_nat (cpu_count g + 1)) 0 0%float.
Proof.
  intros Hfit Hv Hp Hc. unfold tick_events.
  rewrite (read_power_range_cores g Hfit Hv Hc).
  now replace (cpu_count g + 1 - 0) with (cpu_count g + 1) by lia.
Qed.

(** C3, as amended: a tick that is not suppressed prints, at verbosity 0,
    the bare package value; at any verbosity from 1 on, the package line
    [pkg: ], on Intel followed by the dram field, on AMD with a non-zero
    unit exponent followed by the core sum and preceded by the per-core
    table (rule lines and [core <N>:] rows of 8), which is therefore
    printed at verbosity 1 too.  The first tick prints nothing below
    verbosity 2. *)
Theorem tick_layout g hw g' :
  identified g -> 0 <= cpu_count g < 2 ^ 31 ->
  read_power hw g = Done tt g' ->
  let pkg := (delta_of g hw (cpu_count g) * scale g)%float in
  let cores := zrange 0 (Z.to_nat (cpu_count g)) in
  stdout g' = stdout g ++ tick_events g hw
  /\ (first g = true -> verbose g < 2 -> tick_events g hw = [])
  /\ (first g = false \/ 2 <= verbose g ->
      (verbose g = 0 -> tick_events g hw = [PrintPlain pkg; PrintNl])
      /\ (verbose g <> 0 -> cpu g = INTEL ->
          tick_events g hw
          = [PrintPkg pkg;
             PrintDram (delta_of g hw (cpu_count g + 1) * scale g);
             PrintNl])
      /\ (verbose g <> 0 -> cpu g = AMD -> amd_energy_units g = 0 ->
          tick_events g hw = [PrintPkg pkg; PrintNl])
      /\ (verbose g <> 0 -> cpu g = AMD -> amd_energy_units g <> 0 ->
          tick_events g hw
          = core_table g hw cores
            ++ [PrintPkg pkg;
                PrintCoreSum (core_sum_of g hw cores 0 * scale g);
                PrintNl])).
Proof.
  intros Hid Hcount Htick pkg cores.
  assert (Hfit : count_fits g).
  { unfold count_fits. change (2 ^ 31) with 2147483648 in Hcount.
    change (2 ^ 32) with 4294967296. lia. }
  apply read_power_Done in Htick. destruct Htick as (_ & _ & _ & _ & Hout & _).
  split; [exact Hout|]. split; [now apply tick_events_suppressed|].
  intro Hns. pose proof (not_suppressed g Hns) as Hp.
  split.
  { intro Hv. apply tick_events_quiet; try assumption.
    destruct Hns as [Hf|Hv2]; [exact Hf|lia]. }
  unfold identified in Hid. split; [|split].
  - intros Hv Hcpu. rewrite Hcpu in Hid. destruct Hid as (_ & Hc & Hd & Hu).
    apply tick_events_intel; try assumption. rewrite Hd. discriminate.
  - intros Hv Hcpu Hu. rewrite Hcpu in Hid. destruct Hid as (_ & Hc & _).
    rewrite (tick_events_amd g hw Hfit Hv Hp) by (rewrite Hc; discriminate).
    destruct Hfit as [H0 H1].
    apply amd_loop_shape_zero; try assumption; [split; assumption|lia|lia].
  - intros Hv Hcpu Hu. rewrite Hcpu in Hid. destruct Hid as (_ & Hc & _).
    rewrite (tick_events_amd g hw Hfit Hv Hp) by (rewrite Hc; discriminate).
    replace (Z.to_nat (cpu_count g + 1)) with (S (Z.to_nat (cpu_count g)))
      by lia.
    apply amd_loop_shape; try assumption; lia.
Qed.

(** * The AMD layout and the unit exponent *)

Lemma print_events_no_amd g max c delta cs :
  amd_energy_units g = 0 ->
  Forall (fun e => is_amd_format e = false) (print_events g max c delta cs).
Proof.
  intro Hu. unfold print_events. rewrite Hu. cbn [Z.eqb negb].
  rewrite !andb_false_r.
  repeat match goal with |- context [if ?b then _ else _] => destruct b end;
    repeat constructor.
Qed.

Lemma loop_events_no_amd g hw max n : forall core cs,
  amd_energy_units g = 0 ->
  Forall (fun e => is_amd_format e = false) (loop_events g hw max n core cs).
Proof.
  induction n as [|n IH]; intros core cs Hu; [constructor|].
  cbn [loop_events]. destruct (first g && (verbose g <? 2)); [now apply IH|].
  apply Forall_app. split; [now apply print_events_no_amd|now apply IH].
Qed.

Lemma loop_events_core_sum g hw max n : forall core cs,
  verbose g <> 0 -> amd_energy_units g <> 0 ->
  first g && (verbose g <? 2) = false ->
  In (cpu_count g) (zrange core n) ->
  exists cs', In (PrintCoreSum (cs' * scale g))
                 (loop_events g hw max n core cs).
Proof.
  induction n as [|n IH]; intros core cs Hv Hu Hp Hin; [destruct Hin|].
  cbn [loop_events]. rewrite Hp. cbn [zrange In] in Hin.
  destruct Hin as [->|Hin].
  - exists cs. apply in_or_app. left. unfold print_events.
    rewrite Z.eqb_refl, (verbose_flag g Hv), (units_flag g Hu). cbn [andb].
    right. now left.
  - destruct (IH (core + 1) (cs + delta_of g hw core)%float Hv Hu Hp Hin)
      as (cs' & Hcs).
    exists cs'. apply in_or_app. now right.
Qed.

Lemma cores_in_tick_cores g core :
  count_fits g -> verbose g <> 0 -> core_msr g <> 0 ->
  0 <= core < cpu_count g ->
  In core (tick_cores g) /\ msr_of_core g core = core_msr g.
Proof.
  intros Hfit Hv Hc Hcore. unfold tick_cores.
  rewrite (read_power_range_cores g Hfit Hv Hc). destruct Hfit as [H0 H1].
  split; [apply zrange_In; lia|]. unfold msr_of_core.
  rewrite (u32_small (cpu_count g + 1)) by lia.
  destruct (Z.eqb_spec core (cpu_count g)); [lia|].
  destruct (Z.eqb_spec core (cpu_count g + 1)); [lia|reflexivity].
Qed.

(** C9: the core sum and the per-core table depend on the stored AMD unit
    exponent, not on the vendor.  With the exponent 0 a tick prints
    neither; with a non-zero exponent a verbose tick that is not
    suppressed prints the core sum.  Whatever the exponent, a verbose tick
    with a core register reads that register for every core and stores
    the converted reading in the core's [last]. *)
Theorem amd_format_gated_on_units g hw g' :
  count_fits g ->
  read_power hw g = Done tt g' ->
  stdout g' = stdout g ++ tick_events g hw
  /\ (amd_energy_units g = 0 ->
      Forall (fun e => is_amd_format e = false) (tick_events g hw))
  /\ (amd_energy_units g <> 0 -> verbose g <> 0 ->
      first g = false \/ 2 <= verbose g ->
      exists v, In (PrintCoreSum v) (tick_events g hw))
  /\ (verbose g <> 0 -> core_msr g <> 0 ->
      forall core, 0 <= core < cpu_count g ->
        exists raw,
          hw (fd (softc g core)) (core_msr g) = Some raw
          /\ In (fd (softc g core), core_msr g) (msr_log g')
          /\ last (softc g' core) = watts_of g core raw).
Proof.
  intros Hfit Htick. apply read_power_Done in Htick.
  destruct Htick as (_ & _ & _ & _ & Hout & _ & Hnew & Hlog & _).
  split; [exact Hout|]. split; [|split].
  - intro Hu. unfold tick_events.
    destruct (read_power_range g) as [first_core max].
    now apply loop_events_no_amd.
  - intros Hu Hv Hns. pose proof (cpu_count_in_tick_cores g Hfit) as Hin.
    unfold tick_events, tick_cores in *.
    destruct (read_power_range g) as [first_core max].
    destruct (loop_events_core_sum g hw max _ first_core 0%float Hv Hu
                (not_suppressed g Hns) Hin) as (cs & Hcs).
    eexists. exact Hcs.
  - intros Hv Hc core Hcore.
    destruct (cores_in_tick_cores g core Hfit Hv Hc Hcore) as (Hin & Hm).
    destruct (Hnew core Hin) as (raw & Hraw & Hs).
    exists raw. unfold raw_of in Hraw. rewrite Hm in Hraw.
    split; [exact Hraw|]. split; [|now rewrite Hs].
    rewrite Hlog. apply in_or_app. right. rewrite <- Hm.
    apply (in_map (fun j => (fd (softc g j), msr_of_core g j))). exact Hin.
Qed.

(** * The sampling loop of [main] *)

Lemma main_loop_Done timeo ticks : forall g g',
  main_loop timeo ticks g = Done tt g' ->
  config g' = config g /\ stderr g' = stderr g
  /\ slept g' = slept g ++ repeat (u32 timeo) (List.length ticks)
  /\ exists later,
       msr_log g' = msr_log g ++ later
       /\ Forall (fun r => exists j, snd r = msr_of_core g j) later.
Proof.
  induction ticks as [|hw ticks IH]; intros g g' H.
  - simpl in H. unfold ret in H. inversion H. subst. cbn [List.length repeat].
    rewrite app_nil_r. repeat split. exists []. rewrite app_nil_r.
    split; [reflexivity|constructor].
  - cbn [main_loop] in H. apply bind_Done in H. destruct H as ([] & g1 & Ht & H).
    apply bind_Done in H. destruct H as ([] & g2 & Hs & H).
    unfold modify in Hs. inversion Hs. subst g2. clear Hs.
    apply read_power_Done in Ht.
    destruct Ht as (Tc & _ & Te & Tl & _ & _ & _ & Tm & _).
    apply IH in H. destruct H as (Lc & Le & Ll & later & Lm & Lall).
    assert (Lc' : config g' = config g1) by exact Lc.
    cbn_state_all.
    split; [congruence|]. split; [congruence|]. split.
    { rewrite Ll, Tl, <- app_assoc. reflexivity. }
    eexists. split; [rewrite Lm, Tm, <- app_assoc; reflexivity|].
    apply Forall_app. split.
    + apply Forall_forall. intros r Hr. apply in_map_iff in Hr.
      destruct Hr as (j & <- & _). exists j. reflexivity.
    + eapply Forall_impl; [|exact Lall]. intros r (j & Hj). exists j.
      rewrite Hj. apply msr_of_core_config. exact Tc.
Qed.

Lemma msr_of_core_not_unit g j : identified g -> msr_of_core g j <> unit_msr g.
Proof.
  unfold identified, msr_of_core, unit_msr.
  destruct (cpu g); intros (Hp & Hc & Hd & _); rewrite Hp, Hc, Hd;
    destruct (j =? cpu_count g); try discriminate;
    destruct (j =? u32 (cpu_count g + 1)); discriminate.
Qed.

(** C7: [identify_cpu] reads the power-unit register of the vendor once,
    and that is the only register it reads.  On AMD it stores the 5-bit
    field at bits 8..12 as [amd_energy_units]; on Intel it stores 0.5 to
    the power of that field as [energy_units] and 0.5 to the power 16 as
    [dram_units], whatever the register holds.  The sampling loop changes
    none of the three and never reads the unit register again. *)
Theorem unit_scale_once w hw0 g0 g timeo ticks g' :
  fresh g0 ->
  identify_cpu w hw0 g0 = Done tt g ->
  main_loop timeo ticks g = Done tt g' ->
  exists data later,
    hw0 (fd (softc g 0)) (unit_msr g) = Some data
    /\ msr_log g = [(fd (softc g 0), unit_msr g)]
    /\ match cpu g with
       | AMD => amd_energy_units g = Z.land (Z.shiftr data 8) 0x1f
       | INTEL =>
           energy_units g = pow 0.5%float (Z.land (Z.shiftr data 8) 0x1f)
           /\ dram_units g = pow 0.5%float 16
       end
    /\ amd_energy_units g' = amd_energy_units g
    /\ energy_units g' = energy_units g
    /\ dram_units g' = dram_units g
    /\ msr_log g' = (fd (softc g 0), unit_msr g) :: later
    /\ Forall (fun r => snd r <> unit_msr g) later.
Proof.
  intros Hfresh Hid Hloop.
  destruct (identify_cpu_post _ _ _ _ Hid Hfresh)
    as (Hident & _ & _ & _ & _ & _ & data & Hd & Hlog & Hunits).
  apply main_loop_Done in Hloop.
  destruct Hloop as (Hc & _ & _ & later & Hm & Hall).
  exists data, later. split; [exact Hd|]. split; [exact Hlog|].
  split; [exact Hunits|].
  unfold config in Hc. injection Hc. intros.
  split; [assumption|]. split; [assumption|]. split; [assumption|].
  split; [rewrite Hm, Hlog; reflexivity|].
  eapply Forall_impl; [|exact Hall]. intros r (j & ->).
  now apply msr_of_core_not_unit.
Qed.

(** * [main] *)

Lemma main_getopt_explicit name opts : forall g,
  main_getopt name opts g
  = Done tt (set_stderr (stderr g ++ option_messages name opts)
               (set_verbose (verbose g + count_v opts) g)).
Proof.
  induction opts as [|c opts IH]; intro g.
  - cbn. rewrite Z.add_0_r, app_nil_r. now destruct g.
  - cbn [main_getopt]. unfold getopt, option_messages, count_v.
    cbn [filter flat_map]. change (is_v c) with (Ascii.eqb c "v").
    destruct (Ascii.eqb c "v").
    + unfold bind at 1 2, ret, modify.
      change (Ascii.eqb "v" "v") with true. cbv beta iota.
      rewrite IH. cbn_state. unfold count_v. cbn [List.length app].
      do 2 f_equal. unfold set_verbose. cbn_state. f_equal. lia.
    + unfold bind at 1 2 3, ret, usage, eprint, modify.
      change (Ascii.eqb "?" "v") with false. cbv beta iota.
      rewrite IH. cbn_state. fold (option_messages name opts).
      unfold count_v. cbn [app]. now rewrite <- !app_assoc.
Qed.

Lemma main_getopt_run name opts : forall g,
  exists g',
    main_getopt name opts g = Done tt g'
    /\ verbose g' = verbose g + count_v opts
    /\ stderr g' = stderr g ++ option_messages name opts
    /\ unparsed g' = unparsed g.
Proof.
  intro g. eexists. split; [apply main_getopt_explicit|]. repeat split.
Qed.

Lemma main_Done name opts interval w hw0 ticks g0 g :
  main name opts interval w hw0 ticks g0 = Done tt g ->
  exists g1 g2,
    main_getopt name opts g0 = Done tt g1
    /\ identify_cpu w hw0
         (set_scale (1 / Z_to_double (main_timeo interval))%float g1)
       = Done tt g2
    /\ main_loop (main_timeo interval) ticks g2 = Done tt g.
Proof.
  unfold main. intro H.
  apply bind_Done in H. destruct H as ([] & g1 & H1 & H).
  apply bind_Done in H. destruct H as ([] & g1' & Hs & H).
  unfold modify in Hs. inversion Hs. subst g1'. clear Hs.
  apply bind_Done in H. destruct H as ([] & g2 & H2 & H).
  exists g1, g2. auto.
Qed.

Lemma fresh_initial_state : fresh initial_state.
Proof. repeat split. Qed.

Lemma fresh_unparsed g g' s :
  unparsed g' = unparsed g -> fresh g -> fresh (set_scale s g').
Proof.
  unfold unparsed, fresh. intros H (F1 & F2 & F3 & F4 & F5 & F6 & F7).
  injection H. intros. cbn_state. repeat split; congruence.
Qed.

Lemma main_run_state name opts interval w hw0 ticks g :
  main name opts interval w hw0 ticks initial_state = Done tt g ->
  let timeo := main_timeo interval in
  scale g = (1 / Z_to_double timeo)%float
  /\ identified g
  /\ slept g = repeat (u32 timeo) (List.length ticks)
  /\ exists d later, msr_log g = (d, unit_msr g) :: later.
Proof.
  intros H timeo. apply main_Done in H. fold timeo in H.
  destruct H as (g1 & g2 & H1 & H2 & H3).
  destruct (main_getopt_run name opts initial_state) as (g1' & E & _ & _ & Hu).
  rewrite E in H1. inversion H1. subst g1'. clear H1 E.
  pose proof (fresh_unparsed _ _ (1 / Z_to_double timeo)%float Hu
                fresh_initial_state) as Hfresh.
  destruct (identify_cpu_post _ _ _ _ H2 Hfresh)
    as (Hid & _ & _ & Hs & _ & Hl & (data & _ & Hm & _)).
  apply main_loop_Done in H3. destruct H3 as (Hc & _ & Hsl & later & Hlog & _).
  split; [rewrite (config_scale _ _ Hc), Hs; reflexivity|].
  split; [unfold identified in *; config_rewrite Hc; exact Hid|].
  split.
  { rewrite Hsl, Hl. cbn_state. unfold unparsed in Hu. injection Hu. intros.
    replace (slept g1) with (slept initial_state) by congruence. reflexivity. }
  exists (fd (softc g2 0)), later. rewrite Hlog, Hm.
  unfold unit_msr. config_rewrite Hc. reflexivity.
Qed.


(** C4, as amended: the interval argument, parsed as a real number, is
    cut to a whole number of seconds [timeo] (1 when there is no
    argument); [timeo] is what every [sleep] between ticks is called with,
    and the scale factor is [1 / timeo].  So an interval of 2, and of 2.5
    as well, gives the scale 0.5. *)
Theorem interval_whole_seconds name opts interval w hw0 ticks g :
  main name opts interval w hw0 ticks initial_state = Done tt g ->
  let timeo := main_timeo interval in
  scale g = (1 / Z_to_double timeo)%float
  /\ slept g = repeat (u32 timeo) (List.length ticks)
  /\ (interval = None -> timeo = 1)
  /\ (forall x, interval = Some x -> timeo = double_to_int x)
  /\ double_to_int 2%float = 2
  /\ double_to_int 2.5%float = 2
  /\ (1 / Z_to_double 2)%float = 0.5%float.
Proof.
  intros H timeo. apply main_Done in H. fold timeo in H.
  destruct H as (g1 & g2 & H1 & H2 & H3).
  destruct (main_getopt_run name opts initial_state) as (g1' & E & _ & _ & Hu).
  rewrite E in H1. inversion H1. subst g1'. clear H1 E.
  pose proof (fresh_unparsed _ _ (1 / Z_to_double timeo)%float Hu
                fresh_initial_state) as Hfresh.
  destruct (identify_cpu_post _ _ _ _ H2 Hfresh)
    as (_ & _ & _ & Hs & _ & Hl & _).
  apply main_loop_Done in H3. destruct H3 as (Hc & _ & Hsl & _).
  split; [rewrite (config_scale _ _ Hc), Hs; reflexivity|].
  split.
  { rewrite Hsl, Hl. cbn_state. unfold unparsed in Hu. injection Hu. intros.
    replace (slept g1) with (slept initial_state) by congruence. reflexivity. }
  split; [intros ->; reflexivity|].
  split; [intros x ->; reflexivity|].
  repeat split; vm_compute; reflexivity.
Qed.

(** * Standard error is written and never read *)

Lemma bind_get {B} (k : state -> M B) g : bind get k g = k g g.
Proof. reflexivity. Qed.

Lemma oblivious_ret {A} (a : A) : oblivious (ret a).
Proof. intros p g. reflexivity. Qed.

Lemma oblivious_bind {A B} (m : M A) (k : A -> M B) :
  oblivious m -> (forall a, oblivious (k a)) -> oblivious (bind m k).
Proof.
  intros Hm Hk p g. unfold bind. rewrite Hm.
  destruct (m g) as [a g1|c g1]; cbn [outcome_map]; [apply Hk|reflexivity].
Qed.

Lemma oblivious_for_loop {A} (body : Z -> A -> M A) :
  (forall core acc, oblivious (body core acc)) ->
  forall n core acc, oblivious (for_loop n core body acc).
Proof.
  intros Hb. induction n as [|n IH]; intros core acc.
  - apply oblivious_ret.
  - cbn [for_loop]. apply oblivious_bind; [apply Hb|]. intro a. apply IH.
Qed.

Ltac oblivious_leaf :=
  intros p g; unfold add_err, outcome_map; unfold_M; cbn_state;
  repeat (match goal with
          | |- context [if ?b then _ else _] => destruct b
          | |- context [match ?x with AMD => _ | INTEL => _ end] =>
              destruct x
          | |- context [match ?x with Some _ => _ | None => _ end] =>
              destruct x
          end; cbn_state);
  rewrite ?app_assoc; reflexivity.

Lemma oblivious_open_msrs_body w core u : oblivious (open_msrs_body w core u).
Proof.
  unfold open_msrs_body, open_msrs_open, softc_ref. oblivious_leaf.
Qed.

Lemma oblivious_open_msrs w : oblivious (open_msrs w).
Proof.
  intros p g. unfold open_msrs. rewrite !bind_get.
  change (cpu_count (add_err p g)) with (cpu_count g).
  apply oblivious_for_loop. apply oblivious_open_msrs_body.
Qed.

Lemma oblivious_identify_cpu_cpuid w : oblivious (identify_cpu_cpuid w).
Proof.
  unfold identify_cpu_cpuid.
  destruct (cpuid w 0 0) as [[[r0 r1] r2] r3].
  destruct (cpuid w 1 0) as [[[id x1] x2] x3]. oblivious_leaf.
Qed.

Lemma oblivious_identify_cpu_classify : oblivious identify_cpu_classify.
Proof. unfold identify_cpu_classify, unsupported_cpu. oblivious_leaf. Qed.

Lemma oblivious_identify_cpu_topology w : oblivious (identify_cpu_topology w).
Proof.
  unfold identify_cpu_topology.
  destruct (cpuid w 0x8000001e 0) as [[[r0 r1] r2] r3]. oblivious_leaf.
Qed.

Lemma oblivious_identify_cpu_units hw : oblivious (identify_cpu_units hw).
Proof. unfold identify_cpu_units, read_msr, softc_ref. oblivious_leaf. Qed.

Lemma oblivious_identify_cpu_report : oblivious identify_cpu_report.
Proof. unfold identify_cpu_report. oblivious_leaf. Qed.

Create HintDb oblivious.

#[local] Hint Resolve oblivious_ret oblivious_bind oblivious_identify_cpu_cpuid
  oblivious_identify_cpu_classify oblivious_identify_cpu_topology
  oblivious_open_msrs oblivious_identify_cpu_units
  oblivious_identify_cpu_report : oblivious.

Lemma oblivious_identify_cpu w hw : oblivious (identify_cpu w hw).
Proof. unfold identify_cpu. auto 12 with oblivious. Qed.

Lemma oblivious_read_power_sample hw core :
  oblivious (read_power_sample hw core).
Proof.
  unfold read_power_sample, read_msr, softc_ref, msr_of_core, watts_of,
    amd_add_power.
  oblivious_leaf.
Qed.


Lemma oblivious_read_power_print max core delta cs :
  oblivious (read_power_print max core delta cs).
Proof.
  intros p g. rewrite !read_power_print_run.
  change (print_events (add_err p g) max core delta cs)
    with (print_events g max core delta cs).
  reflexivity.
Qed.

Lemma oblivious_read_power_body hw max core cs :
  oblivious (read_power_body hw max core cs).
Proof.
  unfold read_power_body. apply oblivious_bind.
  - apply oblivious_read_power_sample.
  - intros delta p g. rewrite !bind_get.
    change (first (add_err p g)) with (first g).
    change (verbose (add_err p g)) with (verbose g).
    destruct (first g && (verbose g <? 2)); [reflexivity|].
    apply oblivious_bind; [apply oblivious_read_power_print|].
    intro. apply oblivious_ret.
Qed.

Lemma oblivious_read_power hw : oblivious (read_power hw).
Proof.
  intros p g. unfold read_power. rewrite !bind_get.
  change (read_power_range (add_err p g)) with (read_power_range g).
  destruct (read_power_range g) as [first_core max].
  apply oblivious_bind.
  - apply oblivious_for_loop. intros. apply oblivious_read_power_body.
  - intros cs p' g'. reflexivity.
Qed.

Lemma oblivious_main_loop timeo ticks : oblivious (main_loop timeo ticks).
Proof.
  induction ticks as [|hw ticks IH]; [apply oblivious_ret|].
  cbn [main_loop]. apply oblivious_bind; [apply oblivious_read_power|].
  intros []. apply oblivious_bind; [|intros []; exact IH].
  intros p g. reflexivity.
Qed.


Lemma option_messages_known name opts :
  option_messages name (filter is_v opts) = [].
Proof.
  unfold option_messages. induction opts as [|c opts IH]; [reflexivity|].
  cbn [filter]. destruct (is_v c) eqn:E; [|exact IH].
  cbn [flat_map]. rewrite E. exact IH.
Qed.

Lemma count_v_known opts : count_v (filter is_v opts) = count_v opts.
Proof.
  unfold count_v. f_equal. f_equal.
  induction opts as [|c opts IH]; [reflexivity|].
  cbn [filter]. destruct (is_v c) eqn:E; [|exact IH].
  cbn [filter]. rewrite E. now rewrite IH.
Qed.

Lemma bind_run {A B} (m : M A) (k : A -> M B) g a g1 :
  m g = Done a g1 -> bind m k g = k a g1.
Proof. unfold bind. now intros ->. Qed.

(** C10: an option [getopt] does not know puts the line of [getopt] and
    then the usage message on standard error, and [main] goes on: option
    parsing returns; the run is [identify_cpu] and then the sampling loop,
    started in the state with the [-v] counted, the messages written and
    [scale] set; it ends as the run without the unknown options does, the
    messages in front of its standard error being the only difference;
    and a run that returns has read the power-unit register and slept
    after every tick. *)
Theorem unknown_option_continues name opts interval w hw0 ticks :
  let timeo := main_timeo interval in
  main_getopt name opts initial_state
  = Done tt (set_stderr (option_messages name opts)
               (set_verbose (count_v opts) initial_state))
  /\ main name opts interval w hw0 ticks initial_state
     = (identify_cpu w hw0 ;;; main_loop timeo ticks)
         (parsed name opts interval)
  /\ main name opts interval w hw0 ticks initial_state
     = outcome_map (add_err (option_messages name opts))
         (main name (filter is_v opts) interval w hw0 ticks initial_state)
  /\ (forall c, is_v c = false ->
       option_messages name [c] = [GetoptInvalid name c; Usage name])
  /\ (forall g,
        main name opts interval w hw0 ticks initial_state = Done tt g ->
        (exists g1,
           identify_cpu w hw0 (parsed name opts interval) = Done tt g1
           /\ main_loop timeo ticks g1 = Done tt g)
        /\ (exists d later, msr_log g = (d, unit_msr g) :: later)
        /\ slept g = repeat (u32 timeo) (List.length ticks)
        /\ exists p, stderr g = option_messages name opts ++ p).
Proof.
  intro timeo.
  assert (Hparse : main_getopt name opts initial_state
                   = Done tt (set_stderr (option_messages name opts)
                                (set_verbose (count_v opts) initial_state))).
  { rewrite main_getopt_explicit. reflexivity. }
  assert (Hmain : main name opts interval w hw0 ticks initial_state
                  = (identify_cpu w hw0 ;;; main_loop timeo ticks)
                      (parsed name opts interval)).
  { unfold main. rewrite (bind_run _ _ _ _ _ Hparse). reflexivity. }
  assert (Hsame : main name opts interval w hw0 ticks initial_state
                  = outcome_map (add_err (option_messages name opts))
                      (main name (filter is_v opts) interval w hw0 ticks
                            initial_state)).
  { unfold main.
    rewrite (bind_run _ _ _ _ _ (main_getopt_explicit name opts _)).
    rewrite (bind_run _ _ _ _ _
               (main_getopt_explicit name (filter is_v opts) _)).
    rewrite option_messages_known, count_v_known.
    cbn [stderr verbose initial_state app].
    fold initial_state.
    replace (set_stderr (option_messages name opts)
               (set_verbose (0 + count_v opts) initial_state))
      with (add_err (option_messages name opts)
              (set_stderr [] (set_verbose (0 + count_v opts) initial_state)))
      by (unfold add_err; cbn_state; now rewrite app_nil_r).
    generalize (set_stderr [] (set_verbose (0 + count_v opts) initial_state)).
    generalize (option_messages name opts).
    apply oblivious_bind; [intros p g; reflexivity|]. intros _.
    apply oblivious_bind; [apply oblivious_identify_cpu|]. intros _.
    apply oblivious_main_loop. }
  split; [exact Hparse|]. split; [exact Hmain|]. split; [exact Hsame|].
  split.
  { intros c Hc. unfold option_messages. cbn [flat_map]. now rewrite Hc. }
  intros g Hrun.
  pose proof (main_run_state _ _ _ _ _ _ _ Hrun) as (_ & _ & Hsl & Hlog).
  split.
  { rewrite Hmain in Hrun. apply bind_Done in Hrun.
    destruct Hrun as ([] & g1 & Hid & Hloop). exists g1. auto. }
  split; [exact Hlog|]. split; [exact Hsl|].
  rewrite Hsame in Hrun.
  destruct (main name (filter is_v opts) interval w hw0 ticks initial_state)
    as [[] g'|c g']; [|discriminate Hrun].
  cbn [outcome_map] in Hrun. inversion Hrun. exists (stderr g'). reflexivity.
Qed.

(** * The handle array *)

Lemma tick_cores_dram g :
  count_fits g -> verbose g <> 0 -> core_msr g = 0 -> dram_msr g <> 0 ->
  tick_cores g = [cpu_count g; cpu_count g + 1].
Proof.
  intros Hfit Hv Hc Hd. unfold tick_cores.
  rewrite (read_power_range_dram g Hfit Hv Hc Hd).
  replace (Z.to_nat (cpu_count g + 2 - cpu_count g)) with 2%nat by lia.
  reflexivity.
Qed.

Lemma identify_cpu_last w hw g0 g :
  identify_cpu w hw g0 = Done tt g ->
  forall j,
    last (softc g j)
    = if (0 <=? j) && (j <? softc_slots g) then 0%float
      else last (heap_past w j).
Proof.
  intros H j. pose proof (identify_cpu_topology_fields _ _ _ _ H)
    as (_ & _ & Hslots & _).
  apply identify_cpu_phases in H.
  destruct H as (g1 & g2 & g3 & g4 & g5 & H1 & H2 & H3 & H4 & H5 & H6).
  apply identify_cpu_topology_Done in H3.
  apply open_msrs_frame in H4. destruct H4 as (_ & Hl & _).
  apply identify_cpu_units_Done in H5. destruct H5 as (data & _ & H5).
  apply identify_cpu_report_Done in H6. destruct H6 as (out & H6).
  assert (Hs5 : softc g5 = softc g4).
  { subst g5. unfold softc_ref_state.
    destruct (cpu g4);
      destruct ((0 <=? 0) && (0 <? softc_slots g4)); reflexivity. }
  rewrite Hslots. subst g. cbn_state. rewrite Hs5, Hl. subst g3. cbn_state.
  destruct ((0 <=? j) && (j <? _)); reflexivity.
Qed.

(** C5 fails on the code for the handle of index [cpu_count + 1].  On the
    first tick after start-up nothing is printed when the verbosity is
    below 2; from verbosity 2 the tick is printed and the package line
    shows [f raw * scale] for the raw package reading, [f] being the
    closed form of the vendor, because the [last] of each of the
    [cpu_count + 1] elements [calloc] cleared is 0.  The element of index
    [cpu_count + 1], the DRAM handle of Intel, lies past the allocation:
    its [last] is what the heap holds there, and from verbosity 2 the
    first tick on Intel prints the DRAM reading less that value. *)
Theorem first_tick w hw0 g0 g hw g' :
  fresh g0 ->
  0 <= nprocessors_conf w < 2 ^ 31 ->
  identify_cpu w hw0 g0 = Done tt g ->
  read_power hw g = Done tt g' ->
  let n := cpu_count g in
  let f := conversion g in
  first g = true
  /\ (forall j, 0 <= j <= n -> last (softc g j) = 0%float)
  /\ last (softc g (n + 1)) = last (heap_past w (n + 1))
  /\ stdout g' = stdout g ++ tick_events g hw
  /\ (verbose g < 2 -> tick_events g hw = [])
  /\ (2 <= verbose g ->
      exists raw,
        raw_of g hw n = Some raw
        /\ In (PrintPkg (f n raw * scale g)) (tick_events g hw))
  /\ (2 <= verbose g -> cpu g = INTEL ->
      exists raw_pkg raw_dram,
        raw_of g hw n = Some raw_pkg
        /\ raw_of g hw (n + 1) = Some raw_dram
        /\ tick_events g hw
           = [PrintPkg (f n raw_pkg * scale g);
              PrintDram ((f (n + 1) raw_dram - last (heap_past w (n + 1)))
                         * scale g);
              PrintNl]).
Proof.
  intros Hfresh Hp Hid Htick n f.
  pose proof (identify_cpu_count_fits _ _ _ _ Hid Hp) as Hfit.
  pose proof (identify_cpu_last_zero _ _ _ _ Hid Hfit) as Hz.
  pose proof (identify_cpu_last _ _ _ _ Hid) as Hlast.
  pose proof (identify_cpu_topology_fields _ _ _ _ Hid) as (_ & Hn & Hs & _).
  rewrite <- Hn in Hs. rewrite u32_small in Hs by (destruct Hfit; lia).
  destruct (identify_cpu_post _ _ _ _ Hid Hfresh) as (Hident & Hf & _).
  assert (Hw : forall core raw, watts_of g core raw = f core raw).
  { intros core raw. apply watts_of_conversion.
    now apply identified_exponent. }
  assert (Hpast : last (softc g (n + 1)) = last (heap_past w (n + 1))).
  { rewrite Hlast, Hs. fold n.
    destruct (Z.ltb_spec (n + 1) (n + 1)); [lia|]. now rewrite andb_false_r. }
  apply read_power_Done in Htick.
  destruct Htick as (_ & _ & _ & _ & Hout & _ & Hnew & _).
  split; [exact Hf|]. split; [exact Hz|]. split; [exact Hpast|].
  split; [exact Hout|].
  split; [now apply tick_events_suppressed|].
  assert (Hpkg : forall raw,
            raw_of g hw n = Some raw ->
            delta_of g hw n = f n raw).
  { intros raw Hraw. unfold delta_of. rewrite Hraw.
    rewrite (Hz n) by (destruct Hfit; unfold n; lia).
    now rewrite sub_zero_r, Hw. }
  split.
  - intro Hv.
    destruct (Hnew _ (cpu_count_in_tick_cores g Hfit)) as (raw & Hraw & _).
    exists raw. split; [exact Hraw|].
    pose proof (tick_events_pkg g hw Hfit (not_suppressed g (or_intror Hv)))
      as P.
    rewrite verbose_flag in P by lia. fold n in P.
    now rewrite (Hpkg raw Hraw) in P.
  - intros Hv Hcpu. unfold identified in Hident. rewrite Hcpu in Hident.
    destruct Hident as (_ & Hc & Hd & Hu).
    assert (Hd' : dram_msr g <> 0) by (rewrite Hd; discriminate).
    assert (Hv' : verbose g <> 0) by lia.
    pose proof (tick_cores_dram g Hfit Hv' Hc Hd') as Hcores. fold n in Hcores.
    destruct (Hnew n) as (raw_pkg & Rp & _); [rewrite Hcores; now left|].
    destruct (Hnew (n + 1)) as (raw_dram & Rd & _);
      [rewrite Hcores; right; now left|].
    exists raw_pkg, raw_dram. split; [exact Rp|]. split; [exact Rd|].
    rewrite (tick_events_intel g hw Hfit Hv'
               (not_suppressed g (or_intror Hv)) Hc Hd' Hu).
    fold n. rewrite (Hpkg raw_pkg Rp).
    unfold delta_of at 1. rewrite Rd, Hw, Hpast. reflexivity.
Qed.

(** C2 fails on the code: [calloc] is asked for [cpu_count + 1] elements,
    and [open_msrs] addresses the element of index [cpu_count + 1] on
    every start-up that gets through it; on Intel every verbose tick
    addresses that element again for the DRAM reading. *)
Theorem handle_array_overrun w hw0 g0 g :
  fresh g0 ->
  0 <= nprocessors_conf w < 2 ^ 31 ->
  identify_cpu w hw0 g0 = Done tt g ->
  softc_slots g = cpu_count g + 1
  /\ In (cpu_count g + 1) (oob_log g)
  /\ (forall hw g',
        cpu g = INTEL -> verbose g <> 0 ->
        read_power hw g = Done tt g' ->
        oob_log g' = oob_log g ++ [cpu_count g + 1]).
Proof.
  intros Hfresh Hp Hid.
  pose proof (identify_cpu_count_fits _ _ _ _ Hid Hp) as Hfit.
  pose proof (identify_cpu_oob _ _ _ _ Hid Hfresh Hfit) as Hoob.
  destruct (identify_cpu_post _ _ _ _ Hid Hfresh) as (Hident & _).
  pose proof (identify_cpu_topology_fields _ _ _ _ Hid) as (_ & Hn & Hs & _).
  rewrite <- Hn in Hs. destruct Hfit as [H0 H1].
  rewrite u32_small in Hs by lia.
  split; [exact Hs|]. split; [exact Hoob|].
  intros hw g' Hcpu Hv Htick. apply read_power_Done in Htick.
  destruct Htick as (_ & _ & _ & _ & _ & _ & _ & _ & Ho).
  unfold identified in Hident. rewrite Hcpu in Hident.
  destruct Hident as (_ & Hc & Hd & _).
  rewrite Ho, tick_cores_dram; try assumption;
    [|split; assumption|rewrite Hd; discriminate].
  f_equal. cbn [filter]. rewrite Hs.
  destruct (Z.leb_spec 0 (cpu_count g)); [|lia].
  destruct (Z.ltb_spec (cpu_count g) (cpu_count g + 1)); [|lia].
  destruct (Z.leb_spec 0 (cpu_count g + 1)); [|lia].
  destruct (Z.ltb_spec (cpu_count g + 1) (cpu_count g + 1)); [lia|].
  reflexivity.
Qed.

(** * A tick returns when its reads succeed *)

Lemma read_power_body_returns hw max core cs g :
  raw_of g hw core <> None ->
  exists cs' g', read_power_body hw max core cs g = Done cs' g'.
Proof.
  unfold raw_of. intro Hraw.
  destruct (hw (fd (softc g core)) (msr_of_core g core)) as [raw|] eqn:E;
    [clear Hraw|contradiction].
  unfold read_power_body, read_power_sample, read_msr, softc_ref.
  unfold bind at 1 2. unfold_M.
  destruct ((0 <=? core) && (core <? softc_slots g)); cbn_state;
    change (msr_of_core (set_oob_log (oob_log g ++ [core]) g) core)
      with (msr_of_core g core);
    rewrite E; cbn_state;
    destruct (first g && (verbose g <? 2)); try (eexists _, _; reflexivity);
    rewrite read_power_print_run; eexists _, _; reflexivity.
Qed.

Lemma read_power_loop_returns hw max n : forall core cs g,
  (forall j, In j (zrange core n) -> raw_of g hw j <> None) ->
  exists cs' g', for_loop n core (read_power_body hw max) cs g = Done cs' g'.
Proof.
  induction n as [|n IH]; intros core cs g Hraw.
  - exists cs, g. reflexivity.
  - cbn [for_loop].
    destruct (read_power_body_returns hw max core cs g) as (cs1 & g1 & Hb).
    { apply Hraw. now left. }
    rewrite (bind_run _ _ _ _ _ Hb).
    apply IH. intros j Hj.
    pose proof (read_power_body_Done _ _ _ _ _ _ _ Hb)
      as (raw & _ & Bc & Bf & _ & _ & Bs & _).
    assert (Hag : agree_from (core + 1) g1 g).
    { repeat split; try assumption. intros i Hi. rewrite Bs. unfold upd.
      destruct (Z.eqb_spec i core); [lia|reflexivity]. }
    rewrite (raw_of_agree g1 g hw (core + 1) j Hag)
      by (apply zrange_In in Hj; lia).
    apply Hraw. now right.
Qed.

Lemma read_power_returns hw g :
  (forall j, In j (tick_cores g) -> raw_of g hw j <> None) ->
  exists g', read_power hw g = Done tt g'.
Proof.
  unfold tick_cores, read_power. rewrite bind_get.
  destruct (read_power_range g) as [first_core max]. intro Hraw.
  destruct (read_power_loop_returns hw max _ first_core 0%float g Hraw)
    as (cs & g1 & Hl).
  rewrite (bind_run _ _ _ _ _ Hl). eexists. reflexivity.
Qed.

Lemma bind_Exited {A B} (m : M A) (k : A -> M B) g c g' :
  bind m k g = Exited c g' ->
  m g = Exited c g' \/ exists a g1, m g = Done a g1 /\ k a g1 = Exited c g'.
Proof.
  unfold bind. destruct (m g) as [a g1|c1 g1]; intro H.
  - right. exists a, g1. split; [reflexivity|exact H].
  - left. now inversion H.
Qed.

(** * A tick and its reads *)

Lemma read_power_body_Exited hw max core cs g c g' :
  read_power_body hw max core cs g = Exited c g' ->
  raw_of g hw core = None /\ c = 1
  /\ stderr g' = stderr g ++ [Perror "rdmsr:pread"].
Proof.
  unfold read_power_body, read_power_sample, read_msr, softc_ref, raw_of.
  unfold bind at 1 2. unfold_M.
  destruct ((0 <=? core) && (core <? softc_slots g)); cbn_state;
    change (msr_of_core (set_oob_log (oob_log g ++ [core]) g) core)
      with (msr_of_core g core);
    destruct (hw (fd (softc g core)) (msr_of_core g core)) as [raw|];
    cbn_state;
    try (intro H; inversion H; subst; cbn_state; auto; fail);
    destruct (first g && (verbose g <? 2)); try discriminate;
    rewrite read_power_print_run; discriminate.
Qed.

Lemma read_power_loop_Exited hw max n : forall core cs g c g',
  for_loop n core (read_power_body hw max) cs g = Exited c g' ->
  c = 1 /\ stderr g' = stderr g ++ [Perror "rdmsr:pread"]
  /\ exists j, In j (zrange core n) /\ raw_of g hw j = None.
Proof.
  induction n as [|n IH]; intros core cs g c g' H; [discriminate H|].
  cbn [for_loop] in H. apply bind_Exited in H.
  destruct H as [H|(cs1 & g1 & Hb & H)].
  - apply read_power_body_Exited in H. destruct H as (Hr & -> & He).
    split; [reflexivity|]. split; [exact He|]. exists core.
    split; [now left|exact Hr].
  - apply IH in H. destruct H as (-> & He & j & Hj & Hr).
    pose proof (read_power_body_Done _ _ _ _ _ _ _ Hb)
      as (raw & _ & Bc & Bf & Be & _ & Bs & _).
    split; [reflexivity|]. split; [now rewrite He, Be|].
    exists j. split; [now right|].
    assert (Hag : agree_from (core + 1) g1 g).
    { repeat split; try assumption. intros i Hi. rewrite Bs. unfold upd.
      destruct (Z.eqb_spec i core); [lia|reflexivity]. }
    rewrite <- (raw_of_agree g1 g hw (core + 1) j Hag)
      by (apply zrange_In in Hj; lia).
    exact Hr.
Qed.

(** X2: a tick returns exactly when every register it reads can be read;
    when one cannot, the tick exits with status 1 after the [perror]
    message of [read_msr]. *)
Theorem tick_returns_iff_reads_succeed hw g :
  ((exists g', read_power hw g = Done tt g')
   <-> (forall j, In j (tick_cores g) -> raw_of g hw j <> None))
  /\ (forall c g',
        read_power hw g = Exited c g' ->
        c = 1 /\ stderr g' = stderr g ++ [Perror "rdmsr:pread"]
        /\ exists j, In j (tick_cores g) /\ raw_of g hw j = None).
Proof.
  split; [split|].
  - intros (g' & H) j Hj. apply read_power_Done in H.
    destruct H as (_ & _ & _ & _ & _ & _ & Hnew & _).
    destruct (Hnew j Hj) as (raw & Hraw & _). rewrite Hraw. discriminate.
  - apply read_power_returns.
  - unfold read_power, tick_cores. rewrite bind_get.
    destruct (read_power_range g) as [first_core max]. intros c g' H.
    apply bind_Exited in H. destruct H as [H|(cs & g1 & _ & H)];
      [|discriminate H].
    now apply read_power_loop_Exited in H.
Qed.

Lemma zrange_snoc n : forall core,
  zrange core (S n) = zrange core n ++ [core + Z.of_nat n].
Proof.
  induction n as [|n IH]; intro core.
  - cbn. now rewrite Z.add_0_r.
  - change (zrange core (S (S n))) with (core :: zrange (core + 1) (S n)).
    rewrite IH. cbn [zrange app]. do 3 f_equal. lia.
Qed.

Lemma tick_cores_quiet g :
  count_fits g -> verbose g = 0 -> tick_cores g = [cpu_count g].
Proof.
  intros Hfit Hv. unfold tick_cores. rewrite (read_power_range_quiet g Hfit Hv).
  replace (Z.to_nat (cpu_count g + 1 - cpu_count g)) with 1%nat by lia.
  reflexivity.
Qed.

Lemma tick_cores_amd g :
  count_fits g -> verbose g <> 0 -> core_msr g <> 0 ->
  tick_cores g = zrange 0 (Z.to_nat (cpu_count g)) ++ [cpu_count g].
Proof.
  intros Hfit Hv Hc. unfold tick_cores.
  rewrite (read_power_range_cores g Hfit Hv Hc). destruct Hfit as [H0 H1].
  replace (Z.to_nat (cpu_count g + 1 - 0)) with (S (Z.to_nat (cpu_count g)))
    by lia.
  rewrite zrange_snoc. do 2 f_equal. lia.
Qed.

Lemma msr_of_core_pkg g : msr_of_core g (cpu_count g) = pkg_msr g.
Proof. unfold msr_of_core. now rewrite Z.eqb_refl. Qed.

Lemma msr_of_core_dram g :
  count_fits g -> msr_of_core g (cpu_count g + 1) = dram_msr g.
Proof.
  intros [H0 H1]. unfold msr_of_core. rewrite u32_small by lia.
  destruct (Z.eqb_spec (cpu_count g + 1) (cpu_count g)); [lia|].
  now rewrite Z.eqb_refl.
Qed.

Lemma msr_of_core_core g c :
  count_fits g -> 0 <= c < cpu_count g -> msr_of_core g c = core_msr g.
Proof.
  intros [H0 H1] Hc. unfold msr_of_core. rewrite u32_small by lia.
  destruct (Z.eqb_spec c (cpu_count g)); [lia|].
  destruct (Z.eqb_spec c (cpu_count g + 1)); [lia|reflexivity].
Qed.

(** X3: the registers a tick reads, in order.  Without [-v] it is the
    package register alone, whatever the vendor; with [-v] it is, on AMD,
    the core register of every physical unit and then the package
    register, and on Intel the package register and then the DRAM
    register.  Each is read through the descriptor of its own handle. *)
Theorem registers_read_by_a_tick g hw g' :
  identified g -> count_fits g ->
  read_power hw g = Done tt g' ->
  let n := cpu_count g in
  msr_log g'
  = msr_log g
    ++ (if verbose g =? 0 then [(fd (softc g n), pkg_msr g)]
        else match cpu g with
             | AMD =>
                 map (fun c => (fd (softc g c), AMD_ENERGY_CORE_MSR))
                     (zrange 0 (Z.to_nat n))
                 ++ [(fd (softc g n), AMD_ENERGY_PKG_MSR)]
             | INTEL =>
                 [(fd (softc g n), INTEL_ENERGY_PKG_MSR);
                  (fd (softc g (n + 1)), INTEL_ENERGY_DRAM_MSR)]
             end).
Proof.
  intros Hid Hfit Htick n. apply read_power_Done in Htick.
  destruct Htick as (_ & _ & _ & _ & _ & _ & _ & Hlog & _).
  rewrite Hlog. f_equal. unfold identified in Hid.
  destruct (Z.eqb_spec (verbose g) 0) as [Hv|Hv].
  - rewrite (tick_cores_quiet g Hfit Hv). cbn [map].
    now rewrite msr_of_core_pkg.
  - destruct (cpu g); destruct Hid as (Hp & Hc & Hd & _).
    + rewrite (tick_cores_amd g Hfit Hv) by (rewrite Hc; discriminate).
      rewrite map_app. cbn [map]. rewrite msr_of_core_pkg, Hp. f_equal.
      apply map_ext_in. intros c Hin. apply zrange_In in Hin.
      rewrite msr_of_core_core, Hc; [reflexivity|exact Hfit|].
      destruct Hfit. unfold n in Hin. lia.
    + rewrite (tick_cores_dram g Hfit Hv Hc) by (rewrite Hd; discriminate).
      cbn [map]. now rewrite msr_of_core_pkg, (msr_of_core_dram g Hfit), Hp, Hd.
Qed.

(** X4: the sampling loop changes no global that [identify_cpu] set and
    no descriptor; a handle outside the loop indices of a tick keeps its
    [last]; after the first tick the flag [first] is off; and it calls
    [sleep] once a tick. *)
Theorem sampling_loop_invariants timeo ticks g g' :
  main_loop timeo ticks g = Done tt g' ->
  config g' = config g
  /\ (forall j, fd (softc g' j) = fd (softc g j))
  /\ (forall j, ~ In j (tick_cores g) -> softc g' j = softc g j)
  /\ (ticks <> [] -> first g' = false)
  /\ stderr g' = stderr g
  /\ List.length (slept g') = (List.length (slept g) + List.length ticks)%nat.
Proof.
  revert g g'. induction ticks as [|hw ticks IH]; intros g g' H.
  - cbn in H. unfold ret in H. inversion H. subst.
    rewrite Nat.add_0_r. repeat split. intro E. now contradiction E.
  - cbn [main_loop] in H. apply bind_Done in H.
    destruct H as ([] & g1 & Ht & H).
    apply bind_Done in H. destruct H as ([] & g2 & Hs & H).
    unfold modify in Hs. inversion Hs. subst g2. clear Hs.
    apply read_power_Done in Ht.
    destruct Ht as (Tc & Tf & Te & Tl & _ & Tkeep & Tnew & _).
    pose proof H as H0.
    apply IH in H. destruct H as (Lc & Lfd & Lkeep & Lf & Le & Ll).
    assert (Lc' : config g' = config g1) by exact Lc.
    assert (Hcores : tick_cores (set_slept (slept g1 ++ [u32 timeo]) g1)
                     = tick_cores g).
    { change (tick_cores (set_slept (slept g1 ++ [u32 timeo]) g1))
        with (tick_cores g1). now apply tick_cores_config. }
    rewrite Hcores in Lkeep. cbn_state_all.
    split; [congruence|]. split; [|split; [|split; [|split]]].
    + intro j. rewrite Lfd.
      destruct (in_dec Z.eq_dec j (tick_cores g)) as [Hin|Hout].
      * destruct (Tnew j Hin) as (raw & _ & ->). reflexivity.
      * now rewrite Tkeep.
    + intros j Hout. rewrite Lkeep by exact Hout. now apply Tkeep.
    + intros _. destruct ticks as [|hw' ticks'].
      * cbn in H0. unfold ret in H0. inversion H0. exact Tf.
      * apply Lf. discriminate.
    + congruence.
    + rewrite Ll, Tl, length_app. cbn [List.length]. lia.
Qed.

(** * The devices behind the handles *)

Lemma open_msrs_open_opened w core i g g' :
  open_msrs_open w core i g = Done tt g' ->
  dev_open w (s32 (i * share_count g)) <> -1.
Proof.
  unfold open_msrs_open, softc_ref. unfold_M.
  destruct ((0 <=? core) && (core <? softc_slots g));
    cbn [share_count softc set_oob_log set_softc];
    destruct (Z.eqb_spec (dev_open w (s32 (i * share_count g))) (-1));
    intro H; [discriminate H|assumption|discriminate H|assumption].
Qed.

Lemma open_msrs_body_softc w core g g' :
  open_msrs_body w core tt g = Done tt g' ->
  if opens g core
  then softc g' = upd (softc g) core {| fd := dev_open w (device_of g core);
                                        last := last (softc g core) |}
       /\ dev_open w (device_of g core) <> -1
  else softc g' = softc g.
Proof.
  unfold open_msrs_body, opens, device_of. rewrite bind_get.
  destruct (core >=? cpu_count g); cbn [orb].
  - intro H. split; [|exact (open_msrs_open_opened _ _ _ _ _ H)].
    apply open_msrs_open_Done in H. now subst g'.
  - destruct (processor_type_eqb (cpu g) INTEL && negb (core =? 0));
      cbn [negb].
    + unfold ret. intro H. now inversion H.
    + intro H. split; [|exact (open_msrs_open_opened _ _ _ _ _ H)].
      apply open_msrs_open_Done in H. now subst g'.
Qed.

Lemma opens_quiet g1 g2 core :
  quiet g1 = quiet g2 ->
  opens g1 core = opens g2 core /\ device_of g1 core = device_of g2 core.
Proof.
  intro H.
  assert (Hc : config g1 = config g2)
    by exact (f_equal (fun t => fst (fst (fst (fst (fst t))))) H).
  unfold opens, device_of. config_rewrite Hc. split; reflexivity.
Qed.

Lemma open_msrs_loop_softc w n : forall core g g',
  for_loop n core (open_msrs_body w) tt g = Done tt g' ->
  forall j,
    if opens g j
    then (In j (zrange core n) ->
          softc g' j = {| fd := dev_open w (device_of g j);
                          last := last (softc g j) |}
          /\ dev_open w (device_of g j) <> -1)
         /\ (~ In j (zrange core n) -> softc g' j = softc g j)
    else softc g' j = softc g j.
Proof.
  induction n as [|n IH]; intros core g g' H j.
  - cbn in H. unfold ret in H. inversion H. subst.
    destruct (opens g' j); [split; [intros []|reflexivity]|reflexivity].
  - cbn [for_loop] in H. apply bind_Done in H. destruct H as ([] & g1 & Hb & Hl).
    pose proof (open_msrs_body_frame _ _ _ _ Hb) as (Hq & _).
    pose proof (open_msrs_body_softc _ _ _ _ Hb) as Hs.
    specialize (IH _ _ _ Hl j).
    destruct (opens_quiet g1 g j Hq) as (Eo & Ed). rewrite Eo, Ed in IH.
    assert (Hj : j <> core -> softc g1 j = softc g j).
    { intro Hne. destruct (opens g core).
      - destruct Hs as (-> & _). unfold upd.
        destruct (Z.eqb_spec j core); [contradiction|reflexivity].
      - now rewrite Hs. }
    cbn [zrange In]. destruct (opens g j) eqn:Ej.
    + destruct IH as (IHin & IHout). split.
      * intros [<-|Hin].
        -- rewrite Ej in Hs. destruct Hs as (Hs & Hd). split; [|exact Hd].
           rewrite IHout by (rewrite zrange_In; lia).
           rewrite Hs. unfold upd. now rewrite Z.eqb_refl.
        -- destruct (IHin Hin) as (E & Hd). split; [|exact Hd].
           rewrite E. f_equal. f_equal. apply Hj.
           apply zrange_In in Hin. lia.
      * intro Hout. rewrite IHout by tauto. apply Hj. intro E. subst. tauto.
    + rewrite IH. destruct (Z.eq_dec j core) as [->|Hne]; [|now apply Hj].
      rewrite Ej in Hs. now rewrite Hs.
Qed.

(** X5: the devices behind the handles.  When [open_msrs] returns, the
    package handle and the handle after it hold the descriptor of the
    device of logical processor 0; on AMD the handle of physical unit [j]
    holds the descriptor of the device of logical processor
    [j * share_count]; on Intel only unit 0 is opened, the handles of the
    other units are left as they were.  No descriptor stored is -1 and no
    [last] is changed. *)
Theorem devices_behind_handles w g g' :
  count_fits g ->
  open_msrs w g = Done tt g' ->
  let n := cpu_count g in
  (fd (softc g' n) = dev_open w 0 /\ fd (softc g' (n + 1)) = dev_open w 0
   /\ dev_open w 0 <> -1)
  /\ (cpu g = AMD ->
      forall j, 0 <= j < n ->
        fd (softc g' j) = dev_open w (s32 (j * share_count g))
        /\ dev_open w (s32 (j * share_count g)) <> -1)
  /\ (cpu g = INTEL ->
      (0 < n -> fd (softc g' 0) = dev_open w 0)
      /\ forall j, 0 < j < n -> softc g' j = softc g j)
  /\ (forall j, last (softc g' j) = last (softc g j)).
Proof.
  intros [H0 H1] H n.
  pose proof (open_msrs_frame _ _ _ H) as (_ & Hlast & _).
  unfold open_msrs in H. rewrite bind_get in H.
  pose proof (open_msrs_loop_softc _ _ _ _ _ H) as L.
  rewrite u32_small in L by lia.
  assert (Hin : forall j, 0 <= j <= n + 1 ->
                  In j (zrange 0 (Z.to_nat (cpu_count g + 2)))).
  { intros j Hj. apply zrange_In. unfold n in Hj. lia. }
  assert (Hextra : forall j, n <= j <= n + 1 ->
            fd (softc g' j) = dev_open w 0 /\ dev_open w 0 <> -1).
  { intros j Hj. specialize (L j). unfold opens, device_of in L.
    destruct (Z.geb_spec j (cpu_count g)) as [_|Hlt]; [|unfold n in Hj; lia].
    cbn [orb] in L. destruct L as (L & _).
    destruct (L (Hin j ltac:(unfold n in *; lia))) as (E & Hd).
    rewrite E. cbn [fd]. split; [reflexivity|exact Hd]. }
  split; [|split; [|split]].
  - destruct (Hextra n ltac:(lia)) as (A & D).
    destruct (Hextra (n + 1) ltac:(lia)) as (B & _). auto.
  - intros Hcpu j Hj. specialize (L j). unfold opens, device_of in L.
    rewrite Hcpu in L. cbn [processor_type_eqb andb negb] in L.
    rewrite orb_true_r in L.
    destruct (Z.geb_spec j (cpu_count g)) as [Hge|_]; [unfold n in Hj; lia|].
    destruct L as (L & _).
    destruct (L (Hin j ltac:(lia))) as (E & Hd).
    rewrite E. cbn [fd]. split; [reflexivity|exact Hd].
  - intros Hcpu. split.
    + intros Hn. specialize (L 0). unfold opens, device_of in L.
      rewrite Hcpu in L. cbn [processor_type_eqb andb negb Z.eqb] in L.
      rewrite orb_true_r in L.
      destruct (Z.geb_spec 0 (cpu_count g)) as [Hge|_]; [unfold n in Hn; lia|].
      destruct L as (L & _).
      destruct (L (Hin 0 ltac:(lia))) as (E & _). rewrite E. reflexivity.
    + intros j Hj. specialize (L j). unfold opens in L.
      rewrite Hcpu in L. cbn [processor_type_eqb andb] in L.
      destruct (Z.geb_spec j (cpu_count g)) as [Hge|_]; [unfold n in Hj; lia|].
      destruct (Z.eqb_spec j 0) as [E|_]; [lia|]. exact L.
  - exact Hlast.
Qed.

(** X6: when the device of logical processor 0 cannot be opened,
    [open_msrs] exits with status 1 at its first index, whatever the
    vendor and the processor count: [perror] on standard error, the
    driver hint on standard output, and no register read. *)
Theorem device_0_must_open w g :
  count_fits g -> dev_open w 0 = -1 ->
  exists g',
    open_msrs w g = Exited 1 g'
    /\ stdout g' = stdout g ++ [PrintDriverHint]
    /\ stderr g' = stderr g ++ [Perror "open"]
    /\ msr_log g' = msr_log g.
Proof.
  intros [H0 H1] Hd. unfold open_msrs. rewrite bind_get.
  rewrite u32_small by lia.
  replace (Z.to_nat (cpu_count g + 2)) with (S (Z.to_nat (cpu_count g + 1)))
    by lia.
  cbn [for_loop]. unfold bind at 1.
  assert (Hopen : exists g',
             open_msrs_open w 0 0 g = Exited 1 g'
             /\ stdout g' = stdout g ++ [PrintDriverHint]
             /\ stderr g' = stderr g ++ [Perror "open"]
             /\ msr_log g' = msr_log g).
  { unfold open_msrs_open, softc_ref. unfold_M.
    destruct ((0 <=? 0) && (0 <? softc_slots g));
      cbn [share_count softc set_oob_log set_softc];
      change (s32 (0 * share_count g)) with 0; rewrite Hd;
      change (-1 =? -1) with true; cbv iota;
      eexists; (split; [reflexivity|]); repeat split. }
  destruct Hopen as (g' & Ho & Hrest). exists g'. split; [|exact Hrest].
  unfold open_msrs_body. rewrite bind_get.
  destruct (0 >=? cpu_count g); [now rewrite Ho|].
  rewrite andb_false_r. now rewrite Ho.
Qed.

(** * What [identify_cpu] prints *)

Lemma identify_cpu_report_run g :
  identify_cpu_report g
  = Done tt
      (emit (if verbose g >? 1
             then [PrintThreads (s32 (cpu_count g * share_count g))
                                (s32 (cpu_count g));
                   match cpu g with
                   | AMD => PrintUnitsAMD (s32 (amd_energy_units g))
                   | INTEL => PrintUnitsIntel (energy_units g)
                   end]
             else []) g).
Proof.
  unfold identify_cpu_report. rewrite bind_get.
  destruct (verbose g >? 1).
  - unfold bind. rewrite printf_run.
    destruct (cpu g); rewrite printf_run, emit_emit; reflexivity.
  - unfold ret. now rewrite emit_nil.
Qed.

Lemma config_verbose_of g1 g2 :
  config g1 = config g2 -> verbose g1 = verbose g2.
Proof. intro H. unfold config in H. injection H. intros. assumption. Qed.

Lemma identify_cpu_before_report w hw g0 g5 g :
  identify_cpu w hw g0 = Done tt g ->
  (exists g1 g2 g3 g4,
     identify_cpu_cpuid w g0 = Done tt g1
     /\ identify_cpu_classify g1 = Done tt g2
     /\ identify_cpu_topology w g2 = Done tt g3
     /\ open_msrs w g3 = Done tt g4
     /\ identify_cpu_units hw g4 = Done tt g5) ->
  stdout g5 = stdout g0 /\ verbose g5 = verbose g0
  /\ (cpu g5 = AMD -> 0 <= amd_energy_units g5 <= 31).
Proof.
  intros _ (g1 & g2 & g3 & g4 & H1 & H2 & H3 & H4 & H5).
  destruct (identify_cpu_cpuid_run w g0) as (v & id & E1 & _).
  rewrite E1 in H1. inversion H1 as [G1]. clear H1 E1.
  apply identify_cpu_classify_Done in H2.
  apply identify_cpu_topology_Done in H3.
  apply open_msrs_frame in H4. destruct H4 as (Hq & _).
  apply identify_cpu_units_Done in H5. destruct H5 as (data & _ & H5).
  destruct (softc_ref_state_config 0 g4) as (Rc & _ & _ & Ro & _).
  pose proof (config_verbose_of _ _ Rc) as Rv.
  assert (Rcpu : cpu (softc_ref_state 0 g4) = cpu g4)
    by (unfold config in Rc; injection Rc; intros; assumption).
  pose proof (unit_field_range data) as Hrange.
  rewrite unit_field_bits in H5.
  assert (Q : stdout g4 = stdout g0 /\ verbose g4 = verbose g0).
  { unfold quiet, config in Hq. injection Hq. intros.
    subst g3. destruct H2 as [H2|H2]; subst g2 g1; cbn_state_all;
      split; congruence. }
  destruct Q as (Qo & Qv).
  destruct (cpu g4) eqn:Ecpu; subst g5; cbn_state; rewrite ?Ro, ?Rv, ?Rcpu.
  - repeat split; try assumption; lia.
  - split; [assumption|]. split; [assumption|]. discriminate.
Qed.

(** X7: what a start-up that returns prints.  Up to verbosity 1 it prints
    nothing.  From verbosity 2 it prints one line with the thread count,
    which is the configured processor count rounded down to a multiple of
    the sharing factor, and the count of physical units, and one line
    with the energy unit: the exponent on AMD, the unit itself on
    Intel. *)
Theorem start_up_output w hw g0 g :
  0 <= nprocessors_conf w < 2 ^ 31 ->
  identify_cpu w hw g0 = Done tt g ->
  let p := nprocessors_conf w in
  verbose g = verbose g0
  /\ stdout g
     = stdout g0
       ++ (if verbose g0 >? 1
           then [PrintThreads (p - p mod share_count g) (p / share_count g);
                 match cpu g with
                 | AMD => PrintUnitsAMD (amd_energy_units g)
                 | INTEL => PrintUnitsIntel (energy_units g)
                 end]
           else []).
Proof.
  intros Hp Hid p.
  pose proof (identify_cpu_topology_fields _ _ _ _ Hid) as (Hs & Hn & _).
  rewrite share_count_value in Hs, Hn.
  pose proof (share_field_range (snd (fst (fst (cpuid w 0x8000001e 0))))) as Hf.
  rewrite <- Hs in Hn.
  assert (Hpos : 0 < share_count g) by lia.
  change (2 ^ 31) with 2147483648 in Hp.
  destruct (cpu_count_value p (share_count g)) as (Hq & Hb);
    [change (2 ^ 32) with 4294967296; unfold p; lia|exact Hpos|].
  fold p in Hn. rewrite Hq in Hn.
  pose proof (identify_cpu_phases _ _ _ _ Hid)
    as (g1 & g2 & g3 & g4 & g5 & H1 & H2 & H3 & H4 & H5 & H6).
  destruct (identify_cpu_before_report w hw g0 g5 g Hid) as (Ho & Hv & Hu).
  { exists g1, g2, g3, g4. auto. }
  rewrite identify_cpu_report_run in H6.
  assert (G : g = emit (if verbose g5 >? 1
                        then [PrintThreads (s32 (cpu_count g5 * share_count g5))
                                           (s32 (cpu_count g5));
                              match cpu g5 with
                              | AMD => PrintUnitsAMD (s32 (amd_energy_units g5))
                              | INTEL => PrintUnitsIntel (energy_units g5)
                              end]
                        else []) g5) by (inversion H6; reflexivity).
  clear H6 Hid. subst g. unfold emit in *. cbn_state_all.
  split; [exact Hv|]. rewrite Ho, Hv. f_equal.
  destruct (verbose g0 >? 1); [|reflexivity].
  assert (Hmul : cpu_count g5 * share_count g5 = p - p mod share_count g5).
  { rewrite Hn. pose proof (Z.div_mod p (share_count g5)). lia. }
  pose proof (Z.mod_pos_bound p (share_count g5) Hpos) as Hm.
  rewrite Hmul, Hn.
  rewrite !s32_small
    by (change (2 ^ 31) with 2147483648; unfold p in *; lia).
  f_equal. f_equal. destruct (cpu g5); [|reflexivity].
  rewrite s32_small; [reflexivity|].
  change (2 ^ 31) with 2147483648. specialize (Hu eq_refl). lia.
Qed.

(** * The registers of [cpuid], decoded *)

Lemma land_shifted_ones x n k :
  0 <= n -> 0 <= k ->
  Z.land x (Z.shiftl (Z.ones n) k)
  = Z.shiftl (Z.land (Z.shiftr x k) (Z.ones n)) k.
Proof.
  intros Hn Hk. apply Z.bits_inj'. intros i Hi.
  rewrite Z.land_spec, !Z.shiftl_spec by lia. rewrite Z.land_spec.
  destruct (Z.ltb_spec i k) as [Hlt|Hge].
  - rewrite !(Z.testbit_neg_r _ (i - k)) by lia. now rewrite andb_false_r.
  - rewrite Z.shiftr_spec by lia. now replace (i - k + k) with i by lia.
Qed.

Lemma field_value x k n v lo hi :
  0 <= k -> 0 < n -> 0 <= lo < 2 ^ k -> 0 <= v < 2 ^ n ->
  x = lo + 2 ^ k * (v + 2 ^ n * hi) ->
  Z.land (Z.shiftr x k) (Z.ones n) = v.
Proof.
  intros Hk Hn Hlo Hv ->. rewrite Z.land_ones by lia.
  rewrite Z.shiftr_div_pow2 by lia.
  assert (0 < 2 ^ k) by (apply Z.pow_pos_nonneg; lia).
  assert (0 < 2 ^ n) by (apply Z.pow_pos_nonneg; lia).
  replace (lo + 2 ^ k * (v + 2 ^ n * hi))
    with ((v + 2 ^ n * hi) * 2 ^ k + lo) by ring.
  rewrite Z.div_add_l by lia. rewrite Z.div_small by lia. rewrite Z.add_0_r.
  replace (v + 2 ^ n * hi) with (v + hi * 2 ^ n) by ring.
  rewrite Z.mod_add by lia. apply Z.mod_small. lia.
Qed.

Lemma lor_nibbles a b :
  0 <= a < 16 -> 0 <= b < 16 -> Z.lor a (Z.shiftl b 4) = a + 16 * b.
Proof.
  intros Ha Hb.
  assert (Hall : forallb (fun a => forallb (fun b =>
                   Z.lor a (Z.shiftl b 4) =? a + 16 * b) (zrange 0 16))
                   (zrange 0 16) = true) by (vm_compute; reflexivity).
  rewrite forallb_forall in Hall.
  specialize (Hall a ltac:(apply zrange_In; lia)).
  rewrite forallb_forall in Hall.
  specialize (Hall b ltac:(apply zrange_In; lia)).
  now apply Z.eqb_eq.
Qed.

(** X8: the family and the model read from a processor signature.  The
    family is the sum of the family field (bits 8..11) and the extended
    family field (bits 20..27), whatever the family field holds; the
    model is the model field (bits 4..7) with the extended model field
    (bits 16..19) as its high four bits.  No other bit matters. *)
Theorem signature_decoded stepping model family type ext_model ext_family top :
  0 <= stepping < 2 ^ 4 -> 0 <= model < 2 ^ 4 -> 0 <= family < 2 ^ 4 ->
  0 <= type < 2 ^ 4 -> 0 <= ext_model < 2 ^ 4 -> 0 <= ext_family < 2 ^ 8 ->
  0 <= top < 2 ^ 4 ->
  let id := signature stepping model family type ext_model ext_family top in
  CPUID_TO_FAMILY id = family + ext_family
  /\ CPUID_TO_MODEL id = model + 16 * ext_model.
Proof.
  intros Hs Hm Hf Ht Hem Hef Htop id.
  change (2 ^ 4) with 16 in *. change (2 ^ 8) with 256 in *.
  assert (Fm : Z.land (Z.shiftr id 4) (Z.ones 4) = model).
  { apply (field_value id 4 4 model stepping
             (family + 16 * (type + 16 * (ext_model
                + 16 * (ext_family + 256 * top))))); try lia.
    unfold id, signature. ring. }
  assert (Ff : Z.land (Z.shiftr id 8) (Z.ones 4) = family).
  { apply (field_value id 8 4 family (stepping + 16 * model)
             (type + 16 * (ext_model + 16 * (ext_family + 256 * top))));
      try (change (2 ^ 8) with 256; lia).
    unfold id, signature. ring. }
  assert (Fem : Z.land (Z.shiftr id 16) (Z.ones 4) = ext_model).
  { apply (field_value id 16 4 ext_model
             (stepping + 16 * model + 256 * family + 4096 * type)
             (ext_family + 256 * top));
      try (change (2 ^ 16) with 65536; lia).
    unfold id, signature. ring. }
  assert (Fef : Z.land (Z.shiftr id 20) (Z.ones 8) = ext_family).
  { apply (field_value id 20 8 ext_family
             (stepping + 16 * model + 256 * family + 4096 * type
              + 65536 * ext_model) top);
      try (change (2 ^ 20) with 1048576; change (2 ^ 8) with 256; lia).
    unfold id, signature. ring. }
  unfold CPUID_TO_FAMILY, CPUID_TO_MODEL.
  change CPUID_FAMILY with (Z.shiftl (Z.ones 4) 8).
  change CPUID_EXT_FAMILY with (Z.shiftl (Z.ones 8) 20).
  change CPUID_MODEL with (Z.shiftl (Z.ones 4) 4).
  change CPUID_EXT_MODEL with (Z.shiftl (Z.ones 4) 16).
  rewrite !land_shifted_ones by lia. rewrite Fm, Ff, Fem, Fef.
  rewrite !Z.shiftr_shiftl_l by lia.
  change (8 - 8) with 0. change (20 - 20) with 0. change (4 - 4) with 0.
  change (16 - 12) with 4. rewrite !Z.shiftl_0_r.
  split.
  - apply u32_small. change (2 ^ 32) with 4294967296. lia.
  - apply lor_nibbles; lia.
Qed.

Lemma reg_bytes_pack b0 b1 b2 b3 :
  0 <= b0 < 256 -> 0 <= b1 < 256 -> 0 <= b2 < 256 -> 0 <= b3 < 256 ->
  reg_bytes (pack [b0; b1; b2; b3]) = [b0; b1; b2; b3].
Proof.
  intros H0 H1 H2 H3. unfold reg_bytes, pack. cbn [map fold_right].
  change 0xff with (Z.ones 8).
  change (8 * 0) with 0. change (8 * 1) with 8. change (8 * 2) with 16.
  change (8 * 3) with 24.
  rewrite (field_value _ 0 8 b0 0 (b1 + 256 * (b2 + 256 * b3)));
    try (change (2 ^ 0) with 1; change (2 ^ 8) with 256; lia).
  rewrite (field_value _ 8 8 b1 b0 (b2 + 256 * b3));
    try (change (2 ^ 8) with 256; lia).
  rewrite (field_value _ 16 8 b2 (b0 + 256 * b1) b3);
    try (change (2 ^ 16) with 65536; change (2 ^ 8) with 256; lia).
  rewrite (field_value _ 24 8 b3 (b0 + 256 * b1 + 65536 * b2) 0);
    try (change (2 ^ 24) with 16777216; change (2 ^ 8) with 256; lia).
  reflexivity.
Qed.

(** X9: the vendor string is put together from [ebx], [edx] and [ecx] of
    leaf 0, in that order, each least significant byte first, and closed
    by a NUL: for twelve bytes [v] packed that way, the array starts with
    [v] and the NUL, so it holds the C string [s] exactly when [s] is
    [v]. *)
Theorem vendor_string_from_cpuid w g v a :
  List.length v = 12%nat ->
  Forall (fun b => 0 <= b < 256) v ->
  List.length (cpu_vendor g) = 20%nat ->
  cpuid w 0 0 = (a, pack (firstn 4 v), pack (skipn 8 v),
                 pack (firstn 4 (skipn 4 v))) ->
  exists g',
    identify_cpu_cpuid w g = Done tt g'
    /\ firstn 13 (cpu_vendor g') = v ++ [0]
    /\ List.length (cpu_vendor g') = 20%nat
    /\ (forall s, vendor_is g' s <-> c_string s = v ++ [0]).
Proof.
  intros Hlen Hall Hg Hcpuid.
  do 12 (destruct v as [|? v]; [discriminate Hlen|]).
  destruct v; [|discriminate Hlen]. clear Hlen.
  repeat match goal with
         | H : Forall _ (_ :: _) |- _ => inversion H; clear H; subst
         end.
  cbn [firstn skipn] in Hcpuid.
  unfold identify_cpu_cpuid. rewrite Hcpuid.
  destruct (cpuid w 1 0) as [[[id x1] x2] x3].
  eexists. split; [reflexivity|]. cbn_state.
  rewrite !reg_bytes_pack by assumption.
  assert (E : firstn 13 ([z; z0; z1; z2] ++ [z3; z4; z5; z6]
                         ++ [z7; z8; z9; z10] ++ [0]
                         ++ skipn 13 (cpu_vendor g))
              = [z; z0; z1; z2; z3; z4; z5; z6; z7; z8; z9; z10] ++ [0])
    by reflexivity.
  split; [exact E|]. split.
  - rewrite !length_app, length_skipn, Hg. reflexivity.
  - intro s. unfold vendor_is. cbn_state. rewrite E.
    split; intro H; now rewrite H.
Qed.

(** * When [open_msrs] returns *)

Lemma open_msrs_open_returns w core i g :
  dev_open w (s32 (i * share_count g)) <> -1 ->
  exists g', open_msrs_open w core i g = Done tt g'.
Proof.
  intro Hd. unfold open_msrs_open, softc_ref. unfold_M.
  destruct ((0 <=? core) && (core <? softc_slots g));
    cbn [share_count softc set_oob_log set_softc];
    destruct (Z.eqb_spec (dev_open w (s32 (i * share_count g))) (-1));
    try contradiction; eexists; reflexivity.
Qed.

Lemma open_msrs_open_Exited w core i g c g' :
  open_msrs_open w core i g = Exited c g' ->
  c = 1 /\ dev_open w (s32 (i * share_count g)) = -1
  /\ stdout g' = stdout g ++ [PrintDriverHint]
  /\ stderr g' = stderr g ++ [Perror "open"]
  /\ msr_log g' = msr_log g.
Proof.
  unfold open_msrs_open, softc_ref. unfold_M.
  destruct ((0 <=? core) && (core <? softc_slots g));
    cbn [share_count softc set_oob_log set_softc];
    destruct (Z.eqb_spec (dev_open w (s32 (i * share_count g))) (-1));
    intro H; try discriminate H; inversion H; subst; cbn_state; auto.
Qed.

Lemma open_msrs_body_returns w core g :
  (opens g core = true -> dev_open w (device_of g core) <> -1) ->
  exists g', open_msrs_body w core tt g = Done tt g'.
Proof.
  unfold open_msrs_body, opens, device_of. rewrite bind_get.
  destruct (core >=? cpu_count g); cbn [orb].
  - intro H. apply open_msrs_open_returns. now apply H.
  - destruct (processor_type_eqb (cpu g) INTEL && negb (core =? 0));
      cbn [negb].
    + intros _. eexists. reflexivity.
    + intro H. apply open_msrs_open_returns. now apply H.
Qed.

Lemma open_msrs_body_Exited w core g c g' :
  open_msrs_body w core tt g = Exited c g' ->
  c = 1 /\ opens g core = true /\ dev_open w (device_of g core) = -1
  /\ stdout g' = stdout g ++ [PrintDriverHint]
  /\ stderr g' = stderr g ++ [Perror "open"]
  /\ msr_log g' = msr_log g.
Proof.
  unfold open_msrs_body, opens, device_of. rewrite bind_get.
  destruct (core >=? cpu_count g); cbn [orb].
  - intro H. apply open_msrs_open_Exited in H. tauto.
  - destruct (processor_type_eqb (cpu g) INTEL && negb (core =? 0));
      cbn [negb].
    + discriminate.
    + intro H. apply open_msrs_open_Exited in H. tauto.
Qed.

Lemma quiet_outputs g1 g2 :
  quiet g1 = quiet g2 ->
  stdout g1 = stdout g2 /\ stderr g1 = stderr g2 /\ msr_log g1 = msr_log g2.
Proof. unfold quiet. intro H. injection H. intros. auto. Qed.

Lemma open_msrs_loop_returns w n : forall core g,
  (forall j, In j (zrange core n) -> opens g j = true ->
             dev_open w (device_of g j) <> -1) ->
  exists g', for_loop n core (open_msrs_body w) tt g = Done tt g'.
Proof.
  induction n as [|n IH]; intros core g H.
  - eexists. reflexivity.
  - cbn [for_loop].
    destruct (open_msrs_body_returns w core g) as (g1 & Hb).
    { apply H. now left. }
    rewrite (bind_run _ _ _ _ _ Hb). apply IH. intros j Hj Ho.
    pose proof (open_msrs_body_frame _ _ _ _ Hb) as (Hq & _).
    destruct (opens_quiet g1 g j Hq) as (Eo & Ed).
    rewrite Ed. apply H; [now right|now rewrite <- Eo].
Qed.

Lemma open_msrs_loop_Exited w n : forall core g c g',
  for_loop n core (open_msrs_body w) tt g = Exited c g' ->
  c = 1
  /\ (exists j, In j (zrange core n) /\ opens g j = true
                /\ dev_open w (device_of g j) = -1)
  /\ stdout g' = stdout g ++ [PrintDriverHint]
  /\ stderr g' = stderr g ++ [Perror "open"]
  /\ msr_log g' = msr_log g.
Proof.
  induction n as [|n IH]; intros core g c g' H; [discriminate H|].
  cbn [for_loop] in H. apply bind_Exited in H.
  destruct H as [H|([] & g1 & Hb & H)].
  - apply open_msrs_body_Exited in H.
    destruct H as (-> & Ho & Hd & H1 & H2 & H3).
    split; [reflexivity|]. split; [|auto].
    exists core. split; [now left|auto].
  - apply IH in H. destruct H as (-> & (j & Hj & Ho & Hd) & H1 & H2 & H3).
    pose proof (open_msrs_body_frame _ _ _ _ Hb) as (Hq & _).
    destruct (opens_quiet g1 g j Hq) as (Eo & Ed).
    destruct (quiet_outputs _ _ Hq) as (Q1 & Q2 & Q3).
    split; [reflexivity|]. split.
    + exists j. split; [now right|]. split; congruence.
    + rewrite H1, H2, H3, Q1, Q2, Q3. auto.
Qed.

(** X10: [open_msrs] returns exactly when every device it opens can be
    opened: the device of logical processor 0 for the two handles from
    [cpu_count] on and, below them, the device of logical processor
    [core * share_count] for every unit on AMD and for unit 0 on Intel.
    When one cannot, it exits with status 1 after the [perror] message
    and the hint at the driver, and no register has been read. *)
Theorem open_msrs_returns_iff_devices_open w g :
  ((exists g', open_msrs w g = Done tt g')
   <-> (forall core,
          In core (zrange 0 (Z.to_nat (u32 (cpu_count g + 2)))) ->
          opens g core = true -> dev_open w (device_of g core) <> -1))
  /\ (forall c g',
        open_msrs w g = Exited c g' ->
        c = 1
        /\ (exists core,
              In core (zrange 0 (Z.to_nat (u32 (cpu_count g + 2))))
              /\ opens g core = true
              /\ dev_open w (device_of g core) = -1)
        /\ stdout g' = stdout g ++ [PrintDriverHint]
        /\ stderr g' = stderr g ++ [Perror "open"]
        /\ msr_log g' = msr_log g).
Proof.
  unfold open_msrs. rewrite bind_get. split; [split|].
  - intros (g' & H) core Hin Ho.
    pose proof (open_msrs_loop_softc _ _ _ _ _ H core) as L.
    rewrite Ho in L. destruct L as (L & _). exact (proj2 (L Hin)).
  - apply open_msrs_loop_returns.
  - apply open_msrs_loop_Exited.
Qed.

(** * When the array cannot be allocated *)

Lemma classify_cases g :
  (13 <= List.length (cpu_vendor g))%nat ->
  (accepted g /\ exists g', identify_cpu_classify g = Done tt g')
  \/ (~ accepted g /\ exists g', identify_cpu_classify g = Exited 1 g').
Proof.
  intro Hlen. unfold accepted.
  destruct (vendor_is_dec g "AuthenticAMD") as [Ha|Ha].
  - pose proof (classify_amd g Ha Hlen) as H.
    destruct (amd_supported (cpu_family g) (cpu_model g)).
    + left. split; [left; auto|exact H].
    + right. split; [|exact H].
      intros [[_ E]|[Hi _]]; [discriminate|].
      exact (vendor_exclusive g Ha Hi).
  - destruct (vendor_is_dec g "GenuineIntel") as [Hi|Hi].
    + pose proof (classify_intel g Hi Hlen) as H.
      destruct (Z.eqb_spec (cpu_family g) 6) as [E|E].
      * left. split; [right; auto|exact H].
      * right. split; [|exact H]. intros [[Ha' _]|[_ E']]; contradiction.
    + right. split; [intros [[Ha' _]|[Hi' _]]; contradiction|].
      now apply classify_other.
Qed.

Lemma identify_cpu_classify_Exited g c g' :
  identify_cpu_classify g = Exited c g' ->
  c = 1 /\ stderr g' = stderr g /\ msr_log g' = msr_log g
  /\ oob_log g' = oob_log g /\ softc g' = softc g
  /\ softc_slots g' = softc_slots g
  /\ exists e,
       stdout g' = stdout g ++ [e]
       /\ (e = PrintUnsupportedCPU (cpu_family g) (cpu_model g)
           \/ e = PrintVendorNotImplemented (cpu_vendor g)).
Proof.
  unfold identify_cpu_classify, unsupported_cpu. unfold_M.
  split_eqb; simpl; intro H; inversion H; subst; cbn_state;
    repeat (split; [reflexivity|]); eexists; (split; [reflexivity|]);
    (left; reflexivity) || (right; reflexivity).
Qed.

Lemma identify_cpu_topology_no_memory w g :
  calloc_ok w = false ->
  exists g',
    identify_cpu_topology w g = Exited 1 g'
    /\ stdout g' = stdout g /\ stderr g' = stderr g ++ [Perror "malloc"]
    /\ msr_log g' = msr_log g /\ oob_log g' = oob_log g
    /\ softc g' = softc g /\ softc_slots g' = softc_slots g.
Proof.
  intro Hc. unfold identify_cpu_topology.
  destruct (cpuid w 0x8000001e 0) as [[[r0 r1] r2] r3]. unfold_M.
  cbn_state. rewrite Hc. eexists. split; [reflexivity|]. cbn_state.
  repeat split.
Qed.

(** X11: when [calloc] fails the start-up does not return.  For a
    processor the program accepts (the vendor, family and model read by
    [cpuid] pass the classification) it exits with status 1 after the
    [perror] message of line 285 and nothing else: standard output is as
    it was, no device has been opened, no register read, and the array is
    as it was.  For any other processor it exits with status 1 after the
    message of the classification, as it does when [calloc] works. *)
Theorem allocation_failure_ends_start_up w hw g g1 :
  calloc_ok w = false ->
  List.length (cpu_vendor g) = 20%nat ->
  identify_cpu_cpuid w g = Done tt g1 ->
  (accepted g1 ->
   exists g',
     identify_cpu w hw g = Exited 1 g'
     /\ stdout g' = stdout g
     /\ stderr g' = stderr g ++ [Perror "malloc"]
     /\ msr_log g' = msr_log g /\ oob_log g' = oob_log g
     /\ softc g' = softc g /\ softc_slots g' = softc_slots g)
  /\ (~ accepted g1 ->
      exists g' e,
        identify_cpu w hw g = Exited 1 g'
        /\ stdout g' = stdout g ++ [e]
        /\ (e = PrintUnsupportedCPU (cpu_family g1) (cpu_model g1)
            \/ e = PrintVendorNotImplemented (cpu_vendor g1))
        /\ stderr g' = stderr g
        /\ msr_log g' = msr_log g /\ oob_log g' = oob_log g
        /\ softc g' = softc g /\ softc_slots g' = softc_slots g).
Proof.
  intros Hc Hlen E1. unfold identify_cpu.
  rewrite (bind_run _ _ _ _ _ E1).
  destruct (identify_cpu_cpuid_run w g) as (v & id & E1' & Hv).
  assert (G1 : g1 = set_cpu_model (CPUID_TO_MODEL id)
                     (set_cpu_family (CPUID_TO_FAMILY id)
                        (set_cpu_id id (set_cpu_vendor v g))))
    by (rewrite E1 in E1'; now inversion E1').
  clear E1'.
  assert (F1 : stdout g1 = stdout g /\ stderr g1 = stderr g
               /\ msr_log g1 = msr_log g /\ oob_log g1 = oob_log g
               /\ softc g1 = softc g /\ softc_slots g1 = softc_slots g
               /\ List.length (cpu_vendor g1) = 20%nat).
  { rewrite G1. cbn_state. repeat split. exact (Hv Hlen). }
  clear G1. destruct F1 as (A1 & A2 & A3 & A4 & A5 & A6 & A7).
  assert (Hlen1 : (13 <= List.length (cpu_vendor g1))%nat) by lia.
  destruct (classify_cases g1 Hlen1) as [(Hacc & g2 & E2)|(Hrej & g2 & E2)].
  - split; [intros _|intro Hn; contradiction].
    rewrite (bind_run _ _ _ _ _ E2).
    destruct (identify_cpu_topology_no_memory w g2 Hc)
      as (g3 & E3 & B1 & B2 & B3 & B4 & B5 & B6).
    unfold bind at 1. rewrite E3. exists g3. split; [reflexivity|].
    assert (F2 : stdout g2 = stdout g1 /\ stderr g2 = stderr g1
                 /\ msr_log g2 = msr_log g1 /\ oob_log g2 = oob_log g1
                 /\ softc g2 = softc g1 /\ softc_slots g2 = softc_slots g1).
    { apply identify_cpu_classify_Done in E2.
      destruct E2 as [->| ->]; repeat split. }
    destruct F2 as (C1 & C2 & C3 & C4 & C5 & C6).
    repeat split; congruence.
  - split; [intro Ha; contradiction|intros _].
    unfold bind at 1. rewrite E2.
    apply identify_cpu_classify_Exited in E2.
    destruct E2 as (_ & D1 & D2 & D3 & D4 & D5 & e & D6 & De).
    exists g2, e. split; [reflexivity|].
    split; [congruence|]. split; [exact De|].
    repeat split; congruence.
Qed.


(** * Every exit is an [exit(1)] after a diagnostic *)










(** * The theorems at the example machines *)

Lemma fresh_set_verbose v : fresh (set_verbose v initial_state).
Proof. repeat split. Qed.



Lemma handle_array_overrun_witness :
  fresh (set_verbose 1 initial_state)
  /\ 0 <= nprocessors_conf amd_world < 2 ^ 31
  /\ identify_cpu amd_world (example_msr 0x1000 0)
       (set_verbose 1 initial_state) = Done tt amd_started
  /\ softc_slots amd_started = cpu_count amd_started + 1
  /\ In (cpu_count amd_started + 1) (oob_log amd_started).
Proof.
  assert (H1 : 0 <= nprocessors_conf amd_world < 2 ^ 31)
    by (vm_compute; split; [discriminate|reflexivity]).
  assert (H2 : identify_cpu amd_world (example_msr 0x1000 0)
                 (set_verbose 1 initial_state) = Done tt amd_started)
    by (vm_compute; reflexivity).
  split; [apply fresh_set_verbose|]. split; [exact H1|]. split; [exact H2|].
  destruct (handle_array_overrun _ _ _ _ (fresh_set_verbose 1) H1 H2)
    as (A & B & _).
  auto.
Defined.

(** The claim C3 at its words fails on the AMD machine with one [-v]: the
    second tick prints the per-core table before the package line. *)
Lemma per_core_table_at_verbosity_one :
  verbose (final_state amd_run) = 1
  /\ stdout (final_state amd_run)
     = [PrintRule; PrintCoreHdr 0; PrintCore 0 2; PrintCore 1 2; PrintNl;
        PrintRule; PrintPkg 2; PrintCoreSum 4; PrintNl].
Proof. split; vm_compute; reflexivity. Qed.

Lemma tick_layout_witness :
  identified amd_tick1 /\ 0 <= cpu_count amd_tick1 < 2 ^ 31
  /\ read_power (example_msr 0 196608) amd_tick1 = Done tt amd_tick2
  /\ verbose amd_tick1 = 1
  /\ tick_events amd_tick1 (example_msr 0 196608)
     = core_table amd_tick1 (example_msr 0 196608) [0; 1]
       ++ [PrintPkg (delta_of amd_tick1 (example_msr 0 196608) 2
                     * scale amd_tick1);
           PrintCoreSum (core_sum_of amd_tick1 (example_msr 0 196608)
                           [0; 1] 0 * scale amd_tick1);
           PrintNl].
Proof.
  assert (H1 : identified amd_tick1)
    by (vm_compute; repeat split; discriminate).
  assert (H2 : 0 <= cpu_count amd_tick1 < 2 ^ 31)
    by (vm_compute; split; [discriminate|reflexivity]).
  assert (H3 : read_power (example_msr 0 196608) amd_tick1
               = Done tt amd_tick2) by (vm_compute; reflexivity).
  split; [exact H1|]. split; [exact H2|]. split; [exact H3|].
  split; [reflexivity|].
  destruct (tick_layout _ _ _ H1 H2 H3) as (_ & _ & L).
  destruct (L (or_introl eq_refl)) as (_ & _ & _ & T).
  apply T; [vm_compute; discriminate|reflexivity|vm_compute; discriminate].
Defined.

(** The claim C4 at its words fails for the interval 0.5: [timeo] is 0,
    every [sleep] is called with 0, and the scale factor is not 2 but the
    quotient of 1 by 0. *)
Lemma interval_half_counterexample :
  main_timeo (Some 0.5%float) = 0
  /\ scale (final_state (intel_run 0.5%float)) = infinity
  /\ slept (final_state (intel_run 0.5%float)) = [0; 0]
  /\ stdout (final_state (intel_run 0.5%float))
     = [PrintPlain infinity; PrintNl].
Proof. repeat split; vm_compute; reflexivity. Qed.

Lemma interval_whole_seconds_witness :
  main "pmon" [] (Some 2%float) intel_world (example_msr 0x0a00 0)
       [example_msr 0 1000; example_msr 0 3000] initial_state
  = Done tt (final_state (intel_run 2%float))
  /\ scale (final_state (intel_run 2%float)) = 0.5%float
  /\ slept (final_state (intel_run 2%float)) = [2; 2].
Proof.
  assert (H : main "pmon" [] (Some 2%float) intel_world (example_msr 0x0a00 0)
                   [example_msr 0 1000; example_msr 0 3000] initial_state
              = Done tt (final_state (intel_run 2%float)))
    by (vm_compute; reflexivity).
  split; [exact H|].
  destruct (interval_whole_seconds _ _ _ _ _ _ _ H) as (A & B & _).
  split; [rewrite A; vm_compute; reflexivity|rewrite B; vm_compute; reflexivity].
Defined.

Lemma first_tick_witness :
  fresh (set_verbose 2 initial_state)
  /\ 0 <= nprocessors_conf intel_world_stale_heap < 2 ^ 31
  /\ identify_cpu intel_world_stale_heap (example_msr 0x0a00 0)
       (set_verbose 2 initial_state) = Done tt intel_stale_started
  /\ read_power (example_msr 0 1000) intel_stale_started
     = Done tt (final_state (read_power (example_msr 0 1000)
                               intel_stale_started))
  /\ last (softc intel_stale_started (cpu_count intel_stale_started + 1))
     = 7%float
  /\ exists raw_pkg raw_dram,
       tick_events intel_stale_started (example_msr 0 1000)
       = [PrintPkg (conversion intel_stale_started
                      (cpu_count intel_stale_started) raw_pkg
                    * scale intel_stale_started);
          PrintDram ((conversion intel_stale_started
                        (cpu_count intel_stale_started + 1) raw_dram - 7)
                     * scale intel_stale_started);
          PrintNl].
Proof.
  assert (H1 : 0 <= nprocessors_conf intel_world_stale_heap < 2 ^ 31)
    by (vm_compute; split; [discriminate|reflexivity]).
  assert (H2 : identify_cpu intel_world_stale_heap (example_msr 0x0a00 0)
                 (set_verbose 2 initial_state) = Done tt intel_stale_started)
    by (vm_compute; reflexivity).
  assert (H3 : read_power (example_msr 0 1000) intel_stale_started
               = Done tt (final_state (read_power (example_msr 0 1000)
                                         intel_stale_started)))
    by (vm_compute; reflexivity).
  split; [apply fresh_set_verbose|]. split; [exact H1|]. split; [exact H2|].
  split; [exact H3|].
  destruct (first_tick _ _ _ _ _ _ (fresh_set_verbose 2) H1 H2 H3)
    as (_ & _ & A & _ & _ & _ & P).
  split; [exact A|].
  destruct (P ltac:(vm_compute; discriminate) eq_refl)
    as (raw_pkg & raw_dram & _ & _ & E).
  exists raw_pkg, raw_dram. exact E.
Defined.

Lemma classify_accepts_exactly_witness :
  (13 <= List.length
           (cpu_vendor (final_state (identify_cpu_cpuid amd_world
                                       initial_state))))%nat
  /\ exists g',
       identify_cpu_classify
         (final_state (identify_cpu_cpuid amd_world initial_state))
       = Done tt g'.
Proof.
  assert (H : (13 <= List.length
                       (cpu_vendor (final_state (identify_cpu_cpuid amd_world
                                                   initial_state))))%nat)
    by (vm_compute; repeat constructor).
  split; [exact H|].
  destruct (classify_accepts_exactly _ H) as (_ & _ & _ & A & _).
  apply A; reflexivity.
Defined.

Lemma unit_scale_once_witness :
  fresh (set_verbose 1 initial_state)
  /\ identify_cpu amd_world (example_msr 0x1000 0)
       (set_verbose 1 initial_state) = Done tt amd_started
  /\ main_loop 1 [example_msr 0 65536; example_msr 0 196608] amd_started
     = Done tt (final_state
                  (main_loop 1 [example_msr 0 65536; example_msr 0 196608]
                     amd_started))
  /\ amd_energy_units amd_started = 16
  /\ msr_log amd_started = [(3, AMD_ENERGY_PWR_UNIT_MSR)].
Proof.
  assert (H1 : identify_cpu amd_world (example_msr 0x1000 0)
                 (set_verbose 1 initial_state) = Done tt amd_started)
    by (vm_compute; reflexivity).
  assert (H2 : main_loop 1 [example_msr 0 65536; example_msr 0 196608]
                 amd_started
               = Done tt (final_state
                            (main_loop 1 [example_msr 0 65536;
                                          example_msr 0 196608]
                               amd_started)))
    by (vm_compute; reflexivity).
  split; [apply fresh_set_verbose|]. split; [exact H1|]. split; [exact H2|].
  destruct (unit_scale_once _ _ _ _ _ _ _ (fresh_set_verbose 1) H1 H2)
    as (data & later & A & B & C & _).
  split; [|rewrite B; vm_compute; reflexivity].
  change (cpu amd_started) with AMD in C. rewrite C.
  assert (E : data = 0x1000) by (vm_compute in A; now inversion A).
  rewrite E. reflexivity.
Defined.

Lemma physical_unit_count_witness :
  0 <= nprocessors_conf amd_world < 2 ^ 32
  /\ identify_cpu amd_world (example_msr 0x1000 0)
       (set_verbose 1 initial_state) = Done tt amd_started
  /\ share_count amd_started = 2
  /\ cpu_count amd_started = 4 / 2.
Proof.
  assert (H1 : 0 <= nprocessors_conf amd_world < 2 ^ 32)
    by (vm_compute; split; [discriminate|reflexivity]).
  assert (H2 : identify_cpu amd_world (example_msr 0x1000 0)
                 (set_verbose 1 initial_state) = Done tt amd_started)
    by (vm_compute; reflexivity).
  split; [exact H1|]. split; [exact H2|].
  destruct (physical_unit_count _ _ _ _ H1 H2) as (_ & A & _ & _ & B).
  split; [rewrite A; reflexivity|]. apply B. rewrite A. reflexivity.
Defined.

Lemma amd_format_gated_on_units_witness :
  count_fits amd_zero_tick1
  /\ read_power (example_msr 0 196608) amd_zero_tick1
     = Done tt (final_state (read_power (example_msr 0 196608)
                               amd_zero_tick1))
  /\ cpu amd_zero_tick1 = AMD /\ amd_energy_units amd_zero_tick1 = 0
  /\ Forall (fun e => is_amd_format e = false)
            (tick_events amd_zero_tick1 (example_msr 0 196608))
  /\ exists raw,
       example_msr 0 196608 (fd (softc amd_zero_tick1 0))
                   (core_msr amd_zero_tick1) = Some raw
       /\ last (softc (final_state (read_power (example_msr 0 196608)
                                      amd_zero_tick1)) 0)
          = watts_of amd_zero_tick1 0 raw.
Proof.
  assert (H1 : count_fits amd_zero_tick1) by (vm_compute; split; [discriminate|reflexivity]).
  assert (H2 : read_power (example_msr 0 196608) amd_zero_tick1
               = Done tt (final_state (read_power (example_msr 0 196608)
                                         amd_zero_tick1)))
    by (vm_compute; reflexivity).
  split; [exact H1|]. split; [exact H2|]. split; [reflexivity|].
  split; [reflexivity|].
  destruct (amd_format_gated_on_units _ _ _ H1 H2) as (_ & A & _ & B).
  split; [apply A; reflexivity|].
  destruct (B ltac:(vm_compute; discriminate) ltac:(vm_compute; discriminate)
              0 ltac:(vm_compute; split; [discriminate|reflexivity]))
    as (raw & R1 & _ & R2).
  exists raw. auto.
Defined.


Lemma registers_read_by_a_tick_witness :
  identified amd_started /\ count_fits amd_started
  /\ read_power (example_msr 0 65536) amd_started = Done tt amd_tick1
  /\ msr_log amd_tick1
     = msr_log amd_started
       ++ [(3, AMD_ENERGY_CORE_MSR); (5, AMD_ENERGY_CORE_MSR);
           (3, AMD_ENERGY_PKG_MSR)].
Proof.
  assert (H1 : identified amd_started)
    by (vm_compute; repeat split; discriminate).
  assert (H2 : count_fits amd_started)
    by (vm_compute; split; [discriminate|reflexivity]).
  assert (H3 : read_power (example_msr 0 65536) amd_started
               = Done tt amd_tick1) by (vm_compute; reflexivity).
  split; [exact H1|]. split; [exact H2|]. split; [exact H3|].
  rewrite (registers_read_by_a_tick _ _ _ H1 H2 H3). reflexivity.
Defined.

Lemma sampling_loop_invariants_witness :
  main_loop 1 [example_msr 0 65536; example_msr 0 196608] amd_started
  = Done tt (final_state
               (main_loop 1 [example_msr 0 65536; example_msr 0 196608]
                          amd_started))
  /\ config (final_state
               (main_loop 1 [example_msr 0 65536; example_msr 0 196608]
                          amd_started))
     = config amd_started
  /\ first (final_state
              (main_loop 1 [example_msr 0 65536; example_msr 0 196608]
                         amd_started))
     = false.
Proof.
  assert (H : main_loop 1 [example_msr 0 65536; example_msr 0 196608]
                        amd_started
              = Done tt (final_state
                           (main_loop 1 [example_msr 0 65536;
                                         example_msr 0 196608]
                                      amd_started)))
    by (vm_compute; reflexivity).
  split; [exact H|].
  destruct (sampling_loop_invariants _ _ _ _ H) as (A & _ & _ & B & _).
  split; [exact A|]. apply B. discriminate.
Defined.

Lemma devices_behind_handles_witness :
  count_fits amd_started
  /\ open_msrs amd_world amd_started
     = Done tt (final_state (open_msrs amd_world amd_started))
  /\ fd (softc (final_state (open_msrs amd_world amd_started)) 1)
     = dev_open amd_world 2.
Proof.
  assert (H1 : count_fits amd_started)
    by (vm_compute; split; [discriminate|reflexivity]).
  assert (H2 : open_msrs amd_world amd_started
               = Done tt (final_state (open_msrs amd_world amd_started)))
    by (vm_compute; reflexivity).
  split; [exact H1|]. split; [exact H2|].
  destruct (devices_behind_handles _ _ _ H1 H2) as (_ & A & _).
  exact (proj1 (A eq_refl 1 ltac:(vm_compute; split; [discriminate|reflexivity]))).
Defined.

Lemma device_0_must_open_witness :
  count_fits amd_started /\ dev_open no_driver_world 0 = -1
  /\ exists g',
       open_msrs no_driver_world amd_started = Exited 1 g'
       /\ stdout g' = stdout amd_started ++ [PrintDriverHint].
Proof.
  assert (H1 : count_fits amd_started)
    by (vm_compute; split; [discriminate|reflexivity]).
  split; [exact H1|]. split; [reflexivity|].
  destruct (device_0_must_open no_driver_world amd_started H1 eq_refl)
    as (g' & A & B & _).
  exists g'. auto.
Defined.

Lemma start_up_output_witness :
  0 <= nprocessors_conf intel_world < 2 ^ 31
  /\ identify_cpu intel_world (example_msr 0x0a00 0)
       (set_verbose 2 initial_state) = Done tt intel_started
  /\ stdout intel_started
     = [PrintThreads 4 4; PrintUnitsIntel (energy_units intel_started)].
Proof.
  assert (H1 : 0 <= nprocessors_conf intel_world < 2 ^ 31)
    by (vm_compute; split; [discriminate|reflexivity]).
  assert (H2 : identify_cpu intel_world (example_msr 0x0a00 0)
                 (set_verbose 2 initial_state) = Done tt intel_started)
    by (vm_compute; reflexivity).
  split; [exact H1|]. split; [exact H2|].
  rewrite (proj2 (start_up_output _ _ _ _ H1 H2)). reflexivity.
Defined.

Lemma signature_decoded_witness :
  signature 0 0 0xf 0 3 0xa 0 = 0x00A30F00
  /\ CPUID_TO_FAMILY 0x00A30F00 = 0x19 /\ CPUID_TO_MODEL 0x00A30F00 = 0x30.
Proof.
  split; [reflexivity|].
  exact (signature_decoded 0 0 0xf 0 3 0xa 0
           ltac:(vm_compute; split; [discriminate|reflexivity])
           ltac:(vm_compute; split; [discriminate|reflexivity])
           ltac:(vm_compute; split; [discriminate|reflexivity])
           ltac:(vm_compute; split; [discriminate|reflexivity])
           ltac:(vm_compute; split; [discriminate|reflexivity])
           ltac:(vm_compute; split; [discriminate|reflexivity])
           ltac:(vm_compute; split; [discriminate|reflexivity])).
Defined.

Lemma vendor_string_from_cpuid_witness :
  List.length authentic_amd = 12%nat
  /\ cpuid amd_world 0 0
     = (0x10, pack (firstn 4 authentic_amd), pack (skipn 8 authentic_amd),
        pack (firstn 4 (skipn 4 authentic_amd)))
  /\ exists g',
       identify_cpu_cpuid amd_world initial_state = Done tt g'
       /\ vendor_is g' "AuthenticAMD".
Proof.
  split; [reflexivity|]. split; [reflexivity|].
  destruct (vendor_string_from_cpuid amd_world initial_state authentic_amd
              0x10 eq_refl) as (g' & A & _ & _ & B).
  - repeat constructor; discriminate.
  - reflexivity.
  - reflexivity.
  - exists g'. split; [exact A|]. apply B. reflexivity.
Defined.

Lemma allocation_failure_ends_start_up_witness :
  calloc_ok no_memory_world = false
  /\ List.length (cpu_vendor initial_state) = 20%nat
  /\ identify_cpu_cpuid no_memory_world initial_state
     = Done tt (final_state (identify_cpu_cpuid no_memory_world
                               initial_state))
  /\ accepted (final_state (identify_cpu_cpuid no_memory_world
                              initial_state))
  /\ exists g',
       identify_cpu no_memory_world (example_msr 0x1000 0) initial_state
       = Exited 1 g'
       /\ stdout g' = [] /\ stderr g' = [Perror "malloc"].
Proof.
  assert (H : accepted (final_state (identify_cpu_cpuid no_memory_world
                                       initial_state)))
    by (left; split; vm_compute; reflexivity).
  split; [reflexivity|]. split; [reflexivity|]. split; [reflexivity|].
  split; [exact H|].
  destruct (allocation_failure_ends_start_up no_memory_world
              (example_msr 0x1000 0) initial_state _ eq_refl eq_refl eq_refl)
    as (A & _).
  destruct (A H) as (g' & B & C & D & _).
  exists g'. auto.
Defined.

(** * The scenarios of the specification, evaluated *)

(** Intel, family 6 model 0x55, interval 2, no [-v]: the first tick
    prints nothing, the second prints [(3000 - 1000) * 0.5^10 * 0.5]. *)
Example intel_interval_2 :
  stdout (final_state (intel_run 2%float)) = [PrintPlain 0.9765625; PrintNl].
Proof. vm_compute. reflexivity. Qed.

(** AMD with two [-v]: the first tick is printed, with the table. *)
Example amd_verbosity_2 :
  stdout (final_state
            (main "pmon" ["v"%char; "v"%char] None amd_world
                  (example_msr 0x1000 0) [example_msr 0 65536] initial_state))
  = [PrintThreads 4 2; PrintUnitsAMD 16; PrintRule; PrintCoreHdr 0;
     PrintCore 0 1.0000457763671875; PrintCore 1 1.0000762939453125; PrintNl;
     PrintRule; PrintPkg 1.0000457763671875; PrintCoreSum 2.00012207031250;
     PrintNl].
Proof. vm_compute. reflexivity. Qed.

(** AMD family 0x19 model 0x02 is turned away with status 1. *)
Example amd_model_02_rejected :
  exists g,
    main "pmon" [] None amd_world_model_02 (example_msr 0x1000 0) []
         initial_state = Exited 1 g
    /\ stdout g = [PrintUnsupportedCPU 0x19 0x02].
Proof. eexists. split; vm_compute; reflexivity. Qed.

(** [1 << 31] does not fit an [int]: for the unit exponent 31 the divisor
    of [amd_add_power] is not the power of two. *)
Example int_shift_31 : s32 (Z.shiftl 1 31) = - 2 ^ 31.
Proof. reflexivity. Qed.

(** AMD with a power-unit register whose exponent field reads 31: the
    conversion is the negative of the one with the divisor [2^31]. *)
Example amd_unit_exponent_31 :
  let g := final_state (identify_cpu amd_world (example_msr 0x1f00 0)
                          (set_verbose 1 initial_state)) in
  amd_energy_units g = 31
  /\ watts_of g 2 65536 = (-3.0517578125e-05)%float
  /\ f_amd_power_of_two 31 65536 = 3.0517578125e-05%float.
Proof.
  cbv zeta. split; [vm_compute; reflexivity|].
  split; vm_compute; reflexivity.
Qed.

(** Intel with two [-v] on a heap that holds 7.0 past the array: the
    first tick prints the DRAM reading, [1003 * 0.5^16], less 7. *)
Example first_tick_stale_dram :
  stdout (final_state (read_power (example_msr 0 1000) intel_stale_started))
  = [PrintThreads 4 4; PrintUnitsIntel 0.0009765625; PrintPkg 0.9794921875;
     PrintDram (-6.9846954345703125); PrintNl].
Proof. vm_compute. reflexivity. Qed.

(** The AMD machine with the options [-x -v]: two ticks as with [-v]
    alone, after the line of [getopt] and the usage message. *)
Example unknown_option_run :
  let run := main "pmon" ["x"%char; "v"%char] None amd_world
                  (example_msr 0x1000 0)
                  [example_msr 0 65536; example_msr 0 196608]
                  initial_state in
  run = Done tt (final_state run)
  /\ stdout (final_state run) = stdout (final_state amd_run)
  /\ stderr (final_state run) = [GetoptInvalid "pmon" "x"; Usage "pmon"]
  /\ slept (final_state run) = [1; 1].
Proof.
  cbv zeta. split; [vm_compute; reflexivity|].
  split; [vm_compute; reflexivity|]. split; vm_compute; reflexivity.
Qed.
